(** * bigboy: a shallow embedding of the Game Boy (DMG) core

    The Go package [gameboy] is embedded function by function.  Integers are
    [Z] with the wrap-around of their Go type written out at every operation
    that can leave the type's range; fixed-size Go arrays are total functions
    from the index, with the bound check written out wherever the index is
    not masked into range by the source; slices are lists; a panic is an
    explicit result. *)

From Stdlib Require Import ZArith List Bool Lia Permutation.
Import ListNotations.
Local Open Scope Z_scope.

(** ** Go integer types

    [uint] and [int] are taken to be 64 bits wide (the amd64 target). *)

Definition uint8 (z : Z) : Z := z mod 256.
Definition uint16 (z : Z) : Z := z mod 65536.
Definition uint (z : Z) : Z := z mod 2 ^ 64.

Definition int8 (z : Z) : Z :=
  let u := z mod 256 in if u <? 128 then u else u - 256.

Definition int (z : Z) : Z :=
  let u := z mod 2 ^ 64 in if u <? 2 ^ 63 then u else u - 2 ^ 64.

(** Bitwise complement of a [uint8]. *)
Definition not8 (z : Z) : Z := Z.lxor (uint8 z) 255.

(** A fixed-size array [[n]T] is a function of the index; [upd] is the
    assignment [a[i] = v]. *)
Definition upd {A : Type} (a : Z -> A) (i : Z) (v : A) : Z -> A :=
  fun j => if j =? i then v else a j.

(** Indexing a slice; [None] is the run-time panic of an index out of range. *)
Definition index (s : list Z) (i : Z) : option Z :=
  if i <? 0 then None else nth_error s (Z.to_nat i).

Definition len (s : list Z) : Z := Z.of_nat (List.length s).

(** ** util.go *)

Definition bit (b : Z) : Z := uint8 (Z.shiftl 1 b).

(** [setBit(word *uint8, bit uint8, set bool)]: the pointee goes in and the
    updated pointee comes out. *)
Definition setBit (word : Z) (b : Z) (set : bool) : Z :=
  if set then Z.lor word (uint8 (Z.shiftl 1 b))
  else Z.land word (not8 (Z.shiftl 1 b)).

(** [getBit(word, bit, set *bool)]: the value stored through [set]. *)
Definition getBit (word : Z) (b : Z) : bool :=
  negb (Z.land word (uint8 (Z.shiftl 1 b)) =? 0).

Definition wide (hi lo : Z) : Z := Z.lor (Z.shiftl hi 8) lo.

Definition narrow (n : Z) : Z * Z := (uint8 (Z.shiftl n 8), uint8 (Z.land n 255)).

(** ** mem.go *)

(** Work RAM, [type WRAM [0x2000]byte]. *)
Module WRAM.
Definition t : Type := Z -> Z.

Definition Read (ram : t) (addr : Z) : Z := ram (Z.land addr 0x1fff).

Definition Write (ram : t) (addr value : Z) : t :=
  upd ram (Z.land addr 0x1fff) value.
End WRAM.

(** A cartridge without a mapper, [type ROM []byte]. *)
Module ROM.
Definition t : Type := list Z.

Definition Read (rom : t) (addr : Z) : option Z :=
  if len rom <=? int addr then Some 0xff else index rom addr.

Definition Write (rom : t) (addr value : Z) : t := rom.
End ROM.

(** A cartridge with the MBC1 mapper. *)
Module MBC1Cartridge.
Record t : Type := mk {
  rom : list Z;
  ram : list Z;
  enableram : bool;
  rombank : Z;
  rambank : Z
}.

Definition NewMBC1Cartridge (r : list Z) : t :=
  mk r (repeat 0 (Z.to_nat 0x2000)) false 0 0.

Definition Read (cart : t) (addr : Z) : option Z :=
  if (0 <=? addr) && (addr <? 0x4000) then
    if len (rom cart) <=? int addr then Some 0xff
    else index (rom cart) addr
  else if (0x4000 <=? addr) && (addr <? 0x8000) then
    let romaddr := uint (Z.land addr 0x3fff) in
    let bank := rombank cart in
    let bank := if Z.land bank 0x1f =? 0 then uint (bank + 1) else bank in
    let romaddr := uint (romaddr + uint (Z.shiftl bank 14)) in
    if len (rom cart) <=? int romaddr then Some 0xff
    else index (rom cart) romaddr
  else if (0xa000 <=? addr) && (addr <? 0xc000) then
    let ramaddr := uint (Z.land addr 0x1fff) in
    let bank := rambank cart in
    let ramaddr := uint (ramaddr + uint (Z.shiftl bank 13)) in
    if len (ram cart) <=? int addr then Some 0xff
    else index (ram cart) ramaddr
  else Some 0xff.

Definition Write (cart : t) (addr value : Z) : t :=
  if (0 <=? addr) && (addr <? 0x2000) then
    mk (rom cart) (ram cart) (Z.land value 0xf =? 0xa) (rombank cart) (rambank cart)
  else if (0x2000 <=? addr) && (addr <? 0x4000) then
    mk (rom cart) (ram cart) (enableram cart) value (rambank cart)
  else cart.
End MBC1Cartridge.

(** The machine holds its cartridge behind the [IO] interface; the two
  implementations of the package are the two variants. *)
Inductive Cartridge : Type :=
| CartROM (r : ROM.t)
| CartMBC1 (c : MBC1Cartridge.t).

Module Cart.
Definition Read (cart : Cartridge) (addr : Z) : option Z :=
  match cart with
  | CartROM r => ROM.Read r addr
  | CartMBC1 c => MBC1Cartridge.Read c addr
  end.

Definition Write (cart : Cartridge) (addr value : Z) : Cartridge :=
  match cart with
  | CartROM r => CartROM (ROM.Write r addr value)
  | CartMBC1 c => CartMBC1 (MBC1Cartridge.Write c addr value)
  end.
End Cart.

(** ** The gamepad (declared in disasm.go) *)

Module Gamepad.
Record t : Type := mk {
  Down : bool; Up : bool; Left : bool; Right : bool;
  Start : bool; Select : bool; B : bool; A : bool
}.

Definition released : t := mk false false false false false false false false.
End Gamepad.

(** ** cpu.go: constants, the CPU state and its memory-mapped registers *)

Definition intVBlank : Z := Z.shiftl 1 0.
Definition intLCDStat : Z := Z.shiftl 1 1.
Definition intTimer : Z := Z.shiftl 1 2.
Definition intSerial : Z := Z.shiftl 1 3.
Definition intGamepad : Z := Z.shiftl 1 4.

Definition carryFlag : Z := Z.shiftl 1 4.
Definition halfCarryFlag : Z := Z.shiftl 1 5.
Definition subtractFlag : Z := Z.shiftl 1 6.
Definition zeroFlag : Z := Z.shiftl 1 7.
Definition allFlags : Z :=
  Z.lor (Z.lor (Z.lor carryFlag halfCarryFlag) subtractFlag) zeroFlag.

(** The entries of the Go map [interruptVectorMap], as written in the source. *)
Definition interruptVectorMap : list (Z * Z) :=
  [ (intVBlank, 0x0040);
    (intLCDStat, 0x0048);
    (intTimer, 0x0050);
    (intSerial, 0x0058);
    (intGamepad, 0x0060) ].

Module CPU.
Import Gamepad.

Record t : Type := mk {
  a : Z;
  f : Z;
  b : Z;
  c : Z;
  d : Z;
  e : Z;
  h : Z;
  l : Z;
  sp : Z;
  pc : Z;
  hram : Z -> Z;
  irq : Z;
  ie : Z;
  ime : bool;
  clock : Z;
  halt : bool;
  stop : bool;
  gamepad : Gamepad.t;
  button : bool;
  dpad : bool;
  dma : bool;
  dmabank : Z;
  dmaindex : Z;
  timer : Z;
  tima : Z;
  tma : Z;
  div : Z;
  trace : bool
}.

Definition set_a (v : Z) (x : t) : t :=
  mk v (f x) (b x) (c x) (d x) (e x) (h x) (l x) (sp x) (pc x) (hram x) (irq x) (ie x) (ime x) (clock x) (halt x) (stop x) (gamepad x) (button x) (dpad x) (dma x) (dmabank x) (dmaindex x) (timer x) (tima x) (tma x) (div x) (trace x).
Definition set_f (v : Z) (x : t) : t :=
  mk (a x) v (b x) (c x) (d x) (e x) (h x) (l x) (sp x) (pc x) (hram x) (irq x) (ie x) (ime x) (clock x) (halt x) (stop x) (gamepad x) (button x) (dpad x) (dma x) (dmabank x) (dmaindex x) (timer x) (tima x) (tma x) (div x) (trace x).
Definition set_b (v : Z) (x : t) : t :=
  mk (a x) (f x) v (c x) (d x) (e x) (h x) (l x) (sp x) (pc x) (hram x) (irq x) (ie x) (ime x) (clock x) (halt x) (stop x) (gamepad x) (button x) (dpad x) (dma x) (dmabank x) (dmaindex x) (timer x) (tima x) (tma x) (div x) (trace x).
Definition set_c (v : Z) (x : t) : t :=
  mk (a x) (f x) (b x) v (d x) (e x) (h x) (l x) (sp x) (pc x) (hram x) (irq x) (ie x) (ime x) (clock x) (halt x) (stop x) (gamepad x) (button x) (dpad x) (dma x) (dmabank x) (dmaindex x) (timer x) (tima x) (tma x) (div x) (trace x).
Definition set_d (v : Z) (x : t) : t :=
  mk (a x) (f x) (b x) (c x) v (e x) (h x) (l x) (sp x) (pc x) (hram x) (irq x) (ie x) (ime x) (clock x) (halt x) (stop x) (gamepad x) (button x) (dpad x) (dma x) (dmabank x) (dmaindex x) (timer x) (tima x) (tma x) (div x) (trace x).
Definition set_e (v : Z) (x : t) : t :=
  mk (a x) (f x) (b x) (c x) (d x) v (h x) (l x) (sp x) (pc x) (hram x) (irq x) (ie x) (ime x) (clock x) (halt x) (stop x) (gamepad x) (button x) (dpad x) (dma x) (dmabank x) (dmaindex x) (timer x) (tima x) (tma x) (div x) (trace x).
Definition set_h (v : Z) (x : t) : t :=
  mk (a x) (f x) (b x) (c x) (d x) (e x) v (l x) (sp x) (pc x) (hram x) (irq x) (ie x) (ime x) (clock x) (halt x) (stop x) (gamepad x) (button x) (dpad x) (dma x) (dmabank x) (dmaindex x) (timer x) (tima x) (tma x) (div x) (trace x).
Definition set_l (v : Z) (x : t) : t :=
  mk (a x) (f x) (b x) (c x) (d x) (e x) (h x) v (sp x) (pc x) (hram x) (irq x) (ie x) (ime x) (clock x) (halt x) (stop x) (gamepad x) (button x) (dpad x) (dma x) (dmabank x) (dmaindex x) (timer x) (tima x) (tma x) (div x) (trace x).
Definition set_sp (v : Z) (x : t) : t :=
  mk (a x) (f x) (b x) (c x) (d x) (e x) (h x) (l x) v (pc x) (hram x) (irq x) (ie x) (ime x) (clock x) (halt x) (stop x) (gamepad x) (button x) (dpad x) (dma x) (dmabank x) (dmaindex x) (timer x) (tima x) (tma x) (div x) (trace x).
Definition set_pc (v : Z) (x : t) : t :=
  mk (a x) (f x) (b x) (c x) (d x) (e x) (h x) (l x) (sp x) v (hram x) (irq x) (ie x) (ime x) (clock x) (halt x) (stop x) (gamepad x) (button x) (dpad x) (dma x) (dmabank x) (dmaindex x) (timer x) (tima x) (tma x) (div x) (trace x).
Definition set_hram (v : Z -> Z) (x : t) : t :=
  mk (a x) (f x) (b x) (c x) (d x) (e x) (h x) (l x) (sp x) (pc x) v (irq x) (ie x) (ime x) (clock x) (halt x) (stop x) (gamepad x) (button x) (dpad x) (dma x) (dmabank x) (dmaindex x) (timer x) (tima x) (tma x) (div x) (trace x).
Definition set_irq (v : Z) (x : t) : t :=
  mk (a x) (f x) (b x) (c x) (d x) (e x) (h x) (l x) (sp x) (pc x) (hram x) v (ie x) (ime x) (clock x) (halt x) (stop x) (gamepad x) (button x) (dpad x) (dma x) (dmabank x) (dmaindex x) (timer x) (tima x) (tma x) (div x) (trace x).
Definition set_ie (v : Z) (x : t) : t :=
  mk (a x) (f x) (b x) (c x) (d x) (e x) (h x) (l x) (sp x) (pc x) (hram x) (irq x) v (ime x) (clock x) (halt x) (stop x) (gamepad x) (button x) (dpad x) (dma x) (dmabank x) (dmaindex x) (timer x) (tima x) (tma x) (div x) (trace x).
Definition set_ime (v : bool) (x : t) : t :=
  mk (a x) (f x) (b x) (c x) (d x) (e x) (h x) (l x) (sp x) (pc x) (hram x) (irq x) (ie x) v (clock x) (halt x) (stop x) (gamepad x) (button x) (dpad x) (dma x) (dmabank x) (dmaindex x) (timer x) (tima x) (tma x) (div x) (trace x).
Definition set_clock (v : Z) (x : t) : t :=
  mk (a x) (f x) (b x) (c x) (d x) (e x) (h x) (l x) (sp x) (pc x) (hram x) (irq x) (ie x) (ime x) v (halt x) (stop x) (gamepad x) (button x) (dpad x) (dma x) (dmabank x) (dmaindex x) (timer x) (tima x) (tma x) (div x) (trace x).
Definition set_halt (v : bool) (x : t) : t :=
  mk (a x) (f x) (b x) (c x) (d x) (e x) (h x) (l x) (sp x) (pc x) (hram x) (irq x) (ie x) (ime x) (clock x) v (stop x) (gamepad x) (button x) (dpad x) (dma x) (dmabank x) (dmaindex x) (timer x) (tima x) (tma x) (div x) (trace x).
Definition set_stop (v : bool) (x : t) : t :=
  mk (a x) (f x) (b x) (c x) (d x) (e x) (h x) (l x) (sp x) (pc x) (hram x) (irq x) (ie x) (ime x) (clock x) (halt x) v (gamepad x) (button x) (dpad x) (dma x) (dmabank x) (dmaindex x) (timer x) (tima x) (tma x) (div x) (trace x).
Definition set_gamepad (v : Gamepad.t) (x : t) : t :=
  mk (a x) (f x) (b x) (c x) (d x) (e x) (h x) (l x) (sp x) (pc x) (hram x) (irq x) (ie x) (ime x) (clock x) (halt x) (stop x) v (button x) (dpad x) (dma x) (dmabank x) (dmaindex x) (timer x) (tima x) (tma x) (div x) (trace x).
Definition set_button (v : bool) (x : t) : t :=
  mk (a x) (f x) (b x) (c x) (d x) (e x) (h x) (l x) (sp x) (pc x) (hram x) (irq x) (ie x) (ime x) (clock x) (halt x) (stop x) (gamepad x) v (dpad x) (dma x) (dmabank x) (dmaindex x) (timer x) (tima x) (tma x) (div x) (trace x).
Definition set_dpad (v : bool) (x : t) : t :=
  mk (a x) (f x) (b x) (c x) (d x) (e x) (h x) (l x) (sp x) (pc x) (hram x) (irq x) (ie x) (ime x) (clock x) (halt x) (stop x) (gamepad x) (button x) v (dma x) (dmabank x) (dmaindex x) (timer x) (tima x) (tma x) (div x) (trace x).
Definition set_dma (v : bool) (x : t) : t :=
  mk (a x) (f x) (b x) (c x) (d x) (e x) (h x) (l x) (sp x) (pc x) (hram x) (irq x) (ie x) (ime x) (clock x) (halt x) (stop x) (gamepad x) (button x) (dpad x) v (dmabank x) (dmaindex x) (timer x) (tima x) (tma x) (div x) (trace x).
Definition set_dmabank (v : Z) (x : t) : t :=
  mk (a x) (f x) (b x) (c x) (d x) (e x) (h x) (l x) (sp x) (pc x) (hram x) (irq x) (ie x) (ime x) (clock x) (halt x) (stop x) (gamepad x) (button x) (dpad x) (dma x) v (dmaindex x) (timer x) (tima x) (tma x) (div x) (trace x).
Definition set_dmaindex (v : Z) (x : t) : t :=
  mk (a x) (f x) (b x) (c x) (d x) (e x) (h x) (l x) (sp x) (pc x) (hram x) (irq x) (ie x) (ime x) (clock x) (halt x) (stop x) (gamepad x) (button x) (dpad x) (dma x) (dmabank x) v (timer x) (tima x) (tma x) (div x) (trace x).
Definition set_timer (v : Z) (x : t) : t :=
  mk (a x) (f x) (b x) (c x) (d x) (e x) (h x) (l x) (sp x) (pc x) (hram x) (irq x) (ie x) (ime x) (clock x) (halt x) (stop x) (gamepad x) (button x) (dpad x) (dma x) (dmabank x) (dmaindex x) v (tima x) (tma x) (div x) (trace x).
Definition set_tima (v : Z) (x : t) : t :=
  mk (a x) (f x) (b x) (c x) (d x) (e x) (h x) (l x) (sp x) (pc x) (hram x) (irq x) (ie x) (ime x) (clock x) (halt x) (stop x) (gamepad x) (button x) (dpad x) (dma x) (dmabank x) (dmaindex x) (timer x) v (tma x) (div x) (trace x).
Definition set_tma (v : Z) (x : t) : t :=
  mk (a x) (f x) (b x) (c x) (d x) (e x) (h x) (l x) (sp x) (pc x) (hram x) (irq x) (ie x) (ime x) (clock x) (halt x) (stop x) (gamepad x) (button x) (dpad x) (dma x) (dmabank x) (dmaindex x) (timer x) (tima x) v (div x) (trace x).
Definition set_div (v : Z) (x : t) : t :=
  mk (a x) (f x) (b x) (c x) (d x) (e x) (h x) (l x) (sp x) (pc x) (hram x) (irq x) (ie x) (ime x) (clock x) (halt x) (stop x) (gamepad x) (button x) (dpad x) (dma x) (dmabank x) (dmaindex x) (timer x) (tima x) (tma x) v (trace x).
Definition set_trace (v : bool) (x : t) : t :=
  mk (a x) (f x) (b x) (c x) (d x) (e x) (h x) (l x) (sp x) (pc x) (hram x) (irq x) (ie x) (ime x) (clock x) (halt x) (stop x) (gamepad x) (button x) (dpad x) (dma x) (dmabank x) (dmaindex x) (timer x) (tima x) (tma x) (div x) v.

(** The zero value of the struct. *)
Definition zero : t :=
  mk 0 0 0 0 0 0 0 0 0 0 (fun _ => 0) 0 0 false 0 false false
     Gamepad.released false false false 0 0 0 0 0 0 false.

Definition Read (cpu : t) (addr : Z) : Z * t :=
  if addr =? 0xFF00 then
    let value := 0xF in
    (* Button bits *)
    let button_ := 0xF in
    let button_ := setBit button_ 0 (negb (A (gamepad cpu))) in
    let button_ := setBit button_ 1 (negb (B (gamepad cpu))) in
    let button_ := setBit button_ 2 (negb (Select (gamepad cpu))) in
    let button_ := setBit button_ 3 (negb (Start (gamepad cpu))) in
    let value := if button cpu then Z.land value button_ else value in
    (* DPad bits *)
    let dpad_ := 0xF in
    let dpad_ := setBit dpad_ 0 (negb (Right (gamepad cpu))) in
    let dpad_ := setBit dpad_ 1 (negb (Left (gamepad cpu))) in
    let dpad_ := setBit dpad_ 2 (negb (Up (gamepad cpu))) in
    let dpad_ := setBit dpad_ 3 (negb (Down (gamepad cpu))) in
    let value := if dpad cpu then Z.land value dpad_ else value in
    (* Fire interrupt if anything pressed *)
    let cpu := if negb (value =? 0xF)
               then set_ie (Z.lor (ie cpu) intGamepad) cpu else cpu in
    (* Select bits *)
    let value := setBit value 4 (negb (dpad cpu)) in
    let value := setBit value 5 (negb (button cpu)) in
    (value, cpu)
  else if (addr =? 0xFF01) || (addr =? 0xFF02) then (0xFF, cpu)
  else if addr =? 0xFF04 then (uint8 (div cpu), cpu)
  else if addr =? 0xFF05 then (tima cpu, cpu)
  else if addr =? 0xFF06 then (tma cpu, cpu)
  else if addr =? 0xFF07 then (timer cpu, cpu)
  else if addr =? 0xFF0F then (irq cpu, cpu)
  else if (0xFF80 <=? addr) && (addr <? 0xFFFF) then
    (hram cpu (Z.land addr 0x7F), cpu)
  else if addr =? 0xFFFF then (Z.land (ie cpu) 0x1f, cpu)
  else (0xFF, cpu).

Definition Write (cpu : t) (addr value : Z) : t :=
  if addr =? 0xFF00 then
    let cpu := set_dpad (getBit (not8 value) 4) cpu in
    set_button (getBit (not8 value) 5) cpu
  else if addr =? 0xFF04 then set_div 0 cpu
  else if addr =? 0xFF05 then set_tima value cpu
  else if addr =? 0xFF06 then set_tma value cpu
  else if addr =? 0xFF07 then set_timer value cpu
  else if addr =? 0xFF0F then set_irq value cpu
  else if addr =? 0xFF46 then
    let cpu := set_dma true cpu in
    let cpu := set_dmabank value cpu in
    set_dmaindex 0 cpu
  else if (0xFF80 <=? addr) && (addr <? 0xFFFF) then
    set_hram (upd (hram cpu) (Z.land addr 0x7F) value) cpu
  else if addr =? 0xFFFF then set_ie (Z.land value 0x1f) cpu
  else cpu.

(** *** ops.go: register pairs and flags *)

Definition af (cpu : t) : Z := Z.lor (Z.shiftl (a cpu) 8) (f cpu).
Definition bc (cpu : t) : Z := Z.lor (Z.shiftl (b cpu) 8) (c cpu).
Definition de (cpu : t) : Z := Z.lor (Z.shiftl (d cpu) 8) (e cpu).
Definition hl (cpu : t) : Z := Z.lor (Z.shiftl (h cpu) 8) (l cpu).

Definition setAF (value : Z) (cpu : t) : t :=
  set_f (uint8 (Z.land value 0xf0)) (set_a (uint8 (Z.shiftr value 8)) cpu).
Definition setBC (value : Z) (cpu : t) : t :=
  set_c (uint8 (Z.land value 0xff)) (set_b (uint8 (Z.shiftr value 8)) cpu).
Definition setDE (value : Z) (cpu : t) : t :=
  set_e (uint8 (Z.land value 0xff)) (set_d (uint8 (Z.shiftr value 8)) cpu).
Definition setHL (value : Z) (cpu : t) : t :=
  set_l (uint8 (Z.land value 0xff)) (set_h (uint8 (Z.shiftr value 8)) cpu).

Definition cf (cpu : t) : bool := Z.land (f cpu) carryFlag =? carryFlag.
Definition hf (cpu : t) : bool := Z.land (f cpu) halfCarryFlag =? halfCarryFlag.
Definition sf (cpu : t) : bool := Z.land (f cpu) subtractFlag =? subtractFlag.
Definition zf (cpu : t) : bool := Z.land (f cpu) zeroFlag =? zeroFlag.

Definition setCarryFlag (set : bool) (cpu : t) : t := set_f (setBit (f cpu) 4 set) cpu.
Definition setHalfCarryFlag (set : bool) (cpu : t) : t := set_f (setBit (f cpu) 5 set) cpu.
Definition setSubtractFlag (set : bool) (cpu : t) : t := set_f (setBit (f cpu) 6 set) cpu.
Definition setZeroFlag (val : Z) (cpu : t) : t := set_f (setBit (f cpu) 7 (val =? 0)) cpu.
Definition clearFlags (flags : Z) (cpu : t) : t := set_f (Z.land (f cpu) (not8 flags)) cpu.
End CPU.

(** ** ppu.go *)

Definition rgbColors (color : Z) : option Z :=
  if color =? 0 then Some 0xFFD7E894
  else if color =? 1 then Some 0xFFAEC440
  else if color =? 2 then Some 0xFF527F39
  else if color =? 3 then Some 0xFF204631
  else None.

(** The state of an object (sprite) cached for the current scanline. *)
Module Object.
Record t : Type := mk { x : Z; y : Z; tile : Z; attr : Z; data : Z }.

Definition zero : t := mk 0 0 0 0 0.
End Object.

Module PPU.

Record t : Type := mk {
  vram : Z -> Z;
  oam : Z -> Z;
  bgp : Z -> Z;
  obp : Z -> Z -> Z;
  bgpd : Z -> Z;
  obpd : Z -> Z;
  bgColor : Z;
  bgPalette : Z;
  bgPriority : Z;
  fgColor : Z;
  fgPalette : Z;
  fgPriority : Z;
  clock : Z;
  lx : Z;
  screen : Z -> Z;
  objects : Z -> Object.t;
  numObjects : Z;
  lcdDisplayEnable : bool;
  windowTilemapEnable : bool;
  windowDisplayEnable : bool;
  bgTileDataSelect : bool;
  bgTileMapSelect : bool;
  objSize : bool;
  objDisplay : bool;
  bgDisplay : bool;
  lycInterrupt : bool;
  oamInterrupt : bool;
  vblankInterrupt : bool;
  hblankInterrupt : bool;
  modeHi : bool;
  modeLo : bool;
  scrollY : Z;
  scrollX : Z;
  ly : Z;
  lyComp : Z;
  dmaAddr : Z;
  dmaEnable : bool;
  dmaClock : Z;
  winYPos : Z;
  winXPos : Z;
  backgroundData : Z;
  backgroundAttr : Z;
  windowData : Z;
  windowAttr : Z
}.

Definition set_vram (v : Z -> Z) (x : t) : t :=
  mk v (oam x) (bgp x) (obp x) (bgpd x) (obpd x) (bgColor x) (bgPalette x) (bgPriority x) (fgColor x) (fgPalette x) (fgPriority x) (clock x) (lx x) (screen x) (objects x) (numObjects x) (lcdDisplayEnable x) (windowTilemapEnable x) (windowDisplayEnable x) (bgTileDataSelect x) (bgTileMapSelect x) (objSize x) (objDisplay x) (bgDisplay x) (lycInterrupt x) (oamInterrupt x) (vblankInterrupt x) (hblankInterrupt x) (modeHi x) (modeLo x) (scrollY x) (scrollX x) (ly x) (lyComp x) (dmaAddr x) (dmaEnable x) (dmaClock x) (winYPos x) (winXPos x) (backgroundData x) (backgroundAttr x) (windowData x) (windowAttr x).
Definition set_oam (v : Z -> Z) (x : t) : t :=
  mk (vram x) v (bgp x) (obp x) (bgpd x) (obpd x) (bgColor x) (bgPalette x) (bgPriority x) (fgColor x) (fgPalette x) (fgPriority x) (clock x) (lx x) (screen x) (objects x) (numObjects x) (lcdDisplayEnable x) (windowTilemapEnable x) (windowDisplayEnable x) (bgTileDataSelect x) (bgTileMapSelect x) (objSize x) (objDisplay x) (bgDisplay x) (lycInterrupt x) (oamInterrupt x) (vblankInterrupt x) (hblankInterrupt x) (modeHi x) (modeLo x) (scrollY x) (scrollX x) (ly x) (lyComp x) (dmaAddr x) (dmaEnable x) (dmaClock x) (winYPos x) (winXPos x) (backgroundData x) (backgroundAttr x) (windowData x) (windowAttr x).
Definition set_bgp (v : Z -> Z) (x : t) : t :=
  mk (vram x) (oam x) v (obp x) (bgpd x) (obpd x) (bgColor x) (bgPalette x) (bgPriority x) (fgColor x) (fgPalette x) (fgPriority x) (clock x) (lx x) (screen x) (objects x) (numObjects x) (lcdDisplayEnable x) (windowTilemapEnable x) (windowDisplayEnable x) (bgTileDataSelect x) (bgTileMapSelect x) (objSize x) (objDisplay x) (bgDisplay x) (lycInterrupt x) (oamInterrupt x) (vblankInterrupt x) (hblankInterrupt x) (modeHi x) (modeLo x) (scrollY x) (scrollX x) (ly x) (lyComp x) (dmaAddr x) (dmaEnable x) (dmaClock x) (winYPos x) (winXPos x) (backgroundData x) (backgroundAttr x) (windowData x) (windowAttr x).
Definition set_obp (v : Z -> Z -> Z) (x : t) : t :=
  mk (vram x) (oam x) (bgp x) v (bgpd x) (obpd x) (bgColor x) (bgPalette x) (bgPriority x) (fgColor x) (fgPalette x) (fgPriority x) (clock x) (lx x) (screen x) (objects x) (numObjects x) (lcdDisplayEnable x) (windowTilemapEnable x) (windowDisplayEnable x) (bgTileDataSelect x) (bgTileMapSelect x) (objSize x) (objDisplay x) (bgDisplay x) (lycInterrupt x) (oamInterrupt x) (vblankInterrupt x) (hblankInterrupt x) (modeHi x) (modeLo x) (scrollY x) (scrollX x) (ly x) (lyComp x) (dmaAddr x) (dmaEnable x) (dmaClock x) (winYPos x) (winXPos x) (backgroundData x) (backgroundAttr x) (windowData x) (windowAttr x).
Definition set_bgColor (v : Z) (x : t) : t :=
  mk (vram x) (oam x) (bgp x) (obp x) (bgpd x) (obpd x) v (bgPalette x) (bgPriority x) (fgColor x) (fgPalette x) (fgPriority x) (clock x) (lx x) (screen x) (objects x) (numObjects x) (lcdDisplayEnable x) (windowTilemapEnable x) (windowDisplayEnable x) (bgTileDataSelect x) (bgTileMapSelect x) (objSize x) (objDisplay x) (bgDisplay x) (lycInterrupt x) (oamInterrupt x) (vblankInterrupt x) (hblankInterrupt x) (modeHi x) (modeLo x) (scrollY x) (scrollX x) (ly x) (lyComp x) (dmaAddr x) (dmaEnable x) (dmaClock x) (winYPos x) (winXPos x) (backgroundData x) (backgroundAttr x) (windowData x) (windowAttr x).
Definition set_bgPalette (v : Z) (x : t) : t :=
  mk (vram x) (oam x) (bgp x) (obp x) (bgpd x) (obpd x) (bgColor x) v (bgPriority x) (fgColor x) (fgPalette x) (fgPriority x) (clock x) (lx x) (screen x) (objects x) (numObjects x) (lcdDisplayEnable x) (windowTilemapEnable x) (windowDisplayEnable x) (bgTileDataSelect x) (bgTileMapSelect x) (objSize x) (objDisplay x) (bgDisplay x) (lycInterrupt x) (oamInterrupt x) (vblankInterrupt x) (hblankInterrupt x) (modeHi x) (modeLo x) (scrollY x) (scrollX x) (ly x) (lyComp x) (dmaAddr x) (dmaEnable x) (dmaClock x) (winYPos x) (winXPos x) (backgroundData x) (backgroundAttr x) (windowData x) (windowAttr x).
Definition set_fgColor (v : Z) (x : t) : t :=
  mk (vram x) (oam x) (bgp x) (obp x) (bgpd x) (obpd x) (bgColor x) (bgPalette x) (bgPriority x) v (fgPalette x) (fgPriority x) (clock x) (lx x) (screen x) (objects x) (numObjects x) (lcdDisplayEnable x) (windowTilemapEnable x) (windowDisplayEnable x) (bgTileDataSelect x) (bgTileMapSelect x) (objSize x) (objDisplay x) (bgDisplay x) (lycInterrupt x) (oamInterrupt x) (vblankInterrupt x) (hblankInterrupt x) (modeHi x) (modeLo x) (scrollY x) (scrollX x) (ly x) (lyComp x) (dmaAddr x) (dmaEnable x) (dmaClock x) (winYPos x) (winXPos x) (backgroundData x) (backgroundAttr x) (windowData x) (windowAttr x).
Definition set_fgPalette (v : Z) (x : t) : t :=
  mk (vram x) (oam x) (bgp x) (obp x) (bgpd x) (obpd x) (bgColor x) (bgPalette x) (bgPriority x) (fgColor x) v (fgPriority x) (clock x) (lx x) (screen x) (objects x) (numObjects x) (lcdDisplayEnable x) (windowTilemapEnable x) (windowDisplayEnable x) (bgTileDataSelect x) (bgTileMapSelect x) (objSize x) (objDisplay x) (bgDisplay x) (lycInterrupt x) (oamInterrupt x) (vblankInterrupt x) (hblankInterrupt x) (modeHi x) (modeLo x) (scrollY x) (scrollX x) (ly x) (lyComp x) (dmaAddr x) (dmaEnable x) (dmaClock x) (winYPos x) (winXPos x) (backgroundData x) (backgroundAttr x) (windowData x) (windowAttr x).
Definition set_clock (v : Z) (x : t) : t :=
  mk (vram x) (oam x) (bgp x) (obp x) (bgpd x) (obpd x) (bgColor x) (bgPalette x) (bgPriority x) (fgColor x) (fgPalette x) (fgPriority x) v (lx x) (screen x) (objects x) (numObjects x) (lcdDisplayEnable x) (windowTilemapEnable x) (windowDisplayEnable x) (bgTileDataSelect x) (bgTileMapSelect x) (objSize x) (objDisplay x) (bgDisplay x) (lycInterrupt x) (oamInterrupt x) (vblankInterrupt x) (hblankInterrupt x) (modeHi x) (modeLo x) (scrollY x) (scrollX x) (ly x) (lyComp x) (dmaAddr x) (dmaEnable x) (dmaClock x) (winYPos x) (winXPos x) (backgroundData x) (backgroundAttr x) (windowData x) (windowAttr x).
Definition set_lx (v : Z) (x : t) : t :=
  mk (vram x) (oam x) (bgp x) (obp x) (bgpd x) (obpd x) (bgColor x) (bgPalette x) (bgPriority x) (fgColor x) (fgPalette x) (fgPriority x) (clock x) v (screen x) (objects x) (numObjects x) (lcdDisplayEnable x) (windowTilemapEnable x) (windowDisplayEnable x) (bgTileDataSelect x) (bgTileMapSelect x) (objSize x) (objDisplay x) (bgDisplay x) (lycInterrupt x) (oamInterrupt x) (vblankInterrupt x) (hblankInterrupt x) (modeHi x) (modeLo x) (scrollY x) (scrollX x) (ly x) (lyComp x) (dmaAddr x) (dmaEnable x) (dmaClock x) (winYPos x) (winXPos x) (backgroundData x) (backgroundAttr x) (windowData x) (windowAttr x).
Definition set_screen (v : Z -> Z) (x : t) : t :=
  mk (vram x) (oam x) (bgp x) (obp x) (bgpd x) (obpd x) (bgColor x) (bgPalette x) (bgPriority x) (fgColor x) (fgPalette x) (fgPriority x) (clock x) (lx x) v (objects x) (numObjects x) (lcdDisplayEnable x) (windowTilemapEnable x) (windowDisplayEnable x) (bgTileDataSelect x) (bgTileMapSelect x) (objSize x) (objDisplay x) (bgDisplay x) (lycInterrupt x) (oamInterrupt x) (vblankInterrupt x) (hblankInterrupt x) (modeHi x) (modeLo x) (scrollY x) (scrollX x) (ly x) (lyComp x) (dmaAddr x) (dmaEnable x) (dmaClock x) (winYPos x) (winXPos x) (backgroundData x) (backgroundAttr x) (windowData x) (windowAttr x).
Definition set_objects (v : Z -> Object.t) (x : t) : t :=
  mk (vram x) (oam x) (bgp x) (obp x) (bgpd x) (obpd x) (bgColor x) (bgPalette x) (bgPriority x) (fgColor x) (fgPalette x) (fgPriority x) (clock x) (lx x) (screen x) v (numObjects x) (lcdDisplayEnable x) (windowTilemapEnable x) (windowDisplayEnable x) (bgTileDataSelect x) (bgTileMapSelect x) (objSize x) (objDisplay x) (bgDisplay x) (lycInterrupt x) (oamInterrupt x) (vblankInterrupt x) (hblankInterrupt x) (modeHi x) (modeLo x) (scrollY x) (scrollX x) (ly x) (lyComp x) (dmaAddr x) (dmaEnable x) (dmaClock x) (winYPos x) (winXPos x) (backgroundData x) (backgroundAttr x) (windowData x) (windowAttr x).
Definition set_numObjects (v : Z) (x : t) : t :=
  mk (vram x) (oam x) (bgp x) (obp x) (bgpd x) (obpd x) (bgColor x) (bgPalette x) (bgPriority x) (fgColor x) (fgPalette x) (fgPriority x) (clock x) (lx x) (screen x) (objects x) v (lcdDisplayEnable x) (windowTilemapEnable x) (windowDisplayEnable x) (bgTileDataSelect x) (bgTileMapSelect x) (objSize x) (objDisplay x) (bgDisplay x) (lycInterrupt x) (oamInterrupt x) (vblankInterrupt x) (hblankInterrupt x) (modeHi x) (modeLo x) (scrollY x) (scrollX x) (ly x) (lyComp x) (dmaAddr x) (dmaEnable x) (dmaClock x) (winYPos x) (winXPos x) (backgroundData x) (backgroundAttr x) (windowData x) (windowAttr x).
Definition set_lcdDisplayEnable (v : bool) (x : t) : t :=
  mk (vram x) (oam x) (bgp x) (obp x) (bgpd x) (obpd x) (bgColor x) (bgPalette x) (bgPriority x) (fgColor x) (fgPalette x) (fgPriority x) (clock x) (lx x) (screen x) (objects x) (numObjects x) v (windowTilemapEnable x) (windowDisplayEnable x) (bgTileDataSelect x) (bgTileMapSelect x) (objSize x) (objDisplay x) (bgDisplay x) (lycInterrupt x) (oamInterrupt x) (vblankInterrupt x) (hblankInterrupt x) (modeHi x) (modeLo x) (scrollY x) (scrollX x) (ly x) (lyComp x) (dmaAddr x) (dmaEnable x) (dmaClock x) (winYPos x) (winXPos x) (backgroundData x) (backgroundAttr x) (windowData x) (windowAttr x).
Definition set_windowTilemapEnable (v : bool) (x : t) : t :=
  mk (vram x) (oam x) (bgp x) (obp x) (bgpd x) (obpd x) (bgColor x) (bgPalette x) (bgPriority x) (fgColor x) (fgPalette x) (fgPriority x) (clock x) (lx x) (screen x) (objects x) (numObjects x) (lcdDisplayEnable x) v (windowDisplayEnable x) (bgTileDataSelect x) (bgTileMapSelect x) (objSize x) (objDisplay x) (bgDisplay x) (lycInterrupt x) (oamInterrupt x) (vblankInterrupt x) (hblankInterrupt x) (modeHi x) (modeLo x) (scrollY x) (scrollX x) (ly x) (lyComp x) (dmaAddr x) (dmaEnable x) (dmaClock x) (winYPos x) (winXPos x) (backgroundData x) (backgroundAttr x) (windowData x) (windowAttr x).
Definition set_windowDisplayEnable (v : bool) (x : t) : t :=
  mk (vram x) (oam x) (bgp x) (obp x) (bgpd x) (obpd x) (bgColor x) (bgPalette x) (bgPriority x) (fgColor x) (fgPalette x) (fgPriority x) (clock x) (lx x) (screen x) (objects x) (numObjects x) (lcdDisplayEnable x) (windowTilemapEnable x) v (bgTileDataSelect x) (bgTileMapSelect x) (objSize x) (objDisplay x) (bgDisplay x) (lycInterrupt x) (oamInterrupt x) (vblankInterrupt x) (hblankInterrupt x) (modeHi x) (modeLo x) (scrollY x) (scrollX x) (ly x) (lyComp x) (dmaAddr x) (dmaEnable x) (dmaClock x) (winYPos x) (winXPos x) (backgroundData x) (backgroundAttr x) (windowData x) (windowAttr x).
Definition set_bgTileDataSelect (v : bool) (x : t) : t :=
  mk (vram x) (oam x) (bgp x) (obp x) (bgpd x) (obpd x) (bgColor x) (bgPalette x) (bgPriority x) (fgColor x) (fgPalette x) (fgPriority x) (clock x) (lx x) (screen x) (objects x) (numObjects x) (lcdDisplayEnable x) (windowTilemapEnable x) (windowDisplayEnable x) v (bgTileMapSelect x) (objSize x) (objDisplay x) (bgDisplay x) (lycInterrupt x) (oamInterrupt x) (vblankInterrupt x) (hblankInterrupt x) (modeHi x) (modeLo x) (scrollY x) (scrollX x) (ly x) (lyComp x) (dmaAddr x) (dmaEnable x) (dmaClock x) (winYPos x) (winXPos x) (backgroundData x) (backgroundAttr x) (windowData x) (windowAttr x).
Definition set_bgTileMapSelect (v : bool) (x : t) : t :=
  mk (vram x) (oam x) (bgp x) (obp x) (bgpd x) (obpd x) (bgColor x) (bgPalette x) (bgPriority x) (fgColor x) (fgPalette x) (fgPriority x) (clock x) (lx x) (screen x) (objects x) (numObjects x) (lcdDisplayEnable x) (windowTilemapEnable x) (windowDisplayEnable x) (bgTileDataSelect x) v (objSize x) (objDisplay x) (bgDisplay x) (lycInterrupt x) (oamInterrupt x) (vblankInterrupt x) (hblankInterrupt x) (modeHi x) (modeLo x) (scrollY x) (scrollX x) (ly x) (lyComp x) (dmaAddr x) (dmaEnable x) (dmaClock x) (winYPos x) (winXPos x) (backgroundData x) (backgroundAttr x) (windowData x) (windowAttr x).
Definition set_objSize (v : bool) (x : t) : t :=
  mk (vram x) (oam x) (bgp x) (obp x) (bgpd x) (obpd x) (bgColor x) (bgPalette x) (bgPriority x) (fgColor x) (fgPalette x) (fgPriority x) (clock x) (lx x) (screen x) (objects x) (numObjects x) (lcdDisplayEnable x) (windowTilemapEnable x) (windowDisplayEnable x) (bgTileDataSelect x) (bgTileMapSelect x) v (objDisplay x) (bgDisplay x) (lycInterrupt x) (oamInterrupt x) (vblankInterrupt x) (hblankInterrupt x) (modeHi x) (modeLo x) (scrollY x) (scrollX x) (ly x) (lyComp x) (dmaAddr x) (dmaEnable x) (dmaClock x) (winYPos x) (winXPos x) (backgroundData x) (backgroundAttr x) (windowData x) (windowAttr x).
Definition set_objDisplay (v : bool) (x : t) : t :=
  mk (vram x) (oam x) (bgp x) (obp x) (bgpd x) (obpd x) (bgColor x) (bgPalette x) (bgPriority x) (fgColor x) (fgPalette x) (fgPriority x) (clock x) (lx x) (screen x) (objects x) (numObjects x) (lcdDisplayEnable x) (windowTilemapEnable x) (windowDisplayEnable x) (bgTileDataSelect x) (bgTileMapSelect x) (objSize x) v (bgDisplay x) (lycInterrupt x) (oamInterrupt x) (vblankInterrupt x) (hblankInterrupt x) (modeHi x) (modeLo x) (scrollY x) (scrollX x) (ly x) (lyComp x) (dmaAddr x) (dmaEnable x) (dmaClock x) (winYPos x) (winXPos x) (backgroundData x) (backgroundAttr x) (windowData x) (windowAttr x).
Definition set_bgDisplay (v : bool) (x : t) : t :=
  mk (vram x) (oam x) (bgp x) (obp x) (bgpd x) (obpd x) (bgColor x) (bgPalette x) (bgPriority x) (fgColor x) (fgPalette x) (fgPriority x) (clock x) (lx x) (screen x) (objects x) (numObjects x) (lcdDisplayEnable x) (windowTilemapEnable x) (windowDisplayEnable x) (bgTileDataSelect x) (bgTileMapSelect x) (objSize x) (objDisplay x) v (lycInterrupt x) (oamInterrupt x) (vblankInterrupt x) (hblankInterrupt x) (modeHi x) (modeLo x) (scrollY x) (scrollX x) (ly x) (lyComp x) (dmaAddr x) (dmaEnable x) (dmaClock x) (winYPos x) (winXPos x) (backgroundData x) (backgroundAttr x) (windowData x) (windowAttr x).
Definition set_lycInterrupt (v : bool) (x : t) : t :=
  mk (vram x) (oam x) (bgp x) (obp x) (bgpd x) (obpd x) (bgColor x) (bgPalette x) (bgPriority x) (fgColor x) (fgPalette x) (fgPriority x) (clock x) (lx x) (screen x) (objects x) (numObjects x) (lcdDisplayEnable x) (windowTilemapEnable x) (windowDisplayEnable x) (bgTileDataSelect x) (bgTileMapSelect x) (objSize x) (objDisplay x) (bgDisplay x) v (oamInterrupt x) (vblankInterrupt x) (hblankInterrupt x) (modeHi x) (modeLo x) (scrollY x) (scrollX x) (ly x) (lyComp x) (dmaAddr x) (dmaEnable x) (dmaClock x) (winYPos x) (winXPos x) (backgroundData x) (backgroundAttr x) (windowData x) (windowAttr x).
Definition set_oamInterrupt (v : bool) (x : t) : t :=
  mk (vram x) (oam x) (bgp x) (obp x) (bgpd x) (obpd x) (bgColor x) (bgPalette x) (bgPriority x) (fgColor x) (fgPalette x) (fgPriority x) (clock x) (lx x) (screen x) (objects x) (numObjects x) (lcdDisplayEnable x) (windowTilemapEnable x) (windowDisplayEnable x) (bgTileDataSelect x) (bgTileMapSelect x) (objSize x) (objDisplay x) (bgDisplay x) (lycInterrupt x) v (vblankInterrupt x) (hblankInterrupt x) (modeHi x) (modeLo x) (scrollY x) (scrollX x) (ly x) (lyComp x) (dmaAddr x) (dmaEnable x) (dmaClock x) (winYPos x) (winXPos x) (backgroundData x) (backgroundAttr x) (windowData x) (windowAttr x).
Definition set_vblankInterrupt (v : bool) (x : t) : t :=
  mk (vram x) (oam x) (bgp x) (obp x) (bgpd x) (obpd x) (bgColor x) (bgPalette x) (bgPriority x) (fgColor x) (fgPalette x) (fgPriority x) (clock x) (lx x) (screen x) (objects x) (numObjects x) (lcdDisplayEnable x) (windowTilemapEnable x) (windowDisplayEnable x) (bgTileDataSelect x) (bgTileMapSelect x) (objSize x) (objDisplay x) (bgDisplay x) (lycInterrupt x) (oamInterrupt x) v (hblankInterrupt x) (modeHi x) (modeLo x) (scrollY x) (scrollX x) (ly x) (lyComp x) (dmaAddr x) (dmaEnable x) (dmaClock x) (winYPos x) (winXPos x) (backgroundData x) (backgroundAttr x) (windowData x) (windowAttr x).
Definition set_hblankInterrupt (v : bool) (x : t) : t :=
  mk (vram x) (oam x) (bgp x) (obp x) (bgpd x) (obpd x) (bgColor x) (bgPalette x) (bgPriority x) (fgColor x) (fgPalette x) (fgPriority x) (clock x) (lx x) (screen x) (objects x) (numObjects x) (lcdDisplayEnable x) (windowTilemapEnable x) (windowDisplayEnable x) (bgTileDataSelect x) (bgTileMapSelect x) (objSize x) (objDisplay x) (bgDisplay x) (lycInterrupt x) (oamInterrupt x) (vblankInterrupt x) v (modeHi x) (modeLo x) (scrollY x) (scrollX x) (ly x) (lyComp x) (dmaAddr x) (dmaEnable x) (dmaClock x) (winYPos x) (winXPos x) (backgroundData x) (backgroundAttr x) (windowData x) (windowAttr x).
Definition set_modeHi (v : bool) (x : t) : t :=
  mk (vram x) (oam x) (bgp x) (obp x) (bgpd x) (obpd x) (bgColor x) (bgPalette x) (bgPriority x) (fgColor x) (fgPalette x) (fgPriority x) (clock x) (lx x) (screen x) (objects x) (numObjects x) (lcdDisplayEnable x) (windowTilemapEnable x) (windowDisplayEnable x) (bgTileDataSelect x) (bgTileMapSelect x) (objSize x) (objDisplay x) (bgDisplay x) (lycInterrupt x) (oamInterrupt x) (vblankInterrupt x) (hblankInterrupt x) v (modeLo x) (scrollY x) (scrollX x) (ly x) (lyComp x) (dmaAddr x) (dmaEnable x) (dmaClock x) (winYPos x) (winXPos x) (backgroundData x) (backgroundAttr x) (windowData x) (windowAttr x).
Definition set_modeLo (v : bool) (x : t) : t :=
  mk (vram x) (oam x) (bgp x) (obp x) (bgpd x) (obpd x) (bgColor x) (bgPalette x) (bgPriority x) (fgColor x) (fgPalette x) (fgPriority x) (clock x) (lx x) (screen x) (objects x) (numObjects x) (lcdDisplayEnable x) (windowTilemapEnable x) (windowDisplayEnable x) (bgTileDataSelect x) (bgTileMapSelect x) (objSize x) (objDisplay x) (bgDisplay x) (lycInterrupt x) (oamInterrupt x) (vblankInterrupt x) (hblankInterrupt x) (modeHi x) v (scrollY x) (scrollX x) (ly x) (lyComp x) (dmaAddr x) (dmaEnable x) (dmaClock x) (winYPos x) (winXPos x) (backgroundData x) (backgroundAttr x) (windowData x) (windowAttr x).
Definition set_scrollY (v : Z) (x : t) : t :=
  mk (vram x) (oam x) (bgp x) (obp x) (bgpd x) (obpd x) (bgColor x) (bgPalette x) (bgPriority x) (fgColor x) (fgPalette x) (fgPriority x) (clock x) (lx x) (screen x) (objects x) (numObjects x) (lcdDisplayEnable x) (windowTilemapEnable x) (windowDisplayEnable x) (bgTileDataSelect x) (bgTileMapSelect x) (objSize x) (objDisplay x) (bgDisplay x) (lycInterrupt x) (oamInterrupt x) (vblankInterrupt x) (hblankInterrupt x) (modeHi x) (modeLo x) v (scrollX x) (ly x) (lyComp x) (dmaAddr x) (dmaEnable x) (dmaClock x) (winYPos x) (winXPos x) (backgroundData x) (backgroundAttr x) (windowData x) (windowAttr x).
Definition set_scrollX (v : Z) (x : t) : t :=
  mk (vram x) (oam x) (bgp x) (obp x) (bgpd x) (obpd x) (bgColor x) (bgPalette x) (bgPriority x) (fgColor x) (fgPalette x) (fgPriority x) (clock x) (lx x) (screen x) (objects x) (numObjects x) (lcdDisplayEnable x) (windowTilemapEnable x) (windowDisplayEnable x) (bgTileDataSelect x) (bgTileMapSelect x) (objSize x) (objDisplay x) (bgDisplay x) (lycInterrupt x) (oamInterrupt x) (vblankInterrupt x) (hblankInterrupt x) (modeHi x) (modeLo x) (scrollY x) v (ly x) (lyComp x) (dmaAddr x) (dmaEnable x) (dmaClock x) (winYPos x) (winXPos x) (backgroundData x) (backgroundAttr x) (windowData x) (windowAttr x).
Definition set_ly (v : Z) (x : t) : t :=
  mk (vram x) (oam x) (bgp x) (obp x) (bgpd x) (obpd x) (bgColor x) (bgPalette x) (bgPriority x) (fgColor x) (fgPalette x) (fgPriority x) (clock x) (lx x) (screen x) (objects x) (numObjects x) (lcdDisplayEnable x) (windowTilemapEnable x) (windowDisplayEnable x) (bgTileDataSelect x) (bgTileMapSelect x) (objSize x) (objDisplay x) (bgDisplay x) (lycInterrupt x) (oamInterrupt x) (vblankInterrupt x) (hblankInterrupt x) (modeHi x) (modeLo x) (scrollY x) (scrollX x) v (lyComp x) (dmaAddr x) (dmaEnable x) (dmaClock x) (winYPos x) (winXPos x) (backgroundData x) (backgroundAttr x) (windowData x) (windowAttr x).
Definition set_lyComp (v : Z) (x : t) : t :=
  mk (vram x) (oam x) (bgp x) (obp x) (bgpd x) (obpd x) (bgColor x) (bgPalette x) (bgPriority x) (fgColor x) (fgPalette x) (fgPriority x) (clock x) (lx x) (screen x) (objects x) (numObjects x) (lcdDisplayEnable x) (windowTilemapEnable x) (windowDisplayEnable x) (bgTileDataSelect x) (bgTileMapSelect x) (objSize x) (objDisplay x) (bgDisplay x) (lycInterrupt x) (oamInterrupt x) (vblankInterrupt x) (hblankInterrupt x) (modeHi x) (modeLo x) (scrollY x) (scrollX x) (ly x) v (dmaAddr x) (dmaEnable x) (dmaClock x) (winYPos x) (winXPos x) (backgroundData x) (backgroundAttr x) (windowData x) (windowAttr x).
Definition set_winYPos (v : Z) (x : t) : t :=
  mk (vram x) (oam x) (bgp x) (obp x) (bgpd x) (obpd x) (bgColor x) (bgPalette x) (bgPriority x) (fgColor x) (fgPalette x) (fgPriority x) (clock x) (lx x) (screen x) (objects x) (numObjects x) (lcdDisplayEnable x) (windowTilemapEnable x) (windowDisplayEnable x) (bgTileDataSelect x) (bgTileMapSelect x) (objSize x) (objDisplay x) (bgDisplay x) (lycInterrupt x) (oamInterrupt x) (vblankInterrupt x) (hblankInterrupt x) (modeHi x) (modeLo x) (scrollY x) (scrollX x) (ly x) (lyComp x) (dmaAddr x) (dmaEnable x) (dmaClock x) v (winXPos x) (backgroundData x) (backgroundAttr x) (windowData x) (windowAttr x).
Definition set_winXPos (v : Z) (x : t) : t :=
  mk (vram x) (oam x) (bgp x) (obp x) (bgpd x) (obpd x) (bgColor x) (bgPalette x) (bgPriority x) (fgColor x) (fgPalette x) (fgPriority x) (clock x) (lx x) (screen x) (objects x) (numObjects x) (lcdDisplayEnable x) (windowTilemapEnable x) (windowDisplayEnable x) (bgTileDataSelect x) (bgTileMapSelect x) (objSize x) (objDisplay x) (bgDisplay x) (lycInterrupt x) (oamInterrupt x) (vblankInterrupt x) (hblankInterrupt x) (modeHi x) (modeLo x) (scrollY x) (scrollX x) (ly x) (lyComp x) (dmaAddr x) (dmaEnable x) (dmaClock x) (winYPos x) v (backgroundData x) (backgroundAttr x) (windowData x) (windowAttr x).
Definition set_backgroundData (v : Z) (x : t) : t :=
  mk (vram x) (oam x) (bgp x) (obp x) (bgpd x) (obpd x) (bgColor x) (bgPalette x) (bgPriority x) (fgColor x) (fgPalette x) (fgPriority x) (clock x) (lx x) (screen x) (objects x) (numObjects x) (lcdDisplayEnable x) (windowTilemapEnable x) (windowDisplayEnable x) (bgTileDataSelect x) (bgTileMapSelect x) (objSize x) (objDisplay x) (bgDisplay x) (lycInterrupt x) (oamInterrupt x) (vblankInterrupt x) (hblankInterrupt x) (modeHi x) (modeLo x) (scrollY x) (scrollX x) (ly x) (lyComp x) (dmaAddr x) (dmaEnable x) (dmaClock x) (winYPos x) (winXPos x) v (backgroundAttr x) (windowData x) (windowAttr x).
Definition set_windowData (v : Z) (x : t) : t :=
  mk (vram x) (oam x) (bgp x) (obp x) (bgpd x) (obpd x) (bgColor x) (bgPalette x) (bgPriority x) (fgColor x) (fgPalette x) (fgPriority x) (clock x) (lx x) (screen x) (objects x) (numObjects x) (lcdDisplayEnable x) (windowTilemapEnable x) (windowDisplayEnable x) (bgTileDataSelect x) (bgTileMapSelect x) (objSize x) (objDisplay x) (bgDisplay x) (lycInterrupt x) (oamInterrupt x) (vblankInterrupt x) (hblankInterrupt x) (modeHi x) (modeLo x) (scrollY x) (scrollX x) (ly x) (lyComp x) (dmaAddr x) (dmaEnable x) (dmaClock x) (winYPos x) (winXPos x) (backgroundData x) (backgroundAttr x) v (windowAttr x).

(** The zero value of the struct. *)
Definition zero : t :=
  mk (fun _ => 0) (fun _ => 0) (fun _ => 0) (fun _ _ => 0) (fun _ => 0) (fun _ => 0)
     0 0 0 0 0 0
     0 0 (fun _ => 0) (fun _ => Object.zero) 0
     false false false false false false false false
     false false false false false false
     0 0 0 0
     0 false 0
     0 0
     0 0 0 0.

Definition Reset (ppu : t) : t :=
  let ppu := zero in
  let ppu := set_obp (upd (obp ppu) 0 (fun _ => 3)) ppu in
  set_obp (upd (obp ppu) 1 (fun _ => 3)) ppu.

Definition lcdControlReg (ppu : t) : Z :=
  let value := 0 in
  let value := setBit value 7 (lcdDisplayEnable ppu) in
  let value := setBit value 6 (windowTilemapEnable ppu) in
  let value := setBit value 5 (windowDisplayEnable ppu) in
  let value := setBit value 4 (bgTileDataSelect ppu) in
  let value := setBit value 3 (bgTileMapSelect ppu) in
  let value := setBit value 2 (objSize ppu) in
  let value := setBit value 1 (objDisplay ppu) in
  setBit value 0 (bgDisplay ppu).

Definition setLCDControlReg (value : Z) (ppu : t) : t :=
  let ppu := set_lcdDisplayEnable (getBit value 7) ppu in
  let ppu := set_windowTilemapEnable (getBit value 6) ppu in
  let ppu := set_windowDisplayEnable (getBit value 5) ppu in
  let ppu := set_bgTileDataSelect (getBit value 4) ppu in
  let ppu := set_bgTileMapSelect (getBit value 3) ppu in
  let ppu := set_objSize (getBit value 2) ppu in
  let ppu := set_objDisplay (getBit value 1) ppu in
  set_bgDisplay (getBit value 0) ppu.

Definition lcdStatusReg (ppu : t) : Z :=
  let result := 0 in
  let result := if lycInterrupt ppu then Z.lor result (Z.shiftl 1 6) else result in
  let result := if oamInterrupt ppu then Z.lor result (Z.shiftl 1 5) else result in
  let result := if vblankInterrupt ppu then Z.lor result (Z.shiftl 1 4) else result in
  let result := if hblankInterrupt ppu then Z.lor result (Z.shiftl 1 3) else result in
  let result := if modeHi ppu then Z.lor result (Z.shiftl 1 1) else result in
  if modeLo ppu then Z.lor result (Z.shiftl 1 0) else result.

Definition setLCDStatusReg (v : Z) (ppu : t) : t :=
  let ppu := set_lycInterrupt (negb (Z.land v (Z.shiftl 1 6) =? 0)) ppu in
  let ppu := set_oamInterrupt (negb (Z.land v (Z.shiftl 1 5) =? 0)) ppu in
  let ppu := set_vblankInterrupt (negb (Z.land v (Z.shiftl 1 4) =? 0)) ppu in
  let ppu := set_hblankInterrupt (negb (Z.land v (Z.shiftl 1 3) =? 0)) ppu in
  let ppu := set_modeHi (negb (Z.land v (Z.shiftl 1 1) =? 0)) ppu in
  set_modeLo (negb (Z.land v (Z.shiftl 1 0) =? 0)) ppu.

(** The packed palette registers 0xFF47..0xFF49. *)
Definition packPalette (pal : Z -> Z) : Z :=
  let val := 0 in
  let val := Z.lor val (uint8 (Z.shiftl (Z.land (pal 0) 3) 0)) in
  let val := Z.lor val (uint8 (Z.shiftl (Z.land (pal 1) 3) 2)) in
  let val := Z.lor val (uint8 (Z.shiftl (Z.land (pal 2) 3) 4)) in
  Z.lor val (uint8 (Z.shiftl (Z.land (pal 3) 3) 6)).

Definition unpackPalette (value : Z) (pal : Z -> Z) : Z -> Z :=
  let pal := upd pal 0 (Z.land (Z.shiftr value 0) 3) in
  let pal := upd pal 1 (Z.land (Z.shiftr value 2) 3) in
  let pal := upd pal 2 (Z.land (Z.shiftr value 4) 3) in
  upd pal 3 (Z.land (Z.shiftr value 6) 3).

Definition Read (ppu : t) (addr : Z) : Z :=
  if (0x8000 <=? addr) && (addr <? 0xA000) then vram ppu (Z.land addr 0x1fff)
  else if (0xFE00 <=? addr) && (addr <? 0xFEA0) then oam ppu (uint16 (addr - 0xFE00))
  else if addr =? 0xFF40 then lcdControlReg ppu
  else if addr =? 0xFF41 then lcdStatusReg ppu
  else if addr =? 0xFF42 then scrollY ppu
  else if addr =? 0xFF43 then scrollX ppu
  else if addr =? 0xFF44 then ly ppu
  else if addr =? 0xFF45 then lyComp ppu
  else if addr =? 0xFF47 then packPalette (bgp ppu)
  else if addr =? 0xFF48 then packPalette (obp ppu 0)
  else if addr =? 0xFF49 then packPalette (obp ppu 1)
  else if addr =? 0xFF4A then winYPos ppu
  else if addr =? 0xFF4B then winXPos ppu
  else 0xFF.

Definition Write (ppu : t) (addr value : Z) : t :=
  if (0x8000 <=? addr) && (addr <? 0xA000) then
    set_vram (upd (vram ppu) (Z.land addr 0x1fff) value) ppu
  else if (0xFE00 <=? addr) && (addr <? 0xFEA0) then
    set_oam (upd (oam ppu) (uint16 (addr - 0xFE00)) value) ppu
  else if addr =? 0xFF40 then setLCDControlReg value ppu
  else if addr =? 0xFF41 then setLCDStatusReg value ppu
  else if addr =? 0xFF42 then set_scrollY value ppu
  else if addr =? 0xFF43 then set_scrollX value ppu
  else if addr =? 0xFF44 then
    let ppu := set_ly 0 ppu in
    let ppu := set_lx 0 ppu in
    set_clock 0 ppu
  else if addr =? 0xFF45 then set_lyComp value ppu
  else if addr =? 0xFF47 then set_bgp (unpackPalette value (bgp ppu)) ppu
  else if addr =? 0xFF48 then
    set_obp (upd (obp ppu) 0 (unpackPalette value (obp ppu 0))) ppu
  else if addr =? 0xFF49 then
    set_obp (upd (obp ppu) 1 (unpackPalette value (obp ppu 1))) ppu
  else if addr =? 0xFF4A then set_winYPos value ppu
  else if addr =? 0xFF4B then set_winXPos value ppu
  else ppu.
End PPU.

(** *** The scanline renderer *)

Module Render.
Import PPU.

(** One iteration of the OAM walk of [initScanline] for entry [n]; the
    result says whether the loop goes on ([false] after the [break]).  The
    fields [y], [x], [tile], [attr] and [data] of the slot [s] are the
    variables of the same names. *)
Definition scanObject (objHeight n : Z) (ppu : t) : t * bool :=
  (* s := &ppu.objects[ppu.numObjects] *)
  let slot := numObjects ppu in
  let y := uint (uint (ly ppu) - uint (uint (oam ppu (n * 4 + 0)) - 16)) in
  let x := uint (uint (oam ppu (n * 4 + 1)) - 8) in
  let tile := uint (oam ppu (n * 4 + 2)) in
  let attr := uint (oam ppu (n * 4 + 3)) in
  let data := Object.data (objects ppu slot) in
  if objHeight <=? y then
    (* continue: the slot keeps what was stored into it *)
    (set_objects (upd (objects ppu) slot (Object.mk x y tile attr data)) ppu, true)
  else
    let y := if negb (Z.land attr 0x40 =? 0)
             then Z.lxor y (uint (objHeight - 1)) else y in
    let tileDataAddr := uint (uint (Z.shiftl tile 4) + uint (Z.shiftl y 1)) in
    let data := uint (Z.shiftl (uint (vram ppu (tileDataAddr + 0))) 0) in
    let data := Z.lor data (uint (Z.shiftl (uint (vram ppu (tileDataAddr + 1))) 8)) in
    let data :=
      if negb (Z.land attr 0x20 =? 0) then
        (* Bit twiddling hack. *)
        let data := Z.lor (Z.land (Z.shiftr data 1) 0x5555)
                          (uint (Z.shiftl (Z.land data 0x5555) 1)) in
        let data := Z.lor (Z.land (Z.shiftr data 2) 0x3333)
                          (uint (Z.shiftl (Z.land data 0x3333) 2)) in
        let data := Z.lor (Z.land (Z.shiftr data 4) 0x0F0F)
                          (uint (Z.shiftl (Z.land data 0x0F0F) 4)) in
        Z.lor (Z.land (Z.shiftr data 8) 0x00FF)
              (uint (Z.shiftl (Z.land data 0x00FF) 8))
      else data in
    let ppu := set_objects (upd (objects ppu) slot (Object.mk x y tile attr data)) ppu in
    let ppu := set_numObjects (uint (numObjects ppu + 1)) ppu in
    (ppu, negb (numObjects ppu =? 10)).

(** [for n := 0; n < 40; n++], [k] iterations left. *)
Fixpoint scanObjects (k : nat) (objHeight n : Z) (ppu : t) : t :=
  match k with
  | O => ppu
  | S k' =>
      let '(ppu, continue) := scanObject objHeight n ppu in
      if continue then scanObjects k' objHeight (n + 1) ppu else ppu
  end.

(** [sort.Stable(ppu.objects)] is handed a copy of the array ([Objects] is an
    array type and its methods have value receivers), so [ppu.objects] keeps
    the OAM order; the call has no effect on the state. *)
Definition initScanline (ppu : t) : t :=
  let objHeight := 8 in
  let objHeight := if objSize ppu then 16 else objHeight in
  let ppu := set_numObjects 0 ppu in
  scanObjects 40 objHeight 0 ppu.

Definition readTileLine (ppu : t) (sel : bool) (x y : Z) : Z :=
  (* Determine tilemap base *)
  let tileMapBase := if sel then 0x1C00 else 0x1800 in
  (* Determine address of tile in tilemap *)
  let tileX := x / 8 in
  let tileY := y / 8 in
  let tileMapAddr :=
    uint (tileMapBase + Z.land (uint (uint (Z.shiftl tileY 5) + tileX)) 0x03FF) in
  (* Determine address of tile data *)
  let tileDataAddr :=
    if bgTileDataSelect ppu then
      uint (uint (0x0000 + uint (Z.shiftl (uint (vram ppu tileMapAddr)) 4))
            + uint (Z.shiftl (Z.land y 0x7) 1))
    else
      uint (uint (int (0x1000 + int (Z.shiftl (int (int8 (vram ppu tileMapAddr))) 4)))
            + uint (Z.shiftl (Z.land y 0x7) 1)) in
  (* Get data from tile data address *)
  let data := uint (Z.shiftl (uint (vram ppu (tileDataAddr + 0))) 0) in
  Z.lor data (uint (Z.shiftl (uint (vram ppu (tileDataAddr + 1))) 8)).

(** The two-bit colour index of a 16-bit pattern line at [scrollBit]. *)
Definition patternIndex (data scrollBit : Z) : Z :=
  let index := 0 in
  let index := if negb (Z.land data (Z.shiftr 0x0080 scrollBit) =? 0)
               then Z.lor index 1 else index in
  if negb (Z.land data (Z.shiftr 0x8000 scrollBit) =? 0)
  then Z.lor index 2 else index.

Definition pixelBackground (ppu : t) : t :=
  if bgDisplay ppu then
    let scrolly := Z.land (uint (uint8 (ly ppu + scrollY ppu))) 0xFF in
    let scrollx := Z.land (uint (uint (scrollX ppu) + lx ppu)) 0xFF in
    let scrollBit := Z.land scrollx 0x7 in
    let ppu := if (scrollBit =? 0) || (lx ppu =? 0)
               then set_backgroundData
                      (readTileLine ppu (bgTileMapSelect ppu) scrollx scrolly) ppu
               else ppu in
    let index := patternIndex (backgroundData ppu) scrollBit in
    let ppu := set_bgColor (uint16 (bgp ppu index)) ppu in
    set_bgPalette (uint16 index) ppu
  else ppu.

Definition pixelWindow (ppu : t) : t :=
  if windowDisplayEnable ppu then
    let scrolly := uint (uint (ly ppu) - uint (winYPos ppu)) in
    let scrollx := uint (uint (lx ppu + 7) - uint (winXPos ppu)) in
    let scrollBit := Z.land scrollx 0x7 in
    if (scrolly <? 144) && (scrollx <? 160) then
      let ppu := if (scrollBit =? 0) || (lx ppu =? 0)
                 then set_windowData
                        (readTileLine ppu (windowTilemapEnable ppu) scrollx scrolly) ppu
                 else ppu in
      let index := patternIndex (windowData ppu) scrollBit in
      let ppu := set_bgColor (uint16 (bgp ppu index)) ppu in
      set_bgPalette (uint16 index) ppu
    else ppu
  else ppu.

(** One iteration of the sprite loop of [pixel] for cache entry [n];
    [None] is the panic of indexing [ppu.objects] out of range. *)
Definition pixelObject (n : Z) (ppu : t) : option t :=
  if (n <? 0) || (10 <=? n) then None
  else
    let s := objects ppu n in
    let scrollBit := uint (lx ppu - Object.x s) in
    if 7 <? scrollBit then Some ppu
    else
      let index := patternIndex (Object.data s) scrollBit in
      if index =? 0 then Some ppu
      else
        let ppu :=
          if negb (Z.land (Object.attr s) 0x10 =? 0)
          then set_fgColor (uint16 (obp ppu 1 index)) ppu
          else set_fgColor (uint16 (obp ppu 0 index)) ppu in
        Some (set_fgPalette (uint16 index) ppu).

(** [for n := int(ppu.numObjects) - 1; n >= 0; n--], entered with
    [k = int(ppu.numObjects)]. *)
Fixpoint pixelObjects (k : nat) (ppu : t) : option t :=
  match k with
  | O => Some ppu
  | S k' =>
      match pixelObject (Z.of_nat k') ppu with
      | Some ppu => pixelObjects k' ppu
      | None => None
      end
  end.

Definition pixelSprites (ppu : t) : option t :=
  if objDisplay ppu then pixelObjects (Z.to_nat (int (numObjects ppu))) ppu
  else Some ppu.

(** The priority/transparency decision at the end of [pixel]. *)
Definition pixelColor (ppu : t) : Z :=
  if fgPalette ppu =? 0 then bgColor ppu
  else if bgPalette ppu =? 0 then fgColor ppu
  else if negb (fgPriority ppu =? 0) then fgColor ppu
  else bgColor ppu.

Definition pixelOutput (ppu : t) : option t :=
  let color := pixelColor ppu in
  let i := uint (uint (ly ppu) * 160 + lx ppu) in
  match rgbColors color with
  | Some rgb =>
      if i <? 160 * 144 then Some (set_screen (upd (screen ppu) i rgb) ppu)
      else None
  | None => None
  end.

(** The four assignments at the head of [pixel]. *)
Definition pixelReset (ppu : t) : t :=
  let ppu := set_bgColor 0 ppu in
  let ppu := set_bgPalette 0 ppu in
  let ppu := set_fgColor 0 ppu in
  set_fgPalette 0 ppu.

Definition pixel (ppu : t) : option t :=
  let ppu := pixelReset ppu in
  let ppu := pixelBackground ppu in
  let ppu := pixelWindow ppu in
  match pixelSprites ppu with
  | Some ppu => pixelOutput ppu
  | None => None
  end.
End Render.

(** ** The machine (bus.go and the machine file) *)

(** The devices a bus entry can refer to.  The entries are references: all
    entries naming a device share the one device held by the machine. *)
Inductive IO : Type := IOCart | IOPPU | IOWRAM | IOCPU | IOBootROM.

Module Bus.
(** [io [0x10000]IO]; [None] is the nil interface. *)
Record t : Type := mk { io : Z -> option IO }.

(** [for i := lo; i < hi; i++ { b.io[i] = dev }] *)
Definition fill (lo hi : Z) (dev : IO) (b : t) : t :=
  mk (fun i => if (lo <=? i) && (i <? hi) then Some dev else io b i).

Definition set (i : Z) (dev : IO) (b : t) : t := mk (upd (io b) i (Some dev)).
End Bus.

Module Machine.

(** The APU stub of the source holds no state that any function reads or
    writes and is left out.  [wram] is the work RAM allocated by [NewMachine]
    and reachable only through the bus. *)
Record t : Type := mk {
  bus : Bus.t;
  cpu : CPU.t;
  ppu : PPU.t;
  cart : Cartridge;
  wram : WRAM.t;
  dmgBootROM : ROM.t
}.

Definition set_bus (v : Bus.t) (gb : t) : t :=
  mk v (cpu gb) (ppu gb) (cart gb) (wram gb) (dmgBootROM gb).
Definition set_cpu (v : CPU.t) (gb : t) : t :=
  mk (bus gb) v (ppu gb) (cart gb) (wram gb) (dmgBootROM gb).
Definition set_ppu (v : PPU.t) (gb : t) : t :=
  mk (bus gb) (cpu gb) v (cart gb) (wram gb) (dmgBootROM gb).
Definition set_cart (v : Cartridge) (gb : t) : t :=
  mk (bus gb) (cpu gb) (ppu gb) v (wram gb) (dmgBootROM gb).
Definition set_wram (v : WRAM.t) (gb : t) : t :=
  mk (bus gb) (cpu gb) (ppu gb) (cart gb) v (dmgBootROM gb).

(** *** Results and the machine monad *)

(** The panics of the package: [panic("undefined opcode")],
    [panic("invalid opcode")], [panic(op)] and the run-time panic of an index
    out of range. *)
Inductive Panic : Type :=
| UndefinedOpcode
| InvalidOpcode
| PanicValue (op : Z)
| IndexOutOfRange.

Inductive Res (A : Type) : Type :=
| Ok (x : A) (gb : t)
| Fail (p : Panic).
Arguments Ok {A} x gb.
Arguments Fail {A} p.

Definition M (A : Type) : Type := t -> Res A.

Definition ret {A : Type} (x : A) : M A := fun gb => Ok x gb.

Definition bind {A B : Type} (c : M A) (k : A -> M B) : M B :=
  fun gb => match c gb with
            | Ok x gb' => k x gb'
            | Fail p => Fail p
            end.

Definition panic {A : Type} (p : Panic) : M A := fun _ => Fail p.

Notation "x <- c1 ;; c2" := (bind c1 (fun x => c2))
  (at level 61, c1 at next level, right associativity).
Notation "c1 ;; c2" := (bind c1 (fun _ => c2))
  (at level 61, right associativity).

Definition get : M t := fun gb => Ok gb gb.
Definition getCPU : M CPU.t := fun gb => Ok (cpu gb) gb.
Definition modify (g : t -> t) : M unit := fun gb => Ok tt (g gb).
Definition modCPU (g : CPU.t -> CPU.t) : M unit :=
  fun gb => Ok tt (set_cpu (g (cpu gb)) gb).
Definition modPPU (g : PPU.t -> PPU.t) : M unit :=
  fun gb => Ok tt (set_ppu (g (ppu gb)) gb).
Definition when (cond : bool) (c : M unit) : M unit :=
  if cond then c else ret tt.
Definition orPanic {A : Type} (o : option A) : M A :=
  match o with Some x => ret x | None => panic IndexOutOfRange end.

(** *** NewMachine *)

(** Modelled from the spec: the boot ROM image [dmgBootROM] is not under
    src/; it is a constant blob, readable as a bus device, which is taken
    here to be a [ROM] passed in to [NewMachine]. *)
Definition NewMachine (bootROM : ROM.t) (cart : Cartridge) (useBootrom : bool) : t :=
  let b := Bus.mk (fun _ => None) in
  (* Cartridge *)
  let b := Bus.fill 0x0000 0x8000 IOCart b in
  (* Video RAM *)
  let b := Bus.fill 0x8000 0xA000 IOPPU b in
  (* External RAM *)
  let b := Bus.fill 0xA000 0xC000 IOCart b in
  (* Work RAM *)
  let b := Bus.fill 0xC000 0xFE00 IOWRAM b in
  (* Sprite attribute table *)
  let b := Bus.fill 0xFE00 0xFEA0 IOPPU b in
  (* CPU registers *)
  let b := Bus.set 0xFF00 IOCPU b in
  let b := Bus.set 0xFF01 IOCPU b in
  let b := Bus.set 0xFF02 IOCPU b in
  let b := Bus.set 0xFF04 IOCPU b in
  let b := Bus.set 0xFF05 IOCPU b in
  let b := Bus.set 0xFF06 IOCPU b in
  let b := Bus.set 0xFF07 IOCPU b in
  let b := Bus.set 0xFF0F IOCPU b in
  let b := Bus.set 0xFF46 IOCPU b in
  (* PPU registers *)
  let b := Bus.set 0xFF40 IOPPU b in
  let b := Bus.set 0xFF41 IOPPU b in
  let b := Bus.set 0xFF42 IOPPU b in
  let b := Bus.set 0xFF43 IOPPU b in
  let b := Bus.set 0xFF44 IOPPU b in
  let b := Bus.set 0xFF45 IOPPU b in
  let b := Bus.set 0xFF47 IOPPU b in
  let b := Bus.set 0xFF48 IOPPU b in
  let b := Bus.set 0xFF49 IOPPU b in
  let b := Bus.set 0xFF4A IOPPU b in
  let b := Bus.set 0xFF4B IOPPU b in
  (* High RAM *)
  let b := Bus.fill 0xFF80 0xFFFF IOCPU b in
  (* Interrupt Enable Register *)
  let b := Bus.set 0xFFFF IOCPU b in
  let gb := mk b CPU.zero PPU.zero cart (fun _ => 0) bootROM in
  if useBootrom then
    (* Setup boot ROM *)
    set_bus (Bus.fill 0 (len bootROM) IOBootROM (bus gb)) gb
  else
    (* Simulate boot ROM side-effects *)
    let c := cpu gb in
    let c := CPU.set_b 0x00 c in
    let c := CPU.set_c 0x13 c in
    let c := CPU.set_d 0x00 c in
    let c := CPU.set_e 0xd8 c in
    let c := CPU.set_h 0x01 c in
    let c := CPU.set_l 0x4d c in
    let c := CPU.set_a 0x01 c in
    let c := CPU.set_f 0xb0 c in
    let c := CPU.set_sp 0xfffe c in
    let c := CPU.set_pc 0x0100 c in
    set_cpu c gb.

Definition lockBootROM (gb : t) : t :=
  set_bus (Bus.fill 0 (len (dmgBootROM gb)) IOCart (bus gb)) gb.

(** *** Bus reads and writes *)

(** [Bus.Read], with the device behind the entry looked up in the machine. *)
Definition busRead (addr : Z) : M Z := fun gb =>
  match Bus.io (bus gb) addr with
  | None => Ok 0xFF gb
  | Some IOCart => orPanic (Cart.Read (cart gb) addr) gb
  | Some IOPPU => Ok (PPU.Read (ppu gb) addr) gb
  | Some IOWRAM => Ok (WRAM.Read (wram gb) addr) gb
  | Some IOCPU =>
      let '(v, c) := CPU.Read (cpu gb) addr in Ok v (set_cpu c gb)
  | Some IOBootROM => orPanic (ROM.Read (dmgBootROM gb) addr) gb
  end.

Definition busWrite (addr value : Z) : M unit := fun gb =>
  match Bus.io (bus gb) addr with
  | None => Ok tt gb
  | Some IOCart => Ok tt (set_cart (Cart.Write (cart gb) addr value) gb)
  | Some IOPPU => Ok tt (set_ppu (PPU.Write (ppu gb) addr value) gb)
  | Some IOWRAM => Ok tt (set_wram (WRAM.Write (wram gb) addr value) gb)
  | Some IOCPU => Ok tt (set_cpu (CPU.Write (cpu gb) addr value) gb)
  | Some IOBootROM => Ok tt gb
  end.

Definition Read (addr : Z) : M Z := busRead addr.

Definition Write (addr value : Z) : M unit :=
  when (addr =? 0xff50) (modify lockBootROM) ;;
  busWrite addr value.

(** *** Interrupt requests, DMA, the PPU clock and the timers *)

Definition Interrupt (i : Z) : M unit :=
  gb <- get ;;
  when (negb (Z.land (CPU.ie (cpu gb)) i =? 0)) (modCPU (CPU.set_halt false)) ;;
  modCPU (fun c => CPU.set_irq (Z.lor (CPU.irq c) i) c).

Definition stepDMA : M unit :=
  gb <- get ;;
  if CPU.dma (cpu gb) then
    let dstindex := uint16 (0xFE00 + CPU.dmaindex (cpu gb)) in
    let srcindex :=
      uint16 (uint16 (Z.shiftl (uint16 (CPU.dmabank (cpu gb))) 8)
              + CPU.dmaindex (cpu gb)) in
    src <- Read srcindex ;;
    Write dstindex src ;;
    modCPU (fun c => CPU.set_dmaindex (uint16 (CPU.dmaindex c + 1)) c) ;;
    gb <- get ;;
    when (CPU.dmaindex (cpu gb) =? 160) (modCPU (CPU.set_dma false))
  else ret tt.

Definition setMode (hi lo : bool) : M unit :=
  modPPU (fun p => PPU.set_modeLo lo (PPU.set_modeHi hi p)).

Definition incLY : M unit :=
  modPPU (fun p => PPU.set_ly (uint8 (PPU.ly p + 1)) p).

Definition stepPixel : M unit :=
  gb <- get ;;
  let clock := PPU.clock (ppu gb) in
  let hclock := Z.rem clock 456 in
  (if clock <? 65664 then
     if hclock =? 0 then
       setMode true false ;;
       modPPU (PPU.set_lx 0) ;;
       when (PPU.lcdDisplayEnable (ppu gb)) (modPPU Render.initScanline) ;;
       Interrupt intLCDStat
     else if (80 <=? hclock) && (hclock <? 80 + 160) then
       setMode true true ;;
       when (PPU.lcdDisplayEnable (ppu gb))
            (gb <- get ;;
             p <- orPanic (Render.pixel (ppu gb)) ;;
             modPPU (fun _ => p)) ;;
       modPPU (fun p => PPU.set_lx (uint (PPU.lx p + 1)) p)
     else if hclock =? 80 + 160 then
       setMode false false
     else if hclock =? 455 then
       incLY
     else ret tt
   else if clock =? 65664 then
     setMode false true ;;
     (* Entering VBlank period. *)
     when (PPU.lcdDisplayEnable (ppu gb)) (Interrupt intVBlank)
   else if clock <? 70223 then
     when (hclock =? 455) incLY
   else if clock =? 70223 then
     (* Screen refresh next cycle *)
     modPPU (PPU.set_clock (-1)) ;;
     modPPU (PPU.set_ly 0)
   else ret tt) ;;
  modPPU (fun p => PPU.set_clock (int (PPU.clock p + 1)) p).

Definition stepAudio : M unit := ret tt.

Definition checkTimers : M unit :=
  gb <- get ;;
  (* Only update div every 256th clock. *)
  when (Z.land (CPU.clock (cpu gb)) 0xff =? 0)
       (modCPU (fun c => CPU.set_div (uint (CPU.div c + 1)) c)) ;;
  (* Figure out how often timer should fire. *)
  let sel := Z.land (CPU.timer (cpu gb)) 0x7 in
  let mask :=
    if sel =? 0x5 then Some 0x00f
    else if sel =? 0x6 then Some 0x03f
    else if sel =? 0x7 then Some 0x0ff
    else if sel =? 0x4 then Some 0x3ff
    else None in
  match mask with
  | None => ret tt (* Disabled *)
  | Some mask =>
      (* Increment tima. *)
      if Z.land (CPU.clock (cpu gb)) mask =? 0 then
        modCPU (fun c => CPU.set_tima (uint8 (CPU.tima c + 1)) c) ;;
        gb <- get ;;
        if CPU.tima (cpu gb) =? 0 then
          modCPU (fun c => CPU.set_tima (CPU.tma c) c) ;;
          Interrupt intTimer
        else ret tt
      else ret tt
  end.

(** One iteration of the loop of [stepCycle]. *)
Definition stepTick : M unit :=
  stepDMA ;;
  stepPixel ;;
  stepAudio ;;
  checkTimers ;;
  modCPU (fun c => CPU.set_clock (uint (CPU.clock c + 1)) c).

(** [for i := 0; i < 4; i++] *)
Definition stepCycle : M unit :=
  stepTick ;; stepTick ;; stepTick ;; stepTick.

(** *** cpu.go: fetching, the stack, interrupts *)

(** Reading a field of the CPU. *)
Definition rd {A : Type} (g : CPU.t -> A) : M A := fun gb => Ok (g (cpu gb)) gb.

Definition incPC : M unit := modCPU (fun c => CPU.set_pc (uint16 (CPU.pc c + 1)) c).

(** cpuFetch fetches a byte from pc and increments pc *)
Definition cpuFetch : M Z :=
  pc <- rd CPU.pc ;;
  val <- Read pc ;;
  incPC ;;
  stepCycle ;;
  ret val.

(** cpuFetchSigned fetches a signed byte from pc and increments pc *)
Definition cpuFetchSigned : M Z :=
  pc <- rd CPU.pc ;;
  val <- Read pc ;;
  let val := int8 val in
  incPC ;;
  stepCycle ;;
  ret val.

(** cpuFetch16 fetches a dword from pc and increments pc *)
Definition cpuFetch16 : M Z :=
  pc <- rd CPU.pc ;;
  lo <- Read pc ;;
  let val := uint16 (Z.shiftl (uint16 lo) 0) in
  incPC ;;
  stepCycle ;;
  pc <- rd CPU.pc ;;
  hi <- Read pc ;;
  let val := Z.lor val (uint16 (Z.shiftl (uint16 hi) 8)) in
  incPC ;;
  stepCycle ;;
  ret val.

Definition decSP : M unit := modCPU (fun c => CPU.set_sp (uint16 (CPU.sp c - 1)) c).
Definition incSP : M unit := modCPU (fun c => CPU.set_sp (uint16 (CPU.sp c + 1)) c).

(** cpuPush pushes a dword onto the stack. *)
Definition cpuPush (dword : Z) : M unit :=
  decSP ;;
  sp <- rd CPU.sp ;;
  Write sp (uint8 (Z.shiftr dword 8)) ;;
  stepCycle ;;
  decSP ;;
  sp <- rd CPU.sp ;;
  Write sp (uint8 (Z.shiftr dword 0)) ;;
  stepCycle.

(** cpuPop pops a dword off of the stack. *)
Definition cpuPop : M Z :=
  let value := 0 in
  sp <- rd CPU.sp ;;
  lo <- Read sp ;;
  let value := Z.lor value (uint16 (Z.shiftl (uint16 lo) 0)) in
  incSP ;;
  stepCycle ;;
  sp <- rd CPU.sp ;;
  hi <- Read sp ;;
  let value := Z.lor value (uint16 (Z.shiftl (uint16 hi) 8)) in
  incSP ;;
  stepCycle ;;
  ret value.

(** cpuInterrupt runs an interupt vector. *)
Definition cpuInterrupt (vector : Z) : M unit :=
  (* Set flags to stop interrupts. *)
  modCPU (CPU.set_ime false) ;;
  (* Push the program counter onto the stack. *)
  pc <- rd CPU.pc ;;
  cpuPush pc ;;
  (* Set PC to vector. *)
  modCPU (CPU.set_pc vector).

(** The body of [for flag, vector := range interruptVectorMap] over the
    entries in the order [order] in which the range statement yields them.
    Go leaves the iteration order of a map unspecified, so [order] is an
    argument; any permutation of the entries can occur. *)
Fixpoint rangeInterrupts (order : list (Z * Z)) : M unit :=
  match order with
  | [] => ret tt
  | (flag, vector) :: rest =>
      gb <- get ;;
      if negb (Z.land (Z.land (CPU.irq (cpu gb)) (CPU.ie (cpu gb))) flag =? 0) then
        modCPU (CPU.set_halt false) ;;
        modCPU (fun c => CPU.set_irq (Z.land (CPU.irq c) (not8 flag)) c) ;;
        cpuInterrupt vector
      else rangeInterrupts rest
  end.

Definition checkInterrupts (order : list (Z * Z)) : M unit :=
  ime <- rd CPU.ime ;;
  if negb ime then ret tt
  else rangeInterrupts order.

(** An iteration order that Go allows for the range statement. *)
Definition mapOrder (order : list (Z * Z)) : Prop :=
  Permutation order interruptVectorMap.

(** *** ops.go *)

(** A [*uint8] argument of an operation is modelled by passing the pointee in
    and the updated pointee out; the caller stores it back.  The source takes
    the address of [b c d e h l a] and of locals only, never of [f], which
    the operations update through the machine. *)
Inductive Reg8 : Type := RA | RB | RC | RD | RE | RH | RL.

Definition getReg (r : Reg8) (c : CPU.t) : Z :=
  match r with
  | RA => CPU.a c | RB => CPU.b c | RC => CPU.c c | RD => CPU.d c
  | RE => CPU.e c | RH => CPU.h c | RL => CPU.l c
  end.

Definition setReg (r : Reg8) (v : Z) (c : CPU.t) : CPU.t :=
  match r with
  | RA => CPU.set_a v c | RB => CPU.set_b v c | RC => CPU.set_c v c
  | RD => CPU.set_d v c | RE => CPU.set_e v c | RH => CPU.set_h v c
  | RL => CPU.set_l v c
  end.

(** [op(&cpu.r, ...)] *)
Definition withReg (r : Reg8) (op : Z -> M Z) : M unit :=
  reg <- rd (getReg r) ;;
  reg <- op reg ;;
  modCPU (setReg r reg).

(** [op(&cpu.r1, &cpu.r2, ...)] *)
Definition withReg2 (r1 r2 : Reg8) (op : Z -> Z -> M (Z * Z)) : M unit :=
  v1 <- rd (getReg r1) ;;
  v2 <- rd (getReg r2) ;;
  vs <- op v1 v2 ;;
  modCPU (setReg r1 (fst vs)) ;;
  modCPU (setReg r2 (snd vs)).

(** [op(&cpu.sp, ...)] *)
Definition withSP (op : Z -> M Z) : M unit :=
  reg <- rd CPU.sp ;;
  reg <- op reg ;;
  modCPU (CPU.set_sp reg).

Definition fetchAt (reg : Z) : M Z :=
  value <- Read reg ;;
  stepCycle ;;
  ret value.

Definition writeAt (reg value : Z) : M unit :=
  Write reg value ;;
  stepCycle.

(** CPU control ops *)

Definition cpuOpNop : M unit := ret tt.

Definition cpuOpStop : M unit := modCPU (CPU.set_stop true).

Definition cpuOpHalt : M unit :=
  (* Skip next instruction (glitch.) *)
  incPC ;;
  (* Do not halt if there are no interrupts enabled. *)
  ie <- rd CPU.ie ;;
  if Z.land ie 0x1f =? 0 then ret tt
  else modCPU (CPU.set_halt true).

Definition cpuOpSetCarryFlag : M unit :=
  modCPU (CPU.clearFlags (Z.lor subtractFlag halfCarryFlag)) ;;
  modCPU (CPU.setCarryFlag true).

Definition cpuOpComplementCarryFlag : M unit :=
  modCPU (CPU.clearFlags (Z.lor subtractFlag halfCarryFlag)) ;;
  modCPU (fun c => CPU.setCarryFlag (negb (CPU.cf c)) c).

Definition cpuOpUndefined {A : Type} : M A := panic UndefinedOpcode.

(** CPU load ops *)

Definition cpuOpLoad (reg value : Z) : M Z := ret value.

Definition cpuOpLoadAt (reg value : Z) : M unit := writeAt reg value.

Definition cpuOpLoadAt16 (reg value : Z) : M unit :=
  cpuOpLoadAt (uint16 (reg + 0)) (uint8 (Z.shiftr value 0)) ;;
  cpuOpLoadAt (uint16 (reg + 1)) (uint8 (Z.shiftr value 8)).

Definition cpuOpLoadRR (r1 r2 value : Z) : M (Z * Z) :=
  ret (uint8 (Z.shiftr value 8), uint8 (Z.shiftr value 0)).

Definition cpuOpLoad16 (reg value : Z) : M Z := ret value.

Definition cpuOpPush (dword : Z) : M unit :=
  stepCycle ;;
  cpuPush dword.

(** CPU alu ops *)

Definition cpuOpIncrement (reg : Z) : M Z :=
  let reg := uint8 (reg + 1) in
  modCPU (CPU.clearFlags (Z.lor (Z.lor zeroFlag subtractFlag) halfCarryFlag)) ;;
  modCPU (CPU.setZeroFlag reg) ;;
  modCPU (CPU.setHalfCarryFlag (Z.land reg 0xf =? 0)) ;;
  ret reg.

Definition cpuOpIncrementAt (reg : Z) : M unit :=
  value <- fetchAt reg ;;
  value <- cpuOpIncrement value ;;
  writeAt reg value.

Definition cpuOpIncrementRR (r1 r2 : Z) : M (Z * Z) :=
  let r2 := uint8 (r2 + 1) in
  let r1 := if r2 =? 0x00 then uint8 (r1 + 1) else r1 in
  stepCycle ;;
  ret (r1, r2).

Definition cpuOpIncrement16 (reg : Z) : M Z :=
  let reg := uint16 (reg + 1) in
  stepCycle ;;
  ret reg.

Definition cpuOpDecrement (reg : Z) : M Z :=
  let reg := uint8 (reg - 1) in
  modCPU (CPU.clearFlags (Z.lor zeroFlag halfCarryFlag)) ;;
  modCPU (CPU.setSubtractFlag true) ;;
  modCPU (CPU.setZeroFlag reg) ;;
  modCPU (CPU.setHalfCarryFlag (Z.land reg 0xf =? 0xf)) ;;
  ret reg.

Definition cpuOpDecrementAt (reg : Z) : M unit :=
  value <- fetchAt reg ;;
  value <- cpuOpDecrement value ;;
  writeAt reg value.

Definition cpuOpDecrementRR (r1 r2 : Z) : M (Z * Z) :=
  let r2 := uint8 (r2 - 1) in
  let r1 := if r2 =? 0xff then uint8 (r1 - 1) else r1 in
  stepCycle ;;
  ret (r1, r2).

Definition cpuOpDecrement16 (reg : Z) : M Z :=
  let reg := uint16 (reg - 1) in
  stepCycle ;;
  ret reg.

Definition cpuOpRotateLeft (reg : Z) : M Z :=
  (* Calculate result of rotate left *)
  cf <- rd CPU.cf ;;
  let value := uint (Z.shiftl (uint reg) 1) in
  let value := if cf then Z.lor value 0x01 else value in
  (* Update flags *)
  modCPU (CPU.clearFlags allFlags) ;;
  modCPU (CPU.setCarryFlag (negb (Z.land reg (bit 7) =? 0))) ;;
  (* Set register *)
  ret (uint8 value).

Definition cpuOpRotateRight (reg : Z) : M Z :=
  (* Calculate result of rotate right *)
  cf <- rd CPU.cf ;;
  let value := Z.shiftr (uint reg) 1 in
  let value := if cf then Z.lor value 0x80 else value in
  (* Update flags *)
  modCPU (CPU.clearFlags allFlags) ;;
  modCPU (CPU.setCarryFlag (negb (Z.land reg (bit 0) =? 0))) ;;
  (* Set register *)
  ret (uint8 value).

Definition cpuOpRotateLeftCarry (reg : Z) : M Z :=
  (* Calculate result of rotate left with carry *)
  let value := uint reg in
  let value := Z.lor (uint (Z.shiftl value 1)) (Z.shiftr value 7) in
  (* Update flags *)
  modCPU (CPU.clearFlags allFlags) ;;
  modCPU (CPU.setCarryFlag (negb (Z.land reg (bit 7) =? 0))) ;;
  (* Set register *)
  ret (uint8 value).

Definition cpuOpRotateRightCarry (reg : Z) : M Z :=
  (* Calculate result of rotate right with carry *)
  let value := uint reg in
  let value := Z.lor (Z.shiftr value 1) (uint (Z.shiftl value 7)) in
  (* Update flags *)
  modCPU (CPU.clearFlags allFlags) ;;
  modCPU (CPU.setCarryFlag (negb (Z.land reg (bit 0) =? 0))) ;;
  (* Set register *)
  ret (uint8 value).

Definition cpuOpDecimalAdjust (reg : Z) : M Z :=
  c <- getCPU ;;
  let adj := 0 in
  let '(adj, reg) :=
    if CPU.sf c then
      let adj := if CPU.hf c then Z.lor adj 0x06 else adj in
      let adj := if CPU.cf c then Z.lor adj 0x60 else adj in
      (adj, uint8 (reg - adj))
    else
      let adj := if CPU.hf c || (0x9 <? Z.land reg 0xf)
                 then Z.lor adj 0x06 else adj in
      let adj := if CPU.cf c || (0x99 <? reg)
                 then Z.lor adj 0x60 else adj in
      (adj, uint8 (reg + adj)) in
  modCPU (CPU.clearFlags halfCarryFlag) ;;
  modCPU (CPU.setZeroFlag reg) ;;
  modCPU (CPU.setCarryFlag (0x60 <=? adj)) ;;
  ret reg.

Definition cpuOpBitwiseComplement (reg : Z) : M Z :=
  let reg := Z.lxor reg 0xff in
  modCPU (CPU.setSubtractFlag true) ;;
  modCPU (CPU.setHalfCarryFlag true) ;;
  ret reg.

Definition cpuOpAddRR (h l value : Z) : M (Z * Z) :=
  stepCycle ;;
  let hl := uint (uint (Z.shiftl (uint h) 8) + uint l) in
  let rb := uint (hl + uint value) in
  let rn := uint (Z.land hl 0xfff + uint (Z.land value 0xfff)) in
  let h := uint8 (Z.shiftr rb 8) in
  let l := uint8 (Z.land rb 0xff) in
  modCPU (CPU.setSubtractFlag false) ;;
  modCPU (CPU.setHalfCarryFlag (0x0fff <? rn)) ;;
  modCPU (CPU.setCarryFlag (0xffff <? rb)) ;;
  ret (h, l).

Definition cpuOpAdd (reg value : Z) (carry : bool) : M Z :=
  cf <- rd CPU.cf ;;
  let c := if carry && cf then 1 else 0 in
  (* Calculate result *)
  let rn := uint (uint (uint reg + uint value) + uint c) in
  let rh := uint8 (uint8 (Z.land reg 0xf + Z.land value 0xf) + c) in
  let reg := uint8 rn in
  (* Update flags *)
  modCPU (CPU.clearFlags subtractFlag) ;;
  modCPU (CPU.setZeroFlag reg) ;;
  modCPU (CPU.setHalfCarryFlag (0x0f <? rh)) ;;
  modCPU (CPU.setCarryFlag (0xff <? rn)) ;;
  ret reg.

Definition cpuOpAddSP (value : Z) : M unit :=
  sp <- rd CPU.sp ;;
  let sp := int sp in
  let rn := int (sp + int value) in
  let rh := int (Z.land sp 0xfff + int value) in
  modCPU (CPU.set_sp (uint16 rn)) ;;
  modCPU (CPU.clearFlags allFlags) ;;
  modCPU (CPU.setHalfCarryFlag (0x0fff <? rh)) ;;
  modCPU (CPU.setCarryFlag (0xffff <? rn)).

Definition cpuOpSub (reg value : Z) (carry : bool) : M Z :=
  cf <- rd CPU.cf ;;
  let c := if carry && cf then 1 else 0 in
  let rn := uint (uint (uint reg - uint value) - uint c) in
  let rh := uint8 (uint8 (Z.land reg 0xf - Z.land value 0xf) - c) in
  let reg := uint8 rn in
  (* Update flags *)
  modCPU (CPU.setZeroFlag reg) ;;
  modCPU (CPU.setSubtractFlag true) ;;
  modCPU (CPU.setHalfCarryFlag (0x0f <? rh)) ;;
  modCPU (CPU.setCarryFlag (0xff <? rn)) ;;
  ret reg.

Definition cpuOpAnd (reg value : Z) : M Z :=
  let reg := Z.land reg value in
  modCPU (CPU.clearFlags (Z.lor subtractFlag carryFlag)) ;;
  modCPU (CPU.setZeroFlag reg) ;;
  modCPU (CPU.setHalfCarryFlag true) ;;
  ret reg.

Definition cpuOpXor (reg value : Z) : M Z :=
  let reg := Z.lxor reg value in
  modCPU (CPU.clearFlags (Z.lor (Z.lor subtractFlag carryFlag) halfCarryFlag)) ;;
  modCPU (CPU.setZeroFlag reg) ;;
  ret reg.

Definition cpuOpOr (reg value : Z) : M Z :=
  let reg := Z.lor reg value in
  modCPU (CPU.clearFlags (Z.lor (Z.lor subtractFlag carryFlag) halfCarryFlag)) ;;
  modCPU (CPU.setZeroFlag reg) ;;
  ret reg.

(** The subtraction runs on the local copy [res]; [*reg] stays as it is. *)
Definition cpuOpCompare (reg value : Z) : M Z :=
  let res := reg in
  cpuOpSub res value false ;;
  ret reg.

(** CPU jump ops *)

Definition cpuOpJump (addr : Z) : M unit :=
  modCPU (CPU.set_pc addr) ;;
  stepCycle.

Definition cpuOpJumpFlag (flag : bool) (addr : Z) : M unit :=
  if flag then cpuOpJump addr else ret tt.

Definition cpuOpJumpRel (value : Z) : M unit :=
  pc <- rd CPU.pc ;;
  cpuOpJump (uint16 (int (int pc + value))).

Definition cpuOpJumpRelFlag (flag : bool) (value : Z) : M unit :=
  if flag then
    pc <- rd CPU.pc ;;
    cpuOpJump (uint16 (int (int pc + value)))
  else ret tt.

Definition cpuOpCall (addr : Z) : M unit :=
  pc <- rd CPU.pc ;;
  cpuPush pc ;;
  cpuOpJump addr.

Definition cpuOpCallFlag (flag : bool) (addr : Z) : M unit :=
  if flag then
    pc <- rd CPU.pc ;;
    cpuPush pc ;;
    cpuOpJump addr
  else ret tt.

Definition cpuOpReturn : M unit :=
  addr <- cpuPop ;;
  cpuOpJump addr.

Definition cpuOpReturnFlag (flag : bool) : M unit :=
  stepCycle ;;
  if flag then
    addr <- cpuPop ;;
    cpuOpJump addr
  else ret tt.

Definition cpuOpRestart (vector : Z) : M unit := cpuOpCall (uint16 vector).

Definition cpuOpReturnInterrupt : M unit :=
  cpuOpReturn ;;
  modCPU (CPU.set_ime true).

(** CPU bit ops (CB prefix) *)

Definition cpuOpCBRotateLeftCarry (reg : Z) : M Z :=
  (* Calculate result of rotate left with carry *)
  let value := uint reg in
  let value := Z.lor (uint (Z.shiftl value 1)) (Z.shiftr value 7) in
  (* Update flags *)
  modCPU (CPU.clearFlags allFlags) ;;
  modCPU (CPU.setCarryFlag (negb (Z.land reg (bit 7) =? 0))) ;;
  modCPU (CPU.setZeroFlag (uint8 value)) ;;
  (* Set register *)
  ret (uint8 value).

Definition cpuOpCBRotateRightCarry (reg : Z) : M Z :=
  (* Calculate result of rotate right with carry *)
  let value := uint reg in
  let value := Z.lor (Z.shiftr value 1) (uint (Z.shiftl value 7)) in
  (* Update flags *)
  modCPU (CPU.clearFlags allFlags) ;;
  modCPU (CPU.setCarryFlag (negb (Z.land reg (bit 0) =? 0))) ;;
  modCPU (CPU.setZeroFlag (uint8 value)) ;;
  (* Set register *)
  ret (uint8 value).

Definition cpuOpCBRotateLeft (reg : Z) : M Z :=
  (* Calculate result of rotate left *)
  cf <- rd CPU.cf ;;
  let value := uint (Z.shiftl (uint reg) 1) in
  let value := if cf then Z.lor value 0x01 else value in
  (* Update flags *)
  modCPU (CPU.clearFlags allFlags) ;;
  modCPU (CPU.setCarryFlag (negb (Z.land reg (bit 7) =? 0))) ;;
  modCPU (CPU.setZeroFlag (uint8 value)) ;;
  (* Set register *)
  ret (uint8 value).

Definition cpuOpCBRotateRight (reg : Z) : M Z :=
  (* Calculate result of rotate right *)
  cf <- rd CPU.cf ;;
  let value := Z.shiftr (uint reg) 1 in
  let value := if cf then Z.lor value 0x80 else value in
  (* Update flags *)
  modCPU (CPU.clearFlags allFlags) ;;
  modCPU (CPU.setCarryFlag (negb (Z.land reg (bit 0) =? 0))) ;;
  modCPU (CPU.setZeroFlag (uint8 value)) ;;
  (* Set register *)
  ret (uint8 value).

Definition cpuOpCBArithmeticShiftLeft (reg : Z) : M Z :=
  (* Calculate result of shift left *)
  let value := uint (Z.shiftl (uint reg) 1) in
  (* Update flags *)
  modCPU (CPU.clearFlags allFlags) ;;
  modCPU (CPU.setCarryFlag (negb (Z.land reg (bit 7) =? 0))) ;;
  modCPU (CPU.setZeroFlag (uint8 value)) ;;
  (* Set register *)
  ret (uint8 value).

Definition cpuOpCBArithmeticShiftRight (reg : Z) : M Z :=
  (* Calculate result of shift right *)
  let value := Z.lor (Z.shiftr reg 1) (Z.land reg 0x80) in
  (* Update flags *)
  modCPU (CPU.clearFlags allFlags) ;;
  modCPU (CPU.setCarryFlag (negb (Z.land reg (bit 0) =? 0))) ;;
  modCPU (CPU.setZeroFlag (uint8 value)) ;;
  (* Set register *)
  ret (uint8 value).

Definition cpuOpCBSwap (reg : Z) : M Z :=
  (* Calculate result of swap *)
  let value := Z.lor (uint8 (Z.shiftl reg 4)) (Z.shiftr reg 4) in
  (* Update flags *)
  modCPU (CPU.clearFlags allFlags) ;;
  modCPU (CPU.setZeroFlag (uint8 value)) ;;
  (* Set register *)
  ret (uint8 value).

Definition cpuOpCBLogicalShiftRight (reg : Z) : M Z :=
  (* Calculate result of shift right *)
  let value := Z.shiftr (uint reg) 1 in
  (* Update flags *)
  modCPU (CPU.clearFlags allFlags) ;;
  modCPU (CPU.setCarryFlag (negb (Z.land reg (bit 0) =? 0))) ;;
  modCPU (CPU.setZeroFlag (uint8 value)) ;;
  (* Set register *)
  ret (uint8 value).

Definition cpuOpCBBit (b reg : Z) : M Z :=
  (* Set flags based on bit *)
  modCPU (CPU.clearFlags (Z.lor (Z.lor zeroFlag subtractFlag) halfCarryFlag)) ;;
  modCPU (CPU.setZeroFlag (Z.land reg (bit b))) ;;
  modCPU (CPU.setHalfCarryFlag true) ;;
  ret reg.

Definition cpuOpCBBitReset (b reg : Z) : M Z := ret (setBit reg b false).

Definition cpuOpCBBitSet (b reg : Z) : M Z := ret (setBit reg b true).

(** *** cpu.go: the dispatch tables *)

Definition cpuDispatch (op : Z) : M unit :=
  match op with
  | 0x00 => cpuOpNop
  | 0x01 => x1 <- cpuFetch16 ;; withReg2 RB RC (fun r1 r2 => cpuOpLoadRR r1 r2 x1)
  | 0x02 => x1 <- rd CPU.bc ;; x2 <- rd CPU.a ;; cpuOpLoadAt x1 x2
  | 0x03 => withReg2 RB RC (fun r1 r2 => cpuOpIncrementRR r1 r2)
  | 0x04 => withReg RB (fun reg => cpuOpIncrement reg)
  | 0x05 => withReg RB (fun reg => cpuOpDecrement reg)
  | 0x06 => x1 <- cpuFetch ;; withReg RB (fun reg => cpuOpLoad reg x1)
  | 0x07 => withReg RA (fun reg => cpuOpRotateLeftCarry reg)
  | 0x08 => x1 <- cpuFetch16 ;; x2 <- rd CPU.sp ;; cpuOpLoadAt16 x1 x2
  | 0x09 => x1 <- rd CPU.bc ;; withReg2 RH RL (fun r1 r2 => cpuOpAddRR r1 r2 x1)
  | 0x0A => x1 <- rd CPU.bc ;; x2 <- fetchAt x1 ;; withReg RA (fun reg => cpuOpLoad reg x2)
  | 0x0B => withReg2 RB RC (fun r1 r2 => cpuOpDecrementRR r1 r2)
  | 0x0C => withReg RC (fun reg => cpuOpIncrement reg)
  | 0x0D => withReg RC (fun reg => cpuOpDecrement reg)
  | 0x0E => x1 <- cpuFetch ;; withReg RC (fun reg => cpuOpLoad reg x1)
  | 0x0F => withReg RA (fun reg => cpuOpRotateRightCarry reg)
  | 0x10 => cpuOpStop
  | 0x11 => x1 <- cpuFetch16 ;; withReg2 RD RE (fun r1 r2 => cpuOpLoadRR r1 r2 x1)
  | 0x12 => x1 <- rd CPU.de ;; x2 <- rd CPU.a ;; cpuOpLoadAt x1 x2
  | 0x13 => withReg2 RD RE (fun r1 r2 => cpuOpIncrementRR r1 r2)
  | 0x14 => withReg RD (fun reg => cpuOpIncrement reg)
  | 0x15 => withReg RD (fun reg => cpuOpDecrement reg)
  | 0x16 => x1 <- cpuFetch ;; withReg RD (fun reg => cpuOpLoad reg x1)
  | 0x17 => withReg RA (fun reg => cpuOpRotateLeft reg)
  | 0x18 => x1 <- cpuFetchSigned ;; cpuOpJumpRel (int x1)
  | 0x19 => x1 <- rd CPU.de ;; withReg2 RH RL (fun r1 r2 => cpuOpAddRR r1 r2 x1)
  | 0x1A => x1 <- rd CPU.de ;; x2 <- fetchAt x1 ;; withReg RA (fun reg => cpuOpLoad reg x2)
  | 0x1B => withReg2 RD RE (fun r1 r2 => cpuOpDecrementRR r1 r2)
  | 0x1C => withReg RE (fun reg => cpuOpIncrement reg)
  | 0x1D => withReg RE (fun reg => cpuOpDecrement reg)
  | 0x1E => x1 <- cpuFetch ;; withReg RE (fun reg => cpuOpLoad reg x1)
  | 0x1F => withReg RA (fun reg => cpuOpRotateRight reg)
  | 0x20 => x1 <- rd CPU.zf ;; x2 <- cpuFetchSigned ;; cpuOpJumpRelFlag (negb x1) (int x2)
  | 0x21 => x1 <- cpuFetch16 ;; withReg2 RH RL (fun r1 r2 => cpuOpLoadRR r1 r2 x1)
  | 0x22 => x1 <- rd CPU.hl ;; x2 <- rd CPU.a ;; cpuOpLoadAt x1 x2 ;; x1 <- rd CPU.hl ;; modCPU (CPU.setHL (uint16 (x1 + 1)))
  | 0x23 => withReg2 RH RL (fun r1 r2 => cpuOpIncrementRR r1 r2)
  | 0x24 => withReg RH (fun reg => cpuOpIncrement reg)
  | 0x25 => withReg RH (fun reg => cpuOpDecrement reg)
  | 0x26 => x1 <- cpuFetch ;; withReg RH (fun reg => cpuOpLoad reg x1)
  | 0x27 => withReg RA (fun reg => cpuOpDecimalAdjust reg)
  | 0x28 => x1 <- rd CPU.zf ;; x2 <- cpuFetchSigned ;; cpuOpJumpRelFlag x1 (int x2)
  | 0x29 => x1 <- rd CPU.hl ;; withReg2 RH RL (fun r1 r2 => cpuOpAddRR r1 r2 x1)
  | 0x2A => x1 <- rd CPU.hl ;; x2 <- fetchAt x1 ;; withReg RA (fun reg => cpuOpLoad reg x2) ;; x1 <- rd CPU.hl ;; modCPU (CPU.setHL (uint16 (x1 + 1)))
  | 0x2B => withReg2 RH RL (fun r1 r2 => cpuOpDecrementRR r1 r2)
  | 0x2C => withReg RL (fun reg => cpuOpIncrement reg)
  | 0x2D => withReg RL (fun reg => cpuOpDecrement reg)
  | 0x2E => x1 <- cpuFetch ;; withReg RL (fun reg => cpuOpLoad reg x1)
  | 0x2F => withReg RA (fun reg => cpuOpBitwiseComplement reg)
  | 0x30 => x1 <- rd CPU.cf ;; x2 <- cpuFetchSigned ;; cpuOpJumpRelFlag (negb x1) (int x2)
  | 0x31 => x1 <- cpuFetch16 ;; withSP (fun reg => cpuOpLoad16 reg x1)
  | 0x32 => x1 <- rd CPU.hl ;; x2 <- rd CPU.a ;; cpuOpLoadAt x1 x2 ;; x1 <- rd CPU.hl ;; modCPU (CPU.setHL (uint16 (x1 - 1)))
  | 0x33 => withSP (fun reg => cpuOpIncrement16 reg)
  | 0x34 => x1 <- rd CPU.hl ;; cpuOpIncrementAt x1
  | 0x35 => x1 <- rd CPU.hl ;; cpuOpDecrementAt x1
  | 0x36 => x1 <- rd CPU.hl ;; x2 <- cpuFetch ;; cpuOpLoadAt x1 x2
  | 0x37 => cpuOpSetCarryFlag
  | 0x38 => x1 <- rd CPU.cf ;; x2 <- cpuFetchSigned ;; cpuOpJumpRelFlag x1 (int x2)
  | 0x39 => x1 <- rd CPU.sp ;; withReg2 RH RL (fun r1 r2 => cpuOpAddRR r1 r2 x1)
  | 0x3A => x1 <- rd CPU.hl ;; x2 <- fetchAt x1 ;; withReg RA (fun reg => cpuOpLoad reg x2) ;; x1 <- rd CPU.hl ;; modCPU (CPU.setHL (uint16 (x1 - 1)))
  | 0x3B => withSP (fun reg => cpuOpDecrement16 reg)
  | 0x3C => withReg RA (fun reg => cpuOpIncrement reg)
  | 0x3D => withReg RA (fun reg => cpuOpDecrement reg)
  | 0x3E => x1 <- cpuFetch ;; withReg RA (fun reg => cpuOpLoad reg x1)
  | 0x3F => cpuOpComplementCarryFlag
  | 0x40 => x1 <- rd CPU.b ;; withReg RB (fun reg => cpuOpLoad reg x1)
  | 0x41 => x1 <- rd CPU.c ;; withReg RB (fun reg => cpuOpLoad reg x1)
  | 0x42 => x1 <- rd CPU.d ;; withReg RB (fun reg => cpuOpLoad reg x1)
  | 0x43 => x1 <- rd CPU.e ;; withReg RB (fun reg => cpuOpLoad reg x1)
  | 0x44 => x1 <- rd CPU.h ;; withReg RB (fun reg => cpuOpLoad reg x1)
  | 0x45 => x1 <- rd CPU.l ;; withReg RB (fun reg => cpuOpLoad reg x1)
  | 0x46 => x1 <- rd CPU.hl ;; x2 <- fetchAt x1 ;; withReg RB (fun reg => cpuOpLoad reg x2)
  | 0x47 => x1 <- rd CPU.a ;; withReg RB (fun reg => cpuOpLoad reg x1)
  | 0x48 => x1 <- rd CPU.b ;; withReg RC (fun reg => cpuOpLoad reg x1)
  | 0x49 => x1 <- rd CPU.c ;; withReg RC (fun reg => cpuOpLoad reg x1)
  | 0x4A => x1 <- rd CPU.d ;; withReg RC (fun reg => cpuOpLoad reg x1)
  | 0x4B => x1 <- rd CPU.e ;; withReg RC (fun reg => cpuOpLoad reg x1)
  | 0x4C => x1 <- rd CPU.h ;; withReg RC (fun reg => cpuOpLoad reg x1)
  | 0x4D => x1 <- rd CPU.l ;; withReg RC (fun reg => cpuOpLoad reg x1)
  | 0x4E => x1 <- rd CPU.hl ;; x2 <- fetchAt x1 ;; withReg RC (fun reg => cpuOpLoad reg x2)
  | 0x4F => x1 <- rd CPU.a ;; withReg RC (fun reg => cpuOpLoad reg x1)
  | 0x50 => x1 <- rd CPU.b ;; withReg RD (fun reg => cpuOpLoad reg x1)
  | 0x51 => x1 <- rd CPU.c ;; withReg RD (fun reg => cpuOpLoad reg x1)
  | 0x52 => x1 <- rd CPU.d ;; withReg RD (fun reg => cpuOpLoad reg x1)
  | 0x53 => x1 <- rd CPU.e ;; withReg RD (fun reg => cpuOpLoad reg x1)
  | 0x54 => x1 <- rd CPU.h ;; withReg RD (fun reg => cpuOpLoad reg x1)
  | 0x55 => x1 <- rd CPU.l ;; withReg RD (fun reg => cpuOpLoad reg x1)
  | 0x56 => x1 <- rd CPU.hl ;; x2 <- fetchAt x1 ;; withReg RD (fun reg => cpuOpLoad reg x2)
  | 0x57 => x1 <- rd CPU.a ;; withReg RD (fun reg => cpuOpLoad reg x1)
  | 0x58 => x1 <- rd CPU.b ;; withReg RE (fun reg => cpuOpLoad reg x1)
  | 0x59 => x1 <- rd CPU.c ;; withReg RE (fun reg => cpuOpLoad reg x1)
  | 0x5A => x1 <- rd CPU.d ;; withReg RE (fun reg => cpuOpLoad reg x1)
  | 0x5B => x1 <- rd CPU.e ;; withReg RE (fun reg => cpuOpLoad reg x1)
  | 0x5C => x1 <- rd CPU.h ;; withReg RE (fun reg => cpuOpLoad reg x1)
  | 0x5D => x1 <- rd CPU.l ;; withReg RE (fun reg => cpuOpLoad reg x1)
  | 0x5E => x1 <- rd CPU.hl ;; x2 <- fetchAt x1 ;; withReg RE (fun reg => cpuOpLoad reg x2)
  | 0x5F => x1 <- rd CPU.a ;; withReg RE (fun reg => cpuOpLoad reg x1)
  | 0x60 => x1 <- rd CPU.b ;; withReg RH (fun reg => cpuOpLoad reg x1)
  | 0x61 => x1 <- rd CPU.c ;; withReg RH (fun reg => cpuOpLoad reg x1)
  | 0x62 => x1 <- rd CPU.d ;; withReg RH (fun reg => cpuOpLoad reg x1)
  | 0x63 => x1 <- rd CPU.e ;; withReg RH (fun reg => cpuOpLoad reg x1)
  | 0x64 => x1 <- rd CPU.h ;; withReg RH (fun reg => cpuOpLoad reg x1)
  | 0x65 => x1 <- rd CPU.l ;; withReg RH (fun reg => cpuOpLoad reg x1)
  | 0x66 => x1 <- rd CPU.hl ;; x2 <- fetchAt x1 ;; withReg RH (fun reg => cpuOpLoad reg x2)
  | 0x67 => x1 <- rd CPU.a ;; withReg RH (fun reg => cpuOpLoad reg x1)
  | 0x68 => x1 <- rd CPU.b ;; withReg RL (fun reg => cpuOpLoad reg x1)
  | 0x69 => x1 <- rd CPU.c ;; withReg RL (fun reg => cpuOpLoad reg x1)
  | 0x6A => x1 <- rd CPU.d ;; withReg RL (fun reg => cpuOpLoad reg x1)
  | 0x6B => x1 <- rd CPU.e ;; withReg RL (fun reg => cpuOpLoad reg x1)
  | 0x6C => x1 <- rd CPU.h ;; withReg RL (fun reg => cpuOpLoad reg x1)
  | 0x6D => x1 <- rd CPU.l ;; withReg RL (fun reg => cpuOpLoad reg x1)
  | 0x6E => x1 <- rd CPU.hl ;; x2 <- fetchAt x1 ;; withReg RL (fun reg => cpuOpLoad reg x2)
  | 0x6F => x1 <- rd CPU.a ;; withReg RL (fun reg => cpuOpLoad reg x1)
  | 0x70 => x1 <- rd CPU.hl ;; x2 <- rd CPU.b ;; cpuOpLoadAt x1 x2
  | 0x71 => x1 <- rd CPU.hl ;; x2 <- rd CPU.c ;; cpuOpLoadAt x1 x2
  | 0x72 => x1 <- rd CPU.hl ;; x2 <- rd CPU.d ;; cpuOpLoadAt x1 x2
  | 0x73 => x1 <- rd CPU.hl ;; x2 <- rd CPU.e ;; cpuOpLoadAt x1 x2
  | 0x74 => x1 <- rd CPU.hl ;; x2 <- rd CPU.h ;; cpuOpLoadAt x1 x2
  | 0x75 => x1 <- rd CPU.hl ;; x2 <- rd CPU.l ;; cpuOpLoadAt x1 x2
  | 0x76 => cpuOpHalt
  | 0x77 => x1 <- rd CPU.hl ;; x2 <- rd CPU.a ;; cpuOpLoadAt x1 x2
  | 0x78 => x1 <- rd CPU.b ;; withReg RA (fun reg => cpuOpLoad reg x1)
  | 0x79 => x1 <- rd CPU.c ;; withReg RA (fun reg => cpuOpLoad reg x1)
  | 0x7A => x1 <- rd CPU.d ;; withReg RA (fun reg => cpuOpLoad reg x1)
  | 0x7B => x1 <- rd CPU.e ;; withReg RA (fun reg => cpuOpLoad reg x1)
  | 0x7C => x1 <- rd CPU.h ;; withReg RA (fun reg => cpuOpLoad reg x1)
  | 0x7D => x1 <- rd CPU.l ;; withReg RA (fun reg => cpuOpLoad reg x1)
  | 0x7E => x1 <- rd CPU.hl ;; x2 <- fetchAt x1 ;; withReg RA (fun reg => cpuOpLoad reg x2)
  | 0x7F => x1 <- rd CPU.a ;; withReg RA (fun reg => cpuOpLoad reg x1)
  | 0x80 => x1 <- rd CPU.b ;; withReg RA (fun reg => cpuOpAdd reg x1 false)
  | 0x81 => x1 <- rd CPU.c ;; withReg RA (fun reg => cpuOpAdd reg x1 false)
  | 0x82 => x1 <- rd CPU.d ;; withReg RA (fun reg => cpuOpAdd reg x1 false)
  | 0x83 => x1 <- rd CPU.e ;; withReg RA (fun reg => cpuOpAdd reg x1 false)
  | 0x84 => x1 <- rd CPU.h ;; withReg RA (fun reg => cpuOpAdd reg x1 false)
  | 0x85 => x1 <- rd CPU.l ;; withReg RA (fun reg => cpuOpAdd reg x1 false)
  | 0x86 => x1 <- rd CPU.hl ;; x2 <- fetchAt x1 ;; withReg RA (fun reg => cpuOpAdd reg x2 false)
  | 0x87 => x1 <- rd CPU.a ;; withReg RA (fun reg => cpuOpAdd reg x1 false)
  | 0x88 => x1 <- rd CPU.b ;; withReg RA (fun reg => cpuOpAdd reg x1 true)
  | 0x89 => x1 <- rd CPU.c ;; withReg RA (fun reg => cpuOpAdd reg x1 true)
  | 0x8A => x1 <- rd CPU.d ;; withReg RA (fun reg => cpuOpAdd reg x1 true)
  | 0x8B => x1 <- rd CPU.e ;; withReg RA (fun reg => cpuOpAdd reg x1 true)
  | 0x8C => x1 <- rd CPU.h ;; withReg RA (fun reg => cpuOpAdd reg x1 true)
  | 0x8D => x1 <- rd CPU.l ;; withReg RA (fun reg => cpuOpAdd reg x1 true)
  | 0x8E => x1 <- rd CPU.hl ;; x2 <- fetchAt x1 ;; withReg RA (fun reg => cpuOpAdd reg x2 true)
  | 0x8F => x1 <- rd CPU.a ;; withReg RA (fun reg => cpuOpAdd reg x1 true)
  | 0x90 => x1 <- rd CPU.b ;; withReg RA (fun reg => cpuOpSub reg x1 false)
  | 0x91 => x1 <- rd CPU.c ;; withReg RA (fun reg => cpuOpSub reg x1 false)
  | 0x92 => x1 <- rd CPU.d ;; withReg RA (fun reg => cpuOpSub reg x1 false)
  | 0x93 => x1 <- rd CPU.e ;; withReg RA (fun reg => cpuOpSub reg x1 false)
  | 0x94 => x1 <- rd CPU.h ;; withReg RA (fun reg => cpuOpSub reg x1 false)
  | 0x95 => x1 <- rd CPU.l ;; withReg RA (fun reg => cpuOpSub reg x1 false)
  | 0x96 => x1 <- rd CPU.hl ;; x2 <- fetchAt x1 ;; withReg RA (fun reg => cpuOpSub reg x2 false)
  | 0x97 => x1 <- rd CPU.a ;; withReg RA (fun reg => cpuOpSub reg x1 false)
  | 0x98 => x1 <- rd CPU.b ;; withReg RA (fun reg => cpuOpSub reg x1 true)
  | 0x99 => x1 <- rd CPU.c ;; withReg RA (fun reg => cpuOpSub reg x1 true)
  | 0x9A => x1 <- rd CPU.d ;; withReg RA (fun reg => cpuOpSub reg x1 true)
  | 0x9B => x1 <- rd CPU.e ;; withReg RA (fun reg => cpuOpSub reg x1 true)
  | 0x9C => x1 <- rd CPU.h ;; withReg RA (fun reg => cpuOpSub reg x1 true)
  | 0x9D => x1 <- rd CPU.l ;; withReg RA (fun reg => cpuOpSub reg x1 true)
  | 0x9E => x1 <- rd CPU.hl ;; x2 <- fetchAt x1 ;; withReg RA (fun reg => cpuOpSub reg x2 true)
  | 0x9F => x1 <- rd CPU.a ;; withReg RA (fun reg => cpuOpSub reg x1 true)
  | 0xA0 => x1 <- rd CPU.b ;; withReg RA (fun reg => cpuOpAnd reg x1)
  | 0xA1 => x1 <- rd CPU.c ;; withReg RA (fun reg => cpuOpAnd reg x1)
  | 0xA2 => x1 <- rd CPU.d ;; withReg RA (fun reg => cpuOpAnd reg x1)
  | 0xA3 => x1 <- rd CPU.e ;; withReg RA (fun reg => cpuOpAnd reg x1)
  | 0xA4 => x1 <- rd CPU.h ;; withReg RA (fun reg => cpuOpAnd reg x1)
  | 0xA5 => x1 <- rd CPU.l ;; withReg RA (fun reg => cpuOpAnd reg x1)
  | 0xA6 => x1 <- rd CPU.hl ;; x2 <- fetchAt x1 ;; withReg RA (fun reg => cpuOpAnd reg x2)
  | 0xA7 => x1 <- rd CPU.a ;; withReg RA (fun reg => cpuOpAnd reg x1)
  | 0xA8 => x1 <- rd CPU.b ;; withReg RA (fun reg => cpuOpXor reg x1)
  | 0xA9 => x1 <- rd CPU.c ;; withReg RA (fun reg => cpuOpXor reg x1)
  | 0xAA => x1 <- rd CPU.d ;; withReg RA (fun reg => cpuOpXor reg x1)
  | 0xAB => x1 <- rd CPU.e ;; withReg RA (fun reg => cpuOpXor reg x1)
  | 0xAC => x1 <- rd CPU.h ;; withReg RA (fun reg => cpuOpXor reg x1)
  | 0xAD => x1 <- rd CPU.l ;; withReg RA (fun reg => cpuOpXor reg x1)
  | 0xAE => x1 <- rd CPU.hl ;; x2 <- fetchAt x1 ;; withReg RA (fun reg => cpuOpXor reg x2)
  | 0xAF => x1 <- rd CPU.a ;; withReg RA (fun reg => cpuOpXor reg x1)
  | 0xB0 => x1 <- rd CPU.b ;; withReg RA (fun reg => cpuOpOr reg x1)
  | 0xB1 => x1 <- rd CPU.c ;; withReg RA (fun reg => cpuOpOr reg x1)
  | 0xB2 => x1 <- rd CPU.d ;; withReg RA (fun reg => cpuOpOr reg x1)
  | 0xB3 => x1 <- rd CPU.e ;; withReg RA (fun reg => cpuOpOr reg x1)
  | 0xB4 => x1 <- rd CPU.h ;; withReg RA (fun reg => cpuOpOr reg x1)
  | 0xB5 => x1 <- rd CPU.l ;; withReg RA (fun reg => cpuOpOr reg x1)
  | 0xB6 => x1 <- rd CPU.hl ;; x2 <- fetchAt x1 ;; withReg RA (fun reg => cpuOpOr reg x2)
  | 0xB7 => x1 <- rd CPU.a ;; withReg RA (fun reg => cpuOpOr reg x1)
  | 0xB8 => x1 <- rd CPU.b ;; withReg RA (fun reg => cpuOpCompare reg x1)
  | 0xB9 => x1 <- rd CPU.c ;; withReg RA (fun reg => cpuOpCompare reg x1)
  | 0xBA => x1 <- rd CPU.d ;; withReg RA (fun reg => cpuOpCompare reg x1)
  | 0xBB => x1 <- rd CPU.e ;; withReg RA (fun reg => cpuOpCompare reg x1)
  | 0xBC => x1 <- rd CPU.h ;; withReg RA (fun reg => cpuOpCompare reg x1)
  | 0xBD => x1 <- rd CPU.l ;; withReg RA (fun reg => cpuOpCompare reg x1)
  | 0xBE => x1 <- rd CPU.hl ;; x2 <- fetchAt x1 ;; withReg RA (fun reg => cpuOpCompare reg x2)
  | 0xBF => x1 <- rd CPU.a ;; withReg RA (fun reg => cpuOpCompare reg x1)
  | 0xC0 => x1 <- rd CPU.zf ;; cpuOpReturnFlag (negb x1)
  | 0xC1 => x1 <- cpuPop ;; modCPU (CPU.setBC x1)
  | 0xC2 => x1 <- rd CPU.zf ;; x2 <- cpuFetch16 ;; cpuOpJumpFlag (negb x1) x2
  | 0xC3 => x1 <- cpuFetch16 ;; cpuOpJump x1
  | 0xC4 => x1 <- rd CPU.zf ;; x2 <- cpuFetch16 ;; cpuOpCallFlag (negb x1) x2
  | 0xC5 => x1 <- rd CPU.bc ;; cpuOpPush x1
  | 0xC6 => x1 <- cpuFetch ;; withReg RA (fun reg => cpuOpAdd reg x1 false)
  | 0xC7 => cpuOpRestart 0x00
  | 0xC8 => x1 <- rd CPU.zf ;; cpuOpReturnFlag x1
  | 0xC9 => cpuOpReturn
  | 0xCA => x1 <- rd CPU.zf ;; x2 <- cpuFetch16 ;; cpuOpJumpFlag x1 x2
  | 0xCB => panic InvalidOpcode
  | 0xCC => x1 <- rd CPU.zf ;; x2 <- cpuFetch16 ;; cpuOpCallFlag x1 x2
  | 0xCD => x1 <- cpuFetch16 ;; cpuOpCall x1
  | 0xCE => x1 <- cpuFetch ;; withReg RA (fun reg => cpuOpAdd reg x1 true)
  | 0xCF => cpuOpRestart 0x08
  | 0xD0 => x1 <- rd CPU.cf ;; cpuOpReturnFlag (negb x1)
  | 0xD1 => x1 <- cpuPop ;; modCPU (CPU.setDE x1)
  | 0xD2 => x1 <- rd CPU.cf ;; x2 <- cpuFetch16 ;; cpuOpJumpFlag (negb x1) x2
  | 0xD3 => cpuOpUndefined
  | 0xD4 => x1 <- rd CPU.cf ;; x2 <- cpuFetch16 ;; cpuOpCallFlag (negb x1) x2
  | 0xD5 => x1 <- rd CPU.de ;; cpuOpPush x1
  | 0xD6 => x1 <- cpuFetch ;; withReg RA (fun reg => cpuOpSub reg x1 false)
  | 0xD7 => cpuOpRestart 0x10
  | 0xD8 => x1 <- rd CPU.cf ;; cpuOpReturnFlag x1
  | 0xD9 => cpuOpReturnInterrupt
  | 0xDA => x1 <- rd CPU.cf ;; x2 <- cpuFetch16 ;; cpuOpJumpFlag x1 x2
  | 0xDB => cpuOpUndefined
  | 0xDC => x1 <- rd CPU.cf ;; x2 <- cpuFetch16 ;; cpuOpCallFlag x1 x2
  | 0xDD => cpuOpUndefined
  | 0xDE => x1 <- cpuFetch ;; withReg RA (fun reg => cpuOpSub reg x1 true)
  | 0xDF => cpuOpRestart 0x18
  | 0xE0 => x1 <- cpuFetch ;; x2 <- rd CPU.a ;; cpuOpLoadAt (uint16 (uint16 0xFF00 + uint16 x1)) x2
  | 0xE1 => x1 <- cpuPop ;; modCPU (CPU.setHL x1)
  | 0xE2 => x1 <- rd CPU.c ;; x2 <- rd CPU.a ;; cpuOpLoadAt (uint16 (uint16 0xFF00 + uint16 x1)) x2
  | 0xE3 => cpuOpUndefined
  | 0xE4 => cpuOpUndefined
  | 0xE5 => x1 <- rd CPU.hl ;; cpuOpPush x1
  | 0xE6 => x1 <- cpuFetch ;; withReg RA (fun reg => cpuOpAnd reg x1)
  | 0xE7 => cpuOpRestart 0x20
  | 0xE8 => x1 <- cpuFetchSigned ;; cpuOpAddSP x1
  | 0xE9 => x1 <- rd CPU.hl ;; cpuOpJump x1
  | 0xEA => x1 <- cpuFetch16 ;; x2 <- rd CPU.a ;; cpuOpLoadAt x1 x2
  | 0xEB => cpuOpUndefined
  | 0xEC => cpuOpUndefined
  | 0xED => cpuOpUndefined
  | 0xEE => x1 <- cpuFetch ;; withReg RA (fun reg => cpuOpXor reg x1)
  | 0xEF => cpuOpRestart 0x28
  | 0xF0 => x1 <- cpuFetch ;; x2 <- fetchAt (uint16 (uint16 0xFF00 + uint16 x1)) ;; withReg RA (fun reg => cpuOpLoad reg x2)
  | 0xF1 => x1 <- cpuPop ;; modCPU (CPU.setAF x1)
  | 0xF2 => x1 <- rd CPU.c ;; x2 <- fetchAt (uint16 (uint16 0xFF00 + uint16 x1)) ;; withReg RA (fun reg => cpuOpLoad reg x2)
  | 0xF3 => modCPU (CPU.set_ime false)
  | 0xF4 => cpuOpUndefined
  | 0xF5 => x1 <- rd CPU.af ;; cpuOpPush x1
  | 0xF6 => x1 <- cpuFetch ;; withReg RA (fun reg => cpuOpOr reg x1)
  | 0xF7 => cpuOpRestart 0x30
  | 0xF8 => x1 <- rd CPU.sp ;; x2 <- cpuFetchSigned ;; modCPU (CPU.setHL (uint16 (int (int x1 + int x2))))
  | 0xF9 => x1 <- rd CPU.hl ;; modCPU (CPU.set_sp x1)
  | 0xFA => x1 <- cpuFetch16 ;; x2 <- fetchAt x1 ;; withReg RA (fun reg => cpuOpLoad reg x2)
  | 0xFB => modCPU (CPU.set_ime true)
  | 0xFC => cpuOpUndefined
  | 0xFD => cpuOpUndefined
  | 0xFE => x1 <- cpuFetch ;; withReg RA (fun reg => cpuOpCompare reg x1)
  | 0xFF => cpuOpRestart 0x38
  | _ => ret tt
  end.

(** The operand pointer [reg] of [cpuDispatchCB]: the address of a register,
    or of the local [val] that holds the byte fetched from [(HL)]. *)
Inductive Ptr : Type :=
| PReg (r : Reg8)
| PLocal (val : Z).

(** [op(reg)] for an operation on a [*uint8]. *)
Definition through (reg : Ptr) (op : Z -> M Z) : M Ptr :=
  match reg with
  | PReg r => withReg r op ;; ret (PReg r)
  | PLocal val => val <- op val ;; ret (PLocal val)
  end.

(** [*reg] *)
Definition deref (reg : Ptr) : M Z :=
  match reg with
  | PReg r => rd (getReg r)
  | PLocal val => ret val
  end.

(** The second switch of [cpuDispatchCB], on [op & 0xF8]. *)
Definition cbOperation (op b : Z) (reg : Z) : M Z :=
  match Z.land op 0xF8 with
  | 0x00 => cpuOpCBRotateLeftCarry reg
  | 0x08 => cpuOpCBRotateRightCarry reg
  | 0x10 => cpuOpCBRotateLeft reg
  | 0x18 => cpuOpCBRotateRight reg
  | 0x20 => cpuOpCBArithmeticShiftLeft reg
  | 0x28 => cpuOpCBArithmeticShiftRight reg
  | 0x30 => cpuOpCBSwap reg
  | 0x38 => cpuOpCBLogicalShiftRight reg
  | 0x40 | 0x48 | 0x50 | 0x58 | 0x60 | 0x68 | 0x70 | 0x78 => cpuOpCBBit b reg
  | 0x80 | 0x88 | 0x90 | 0x98 | 0xA0 | 0xA8 | 0xB0 | 0xB8 => cpuOpCBBitReset b reg
  | 0xC0 | 0xC8 | 0xD0 | 0xD8 | 0xE0 | 0xE8 | 0xF0 | 0xF8 => cpuOpCBBitSet b reg
  | _ => ret reg
  end.

Definition cpuDispatchCB (op : Z) : M unit :=
  let b := uint8 (op / 8) mod 8 in
  reg <- match op mod 8 with
         | 0 => ret (PReg RB)
         | 1 => ret (PReg RC)
         | 2 => ret (PReg RD)
         | 3 => ret (PReg RE)
         | 4 => ret (PReg RH)
         | 5 => ret (PReg RL)
         | 6 => hl <- rd CPU.hl ;; val <- fetchAt hl ;; ret (PLocal val)
         | 7 => ret (PReg RA)
         | _ => panic (PanicValue op)
         end ;;
  reg <- through reg (cbOperation op b) ;;
  match op mod 8 with
  | 6 => hl <- rd CPU.hl ;; val <- deref reg ;; writeAt hl val
  | _ => ret tt
  end.

(** *** Tracing

    The trace line goes to standard output, which the model does not keep;
    what is kept of [trace] and of the disassembler are the bus reads they
    perform, since a bus read can change the machine. *)

(** [busReader.safeRead]: a panic of the read is recovered into an error,
    and the byte is then the zero value. *)
Definition safeRead (addr : Z) : M (option Z) := fun gb =>
  match Read addr gb with
  | Ok v gb' => Ok (Some v) gb'
  | Fail _ => Ok None gb
  end.

(** [fetch8(r)] on a reader at [addr]: the byte and the reader's new address. *)
Definition fetch8 (addr : Z) : M (Z * Z) :=
  b <- safeRead addr ;;
  match b with
  | Some b => ret (b, uint16 (addr + 1))
  | None => ret (0, addr)
  end.

Definition fetch16 (addr : Z) : M (Z * Z) :=
  b0 <- safeRead addr ;;
  match b0 with
  | None => ret (0, addr)
  | Some b0 =>
      let addr := uint16 (addr + 1) in
      b1 <- safeRead addr ;;
      match b1 with
      | None => ret (Z.lor (uint16 (Z.shiftl (uint16 0) 8)) (uint16 b0), addr)
      | Some b1 =>
          ret (Z.lor (uint16 (Z.shiftl (uint16 b1) 8)) (uint16 b0), uint16 (addr + 1))
      end
  end.

(** The operand that [disassemble] fetches for an unprefixed opcode. *)
Inductive Operand : Type := NoOperand | Operand8 | Operand16.

Definition disassembleOperand (op : Z) : Operand :=
  let x := Z.land (Z.shiftr op 6) 0x7 in
  let y := Z.land (Z.shiftr op 3) 0x7 in
  let z := Z.land (Z.shiftr op 0) 0x7 in
  let p := Z.shiftr y 1 in
  let q := Z.land y 0x1 in
  if x =? 0 then
    match z with
    | 0 => match y with
           | 0 => NoOperand
           | 1 => Operand16
           | 2 => NoOperand
           | 3 => Operand8
           | 4 | 5 | 6 | 7 => Operand8
           | _ => NoOperand
           end
    | 1 => match q with 0 => Operand16 | _ => NoOperand end
    | 6 => Operand8
    | _ => NoOperand
    end
  else if x =? 1 then NoOperand
  else if x =? 2 then NoOperand
  else if x =? 3 then
    match z with
    | 0 => match y with
           | 0 | 1 | 2 | 3 => NoOperand
           | _ => Operand8
           end
    | 2 => match y with
           | 0 | 1 | 2 | 3 => Operand16
           | 5 | 7 => Operand16
           | _ => NoOperand
           end
    | 3 => match y with 0 => Operand16 | _ => NoOperand end
    | 4 => match y with 0 | 1 | 2 | 3 => Operand16 | _ => NoOperand end
    | 5 => match y with 1 => Operand16 | _ => NoOperand end
    | 6 => Operand8
    | _ => NoOperand
    end
  else NoOperand.

(** [Disassemble(&rdr)]: the reader's address afterwards. *)
Definition Disassemble (addr : Z) : M Z :=
  r <- fetch8 addr ;;
  let '(op, addr) := r in
  if op =? 0xCB then
    r <- fetch8 addr ;; ret (snd r)
  else
    match disassembleOperand op with
    | NoOperand => ret addr
    | Operand8 => r <- fetch8 addr ;; ret (snd r)
    | Operand16 => r <- fetch16 addr ;; ret (snd r)
    end.

(** [for i := gb.cpu.pc; i < rdr.addr; i++ { ins = append(ins, gb.Read(i)) }] *)
Fixpoint traceBytes (k : nat) (i : Z) : M unit :=
  match k with
  | O => ret tt
  | S k' => Read i ;; traceBytes k' (i + 1)
  end.

Definition trace : M unit :=
  pc <- rd CPU.pc ;;
  (* Decode instruction *)
  addr <- Disassemble pc ;;
  (* Get instruction bytes *)
  traceBytes (Z.to_nat (addr - pc)) pc.

(** *** The instruction step *)

Definition stepInstruction (order : list (Z * Z)) : M unit :=
  halt <- rd CPU.halt ;;
  if halt then
    (* Halted still *)
    stepCycle
  else
    (* Check interrupts *)
    checkInterrupts order ;;
    (* Trace mode *)
    tr <- rd CPU.trace ;;
    when tr trace ;;
    (* Fetch next instruction. *)
    op <- cpuFetch ;;
    (* Dispatch. *)
    if op =? 0xcb then
      op <- cpuFetch ;; cpuDispatchCB op
    else cpuDispatch op.

Definition UpdatePad (pad : Gamepad.t) : M unit := modCPU (CPU.set_gamepad pad).

Definition SetTrace (tr : bool) : M unit := modCPU (CPU.set_trace tr).

(** Step increments the machine at the most atomic level. *)
Definition Step (order : list (Z * Z)) : M unit := stepInstruction order.

End Machine.

(** * Specification

    Predicates and example states used by the statements below. *)

(** ** Runs *)

(** [afterwards r Q]: the run [r] returned, and [Q] holds of the machine it
    left. *)
Definition afterwards {A : Type} (r : Machine.Res A) (Q : Machine.t -> Prop) : Prop :=
  match r with
  | Machine.Ok _ gb => Q gb
  | Machine.Fail _ => False
  end.

(** ** Invariants of the register file *)

(** The low four bits of [F] are zero. *)
Definition flagsOK (c : CPU.t) : Prop := Z.land (CPU.f c) 0x0F = 0.

(** The interrupt masks hold five bits. *)
Definition irqMasked (c : CPU.t) : Prop := Z.land (CPU.irq c) 0x1F = CPU.irq c.
Definition ieMasked (c : CPU.t) : Prop := Z.land (CPU.ie c) 0x1F = CPU.ie c.

(** ** PPU frames *)

(** Every field of the PPU other than [ly], [lx] and [clock] is the same. *)
Definition sameExceptTiming (p p' : PPU.t) : Prop :=
  PPU.vram p' = PPU.vram p /\
  PPU.oam p' = PPU.oam p /\
  PPU.bgp p' = PPU.bgp p /\
  PPU.obp p' = PPU.obp p /\
  PPU.bgpd p' = PPU.bgpd p /\
  PPU.obpd p' = PPU.obpd p /\
  PPU.bgColor p' = PPU.bgColor p /\
  PPU.bgPalette p' = PPU.bgPalette p /\
  PPU.bgPriority p' = PPU.bgPriority p /\
  PPU.fgColor p' = PPU.fgColor p /\
  PPU.fgPalette p' = PPU.fgPalette p /\
  PPU.fgPriority p' = PPU.fgPriority p /\
  PPU.screen p' = PPU.screen p /\
  PPU.objects p' = PPU.objects p /\
  PPU.numObjects p' = PPU.numObjects p /\
  PPU.lcdDisplayEnable p' = PPU.lcdDisplayEnable p /\
  PPU.windowTilemapEnable p' = PPU.windowTilemapEnable p /\
  PPU.windowDisplayEnable p' = PPU.windowDisplayEnable p /\
  PPU.bgTileDataSelect p' = PPU.bgTileDataSelect p /\
  PPU.bgTileMapSelect p' = PPU.bgTileMapSelect p /\
  PPU.objSize p' = PPU.objSize p /\
  PPU.objDisplay p' = PPU.objDisplay p /\
  PPU.bgDisplay p' = PPU.bgDisplay p /\
  PPU.lycInterrupt p' = PPU.lycInterrupt p /\
  PPU.oamInterrupt p' = PPU.oamInterrupt p /\
  PPU.vblankInterrupt p' = PPU.vblankInterrupt p /\
  PPU.hblankInterrupt p' = PPU.hblankInterrupt p /\
  PPU.modeHi p' = PPU.modeHi p /\
  PPU.modeLo p' = PPU.modeLo p /\
  PPU.scrollY p' = PPU.scrollY p /\
  PPU.scrollX p' = PPU.scrollX p /\
  PPU.lyComp p' = PPU.lyComp p /\
  PPU.dmaAddr p' = PPU.dmaAddr p /\
  PPU.dmaEnable p' = PPU.dmaEnable p /\
  PPU.dmaClock p' = PPU.dmaClock p /\
  PPU.winYPos p' = PPU.winYPos p /\
  PPU.winXPos p' = PPU.winXPos p /\
  PPU.backgroundData p' = PPU.backgroundData p /\
  PPU.backgroundAttr p' = PPU.backgroundAttr p /\
  PPU.windowData p' = PPU.windowData p /\
  PPU.windowAttr p' = PPU.windowAttr p.

(** ** Cartridges *)

(** A sequence of bus writes [(addr, value)] applied to an MBC1 cartridge. *)
Definition mbc1Writes (ws : list (Z * Z)) (cart : MBC1Cartridge.t) : MBC1Cartridge.t :=
  fold_left (fun c w => MBC1Cartridge.Write c (fst w) (snd w)) ws cart.

(** ** Example machines *)

(** A machine started without the boot ROM on a mapper-less cartridge. *)
Definition postBoot (rom : list Z) : Machine.t :=
  Machine.NewMachine [] (CartROM rom) false.

Definition withCPU (g : CPU.t -> CPU.t) (gb : Machine.t) : Machine.t :=
  Machine.set_cpu (g (Machine.cpu gb)) gb.

(** [A=0x45 B=0x38 F=0x00], as in scenario S2. *)
Definition daaExample : Machine.t :=
  withCPU (fun c => CPU.set_f 0x00 (CPU.set_b 0x38 (CPU.set_a 0x45 c))) (postBoot []).

(** [IE=0x01], [PC=0x0100]: an interrupt source is enabled. *)
Definition haltExample : Machine.t :=
  withCPU (CPU.set_ie 0x01) (postBoot []).

(** An MBC1 cartridge on which RAM was enabled and a byte was stored. *)
Definition mbc1Example : MBC1Cartridge.t :=
  mbc1Writes [(0x0000, 0x0A); (0xA000, 0x42)] (MBC1Cartridge.NewMBC1Cartridge []).

(** [SP=0x00FF] and the program [ADD SP,1] at [PC]: the low-byte addition
    carries out of bit 3 and out of bit 7. *)
Definition addSPExample : Machine.t :=
  withCPU (fun c => CPU.set_f 0x00 (CPU.set_sp 0x00FF c))
          (postBoot (repeat 0 (Z.to_nat 0x100) ++ [0xE8; 0x01])).

(** [SP=0x00FF], all four flags set, and the program [LD HL,SP+1] at [PC]. *)
Definition ldHLSPExample : Machine.t :=
  withCPU (fun c => CPU.set_f 0xF0 (CPU.set_sp 0x00FF c))
          (postBoot (repeat 0 (Z.to_nat 0x100) ++ [0xF8; 0x01])).

(** A cartridge whose interrupt handlers load their own vector into [A]:
    [LD A,0x40] at 0x0040, [LD A,0x48] at 0x0048, and so on. *)
Definition handlersROM : list Z :=
  repeat 0 (Z.to_nat 0x40)
  ++ [0x3E; 0x40; 0; 0; 0; 0; 0; 0]
  ++ [0x3E; 0x48; 0; 0; 0; 0; 0; 0]
  ++ [0x3E; 0x50; 0; 0; 0; 0; 0; 0]
  ++ [0x3E; 0x58; 0; 0; 0; 0; 0; 0]
  ++ [0x3E; 0x60; 0; 0; 0; 0; 0; 0].

(** Scenario S5: [IME=1], [IE=0x1F], [IRQ=0x1F], not halted. *)
Definition allPendingExample : Machine.t :=
  withCPU (fun c => CPU.set_ime true (CPU.set_ie 0x1F (CPU.set_irq 0x1F c)))
          (postBoot handlersROM).

(** The entries of [interruptVectorMap] yielded joypad first. *)
Definition gamepadFirst : list (Z * Z) := rev interruptVectorMap.

(** ** Example PPU states *)

Definition holdsOf {A : Type} (o : option A) (Q : A -> Prop) : Prop :=
  match o with
  | Some x => Q x
  | None => False
  end.

Definition ppuWrites (ws : list (Z * Z)) (p : PPU.t) : PPU.t :=
  fold_left (fun p w => PPU.Write p (fst w) (snd w)) ws p.

(** The LCD is on with background and sprites enabled; the background tile
    under the first pixel has colour index 1; OAM entry 0 is a sprite at the
    top left corner of the screen whose first pixel has colour index 3 and
    whose attribute byte is 0x00 (priority bit clear).  The sprite cache is
    the one [initScanline] builds for line 0. *)
Definition spriteOverBackground : PPU.t :=
  Render.initScanline
    (ppuWrites
       [ (0xFF40, 0x93); (0xFF47, 0xE4); (0xFF48, 0xE4);
         (0x8000, 0xFF); (0x8001, 0x00);
         (0x8010, 0xFF); (0x8011, 0xFF);
         (0xFE00, 16); (0xFE01, 8); (0xFE02, 1); (0xFE03, 0x00) ]
       PPU.zero).

(** ** Invariants of runs *)

(** [whenever r Q]: if the run [r] returned, [Q] holds of the machine it
    left. *)
Definition whenever {A : Type} (r : Machine.Res A) (Q : Machine.t -> Prop) : Prop :=
  match r with
  | Machine.Ok _ gb => Q gb
  | Machine.Fail _ => True
  end.

(** The computation [c] keeps the invariant [P]. *)
Definition keeps {A : Type} (P : Machine.t -> Prop) (c : Machine.M A) : Prop :=
  forall gb, P gb -> whenever (c gb) P.

(** A property of the machine that only looks at the CPU. *)
Definition onCPU (Q : CPU.t -> Prop) : Machine.t -> Prop :=
  fun gb => Q (Machine.cpu gb).

(** Properties of the CPU that survive the updates of the memory-mapped
    state: high RAM, the interrupt request mask, the two ways in which the
    source updates the interrupt enable mask (the joypad read and the masked
    write to 0xFFFF), the halt flag, the joypad select lines, DMA and the
    timer. *)
Class DeviceFrame (Q : CPU.t -> Prop) : Prop := {
  frame_hram : forall v c, Q c -> Q (CPU.set_hram v c);
  frame_irq : forall v c, Q c -> Q (CPU.set_irq v c);
  frame_ie_gamepad : forall c, Q c -> Q (CPU.set_ie (Z.lor (CPU.ie c) intGamepad) c);
  frame_ie_write : forall v c, Q c -> Q (CPU.set_ie (Z.land v 0x1f) c);
  frame_halt : forall v c, Q c -> Q (CPU.set_halt v c);
  frame_button : forall v c, Q c -> Q (CPU.set_button v c);
  frame_dpad : forall v c, Q c -> Q (CPU.set_dpad v c);
  frame_dma : forall v c, Q c -> Q (CPU.set_dma v c);
  frame_dmabank : forall v c, Q c -> Q (CPU.set_dmabank v c);
  frame_dmaindex : forall v c, Q c -> Q (CPU.set_dmaindex v c);
  frame_timer : forall v c, Q c -> Q (CPU.set_timer v c);
  frame_tima : forall v c, Q c -> Q (CPU.set_tima v c);
  frame_tma : forall v c, Q c -> Q (CPU.set_tma v c);
  frame_div : forall v c, Q c -> Q (CPU.set_div v c)
}.

(** Properties that do not depend on the cycle counter, and properties that
    do not depend on the flags. *)
Class ClockFrame (Q : CPU.t -> Prop) : Prop :=
  frame_clock : forall v c, Q c -> Q (CPU.set_clock v c).

Class FlagFrame (Q : CPU.t -> Prop) : Prop :=
  frame_f : forall v c, Q c -> Q (CPU.set_f v c).

(** Properties that survive the updates of the register file made by the
    instructions: the registers other than [F], the 16-bit pairs, [SP], [PC],
    the [IME] and stop flags, and [F] written through [setAF], the flag
    setters and [clearFlags]. *)
Class CoreFrame (Q : CPU.t -> Prop) : Prop := {
  core_setReg : forall r v c, Q c -> Q (Machine.setReg r v c);
  core_sp : forall v c, Q c -> Q (CPU.set_sp v c);
  core_pc : forall v c, Q c -> Q (CPU.set_pc v c);
  core_ime : forall v c, Q c -> Q (CPU.set_ime v c);
  core_stop : forall v c, Q c -> Q (CPU.set_stop v c);
  core_setAF : forall v c, Q c -> Q (CPU.setAF v c);
  core_setBC : forall v c, Q c -> Q (CPU.setBC v c);
  core_setDE : forall v c, Q c -> Q (CPU.setDE v c);
  core_setHL : forall v c, Q c -> Q (CPU.setHL v c);
  core_setCarryFlag : forall set c, Q c -> Q (CPU.setCarryFlag set c);
  core_setHalfCarryFlag : forall set c, Q c -> Q (CPU.setHalfCarryFlag set c);
  core_setSubtractFlag : forall set c, Q c -> Q (CPU.setSubtractFlag set c);
  core_setZeroFlag : forall val c, Q c -> Q (CPU.setZeroFlag val c);
  core_clearFlags : forall flags c, Q c -> Q (CPU.clearFlags flags c)
}.

(** [HL] holds the given bytes; the cycle counter holds the given value. *)
Definition hlIs (h0 l0 : Z) (c : CPU.t) : Prop := CPU.h c = h0 /\ CPU.l c = l0.
Definition clockIs (k : Z) (c : CPU.t) : Prop := CPU.clock c = k.

(** Started in a machine satisfying [P], the computation [c], if it returns,
    leaves a machine satisfying [R]. *)
Definition triple {A : Type} (P : Machine.t -> Prop) (c : Machine.M A)
    (R : Machine.t -> Prop) : Prop :=
  forall gb, P gb -> whenever (c gb) R.

(** ** More example machines *)

(** [POP AF] at [PC] with the bytes [0xFF 0xFF] on top of the stack. *)
Definition popAFExample : Machine.t :=
  withCPU (CPU.set_sp 0x0102)
          (postBoot (repeat 0 (Z.to_nat 0x100) ++ [0xF1; 0x00; 0xFF; 0xFF])).

(** [HL] points at the DMA register 0xFF46, a write to which starts a
    transfer; no transfer is active. *)
Definition bitHLExample : Machine.t :=
  withCPU (CPU.setHL 0xFF46) (postBoot []).

(** The fields of the PPU on which the choice between background and sprite
    rests, other than the sprite's own colour. *)
Definition sameBackground (p p' : PPU.t) : Prop :=
  PPU.fgPriority p' = PPU.fgPriority p /\
  PPU.bgPalette p' = PPU.bgPalette p /\
  PPU.bgColor p' = PPU.bgColor p /\
  PPU.ly p' = PPU.ly p /\
  PPU.lx p' = PPU.lx p.

(** * Verification *)

Import Machine.

Lemma afterwards_ok :
  forall (r : Res unit) (Q : Machine.t -> Prop),
    afterwards r Q -> exists gb', r = Ok tt gb' /\ Q gb'.
Proof.
  intros [[] gb|p] Q H; [|contradiction].
  exists gb. split; [reflexivity|exact H].
Qed.

(** ** The LY register (0xFF44) *)

(** C10.  Writing any byte to 0xFF44 resets [ly], [lx] and the PPU clock to
    zero whatever the value written (two writes of different values give the
    same PPU), and no other field of the PPU changes. *)
Theorem ppu_write_ly_resets_timing :
  forall (ppu : PPU.t) (value : Z),
    let ppu' := PPU.Write ppu 0xFF44 value in
    PPU.ly ppu' = 0 /\ PPU.lx ppu' = 0 /\ PPU.clock ppu' = 0 /\
    sameExceptTiming ppu ppu' /\
    (forall value', PPU.Write ppu 0xFF44 value' = ppu').
Proof.
  intros ppu value ppu'. subst ppu'.
  unfold PPU.Write, sameExceptTiming. cbn.
  repeat split; reflexivity.
Qed.

(** The same write arriving over the bus, on any machine whose bus entry
    0xFF44 is the PPU (as [NewMachine] sets it): only the PPU is touched. *)
Lemma machine_write_ly :
  forall gb value,
    Bus.io (bus gb) 0xFF44 = Some IOPPU ->
    Write 0xFF44 value gb
    = Ok tt (set_ppu (PPU.Write (ppu gb) 0xFF44 value) gb).
Proof.
  intros gb value Hio.
  unfold Write, when, bind, busWrite, ret. cbn.
  rewrite Hio. reflexivity.
Qed.

(** ** MBC1 external RAM *)

Lemma mbc1_write_keeps_ram :
  forall cart addr value,
    MBC1Cartridge.ram (MBC1Cartridge.Write cart addr value) = MBC1Cartridge.ram cart.
Proof.
  intros cart addr value. unfold MBC1Cartridge.Write.
  destruct ((0 <=? addr) && (addr <? 0x2000)); [reflexivity|].
  destruct ((0x2000 <=? addr) && (addr <? 0x4000)); reflexivity.
Qed.

Lemma mbc1Writes_keep_ram :
  forall ws cart, MBC1Cartridge.ram (mbc1Writes ws cart) = MBC1Cartridge.ram cart.
Proof.
  induction ws as [|w ws IH]; intros cart; [reflexivity|].
  unfold mbc1Writes in *. cbn. rewrite IH. apply mbc1_write_keeps_ram.
Qed.

(** Whatever was written to the cartridge before, a read of 0xA000-0xBFFF
    answers 0xFF: the bound check compares the bus address, not the RAM
    offset, with the 8 KiB length of the RAM. *)
Lemma mbc1_external_ram_reads_ff :
  forall rom ws addr,
    0xA000 <= addr < 0xC000 ->
    MBC1Cartridge.Read (mbc1Writes ws (MBC1Cartridge.NewMBC1Cartridge rom)) addr
    = Some 0xff.
Proof.
  intros rom ws addr Haddr. unfold MBC1Cartridge.Read.
  rewrite mbc1Writes_keep_ram.
  replace ((0 <=? addr) && (addr <? 0x4000)) with false
    by (symmetry; apply andb_false_iff; right; apply Z.ltb_ge; lia).
  replace ((0x4000 <=? addr) && (addr <? 0x8000)) with false
    by (symmetry; apply andb_false_iff; right; apply Z.ltb_ge; lia).
  replace ((0xa000 <=? addr) && (addr <? 0xc000)) with true
    by (symmetry; apply andb_true_iff; split; [apply Z.leb_le|apply Z.ltb_lt]; lia).
  cbn [MBC1Cartridge.NewMBC1Cartridge MBC1Cartridge.ram].
  replace (len (repeat 0 (Z.to_nat 0x2000))) with 0x2000
    by (unfold len; rewrite repeat_length; reflexivity).
  replace (0x2000 <=? int addr) with true; [reflexivity|].
  symmetry. apply Z.leb_le. unfold int.
  rewrite Z.mod_small by lia.
  destruct (addr <? 2 ^ 63) eqn:E; [lia|].
  apply Z.ltb_ge in E. lia.
Qed.

(** C5 (defect).  With RAM enabled by writing 0x0A to 0x0000, a byte written
    to 0xA000 is not stored and the read of 0xA000 answers 0xFF. *)
Theorem mbc1_enabled_ram_write_is_lost :
  MBC1Cartridge.enableram mbc1Example = true /\
  MBC1Cartridge.Read mbc1Example 0xA000 = Some 0xff /\
  MBC1Cartridge.ram mbc1Example = repeat 0 (Z.to_nat 0x2000).
Proof.
  repeat split; vm_compute; reflexivity.
Qed.

(** ** The interrupt masks *)

(** C6 (defect).  A bus write of 0xFF to 0xFF0F is stored unmasked: the
    request register then holds 0xFF, which differs from its low five bits. *)
Theorem write_irq_is_not_masked :
  exists gb',
    Write 0xFF0F 0xFF (postBoot []) = Ok tt gb' /\
    CPU.irq (cpu gb') = 0xFF /\
    ~ irqMasked (cpu gb') /\
    ieMasked (cpu gb').
Proof.
  apply afterwards_ok. unfold irqMasked, ieMasked.
  vm_compute. repeat split. discriminate.
Qed.

(** ** HALT *)

(** C4 (as stated, refuted).  With [IE = 0x01], HALT enters the halt state
    and [PC] has moved on by one all the same. *)
Lemma halt_increments_pc_when_enabled :
  Z.land (CPU.ie (cpu haltExample)) 0x1f <> 0 /\
  exists gb',
    cpuDispatch 0x76 haltExample = Ok tt gb' /\
    CPU.halt (cpu gb') = true /\
    CPU.pc (cpu haltExample) = 0x0100 /\
    CPU.pc (cpu gb') = 0x0101.
Proof.
  split; [vm_compute; discriminate|].
  apply afterwards_ok. vm_compute. repeat split.
Qed.

(** C4 (amended).  HALT always increments [PC]; it enters the halt state
    exactly when [IE & 0x1F] is not zero (the halt flag keeps its value
    otherwise), and touches nothing else in the machine. *)
Theorem halt_always_skips :
  forall gb : Machine.t,
    exists gb',
      cpuDispatch 0x76 gb = Ok tt gb' /\
      CPU.pc (cpu gb') = uint16 (CPU.pc (cpu gb) + 1) /\
      CPU.halt (cpu gb')
      = (if Z.land (CPU.ie (cpu gb)) 0x1f =? 0 then CPU.halt (cpu gb) else true) /\
      gb' = withCPU (fun c => CPU.set_halt (CPU.halt (cpu gb'))
                                (CPU.set_pc (CPU.pc (cpu gb')) c)) gb.
Proof.
  intros gb. unfold withCPU.
  change (cpuDispatch 0x76) with cpuOpHalt.
  unfold cpuOpHalt, incPC, bind, modCPU, rd, ret. cbn.
  destruct gb as [bus0 c ppu0 cart0 wram0 boot0]. destruct c. cbn.
  destruct (Z.land ie 0x1f =? 0); eexists; repeat split.
Qed.

(** ** ADD and DAA *)

(** C7 (as stated, refuted).  After [ADD A,B] on [A=0x45 B=0x38 F=0x00] the
    flags are [0x00], not [0x20]: 5 + 8 does not carry out of bit 3. *)
Lemma add_45_38_leaves_half_carry_clear :
  exists gb',
    cpuDispatch 0x80 daaExample = Ok tt gb' /\
    CPU.a (cpu gb') = 0x7D /\
    CPU.f (cpu gb') = 0x00 /\
    CPU.f (cpu gb') <> 0x20.
Proof.
  apply afterwards_ok. vm_compute. repeat split. discriminate.
Qed.

(** C7 (amended).  From [A=0x45 B=0x38 F=0x00], [ADD A,B] gives [A=0x7D]
    with [F=0x00], and [DAA] then gives [A=0x83] with [F=0x00]. *)
Theorem add_then_daa :
  forall gb : Machine.t,
    CPU.a (cpu gb) = 0x45 -> CPU.b (cpu gb) = 0x38 -> CPU.f (cpu gb) = 0x00 ->
    exists gb1 gb2,
      cpuDispatch 0x80 gb = Ok tt gb1 /\
      CPU.a (cpu gb1) = 0x7D /\ CPU.f (cpu gb1) = 0x00 /\
      cpuDispatch 0x27 gb1 = Ok tt gb2 /\
      CPU.a (cpu gb2) = 0x83 /\ CPU.f (cpu gb2) = 0x00.
Proof.
  intros [bus0 c ppu0 cart0 wram0 boot0].
  destruct c. cbn. intros -> -> ->.
  eexists. eexists.
  split; [vm_compute; reflexivity|].
  split; [reflexivity|]. split; [reflexivity|].
  split; [vm_compute; reflexivity|].
  split; reflexivity.
Qed.

Lemma add_then_daa_witness :
  exists gb1 gb2,
    cpuDispatch 0x80 daaExample = Ok tt gb1 /\
    CPU.a (cpu gb1) = 0x7D /\ CPU.f (cpu gb1) = 0x00 /\
    cpuDispatch 0x27 gb1 = Ok tt gb2 /\
    CPU.a (cpu gb2) = 0x83 /\ CPU.f (cpu gb2) = 0x00.
Proof.
  apply (add_then_daa daaExample); reflexivity.
Defined.

(** ** ADD SP,e8 and LD HL,SP+e8 *)

(** C3 (defect).  [ADD SP,1] on [SP=0x00FF] carries out of bit 3 and out of
    bit 7 of the low byte, and both the half-carry and the carry flag stay
    clear ([F=0x00]); [LD HL,SP+1] run with [F=0xF0] loads [HL] and leaves
    [F=0xF0]: it does not update [F]. *)
Theorem add_sp_flags_ignore_low_byte_carry :
  0xF < Z.land (CPU.sp (cpu addSPExample)) 0xF + Z.land 1 0xF /\
  0xFF < Z.land (CPU.sp (cpu addSPExample)) 0xFF + Z.land 1 0xFF /\
  (exists gb',
     stepInstruction interruptVectorMap addSPExample = Ok tt gb' /\
     CPU.sp (cpu gb') = 0x0100 /\ CPU.f (cpu gb') = 0x00) /\
  (exists gb',
     stepInstruction interruptVectorMap ldHLSPExample = Ok tt gb' /\
     CPU.hl (cpu gb') = 0x0100 /\ CPU.f (cpu gb') = 0xF0).
Proof.
  split; [vm_compute; reflexivity|].
  split; [vm_compute; reflexivity|].
  split; apply afterwards_ok; vm_compute; repeat split.
Qed.

(** ** Sprite priority *)

Lemma holdsOf_some :
  forall (A : Type) (o : option A) (Q : A -> Prop),
    holdsOf o Q -> exists x, o = Some x /\ Q x.
Proof.
  intros A [x|] Q H; [|contradiction].
  exists x. split; [reflexivity|exact H].
Qed.

(** C2 (defect).  A sprite pixel of colour index 3 whose priority bit is
    clear lies over a background pixel of colour index 1; the frame buffer
    receives the background colour (palette entry 1), not the sprite's. *)
Theorem sprite_never_covers_nonzero_background :
  exists ppu',
    Render.pixel spriteOverBackground = Some ppu' /\
    PPU.numObjects ppu' = 1 /\
    Z.land (Object.attr (PPU.objects ppu' 0)) 0x80 = 0 /\
    PPU.fgPalette ppu' = 3 /\
    PPU.bgPalette ppu' = 1 /\
    rgbColors (PPU.fgColor ppu') = Some 0xFF204631 /\
    rgbColors (PPU.bgColor ppu') = Some 0xFFAEC440 /\
    PPU.screen ppu' (PPU.ly ppu' * 160 + PPU.lx ppu') = 0xFFAEC440.
Proof.
  apply holdsOf_some. vm_compute. repeat split.
Qed.

(** [fgPriority] is read by [pixel] and written by nothing: not by a
    register write, not by the OAM scan, not by [pixel] itself.  It holds 0,
    the zero value of the struct, throughout. *)
Lemma ppu_write_keeps_fgPriority :
  forall p addr value, PPU.fgPriority (PPU.Write p addr value) = PPU.fgPriority p.
Proof.
  intros p addr value. unfold PPU.Write.
  repeat match goal with
         | |- context [if ?b then _ else _] => destruct b
         end; reflexivity.
Qed.

Lemma scanObject_keeps_fgPriority :
  forall objHeight n p,
    PPU.fgPriority (fst (Render.scanObject objHeight n p)) = PPU.fgPriority p.
Proof.
  intros objHeight n p. unfold Render.scanObject. cbv zeta.
  destruct (objHeight <=? _); reflexivity.
Qed.

Lemma scanObjects_keeps_fgPriority :
  forall k objHeight n p,
    PPU.fgPriority (Render.scanObjects k objHeight n p) = PPU.fgPriority p.
Proof.
  induction k as [|k IH]; intros objHeight n p; [reflexivity|].
  cbn [Render.scanObjects].
  pose proof (scanObject_keeps_fgPriority objHeight n p) as H1.
  destruct (Render.scanObject objHeight n p) as [p1 continue].
  cbn [fst] in H1.
  destruct continue; [rewrite IH|]; exact H1.
Qed.

Lemma initScanline_keeps_fgPriority :
  forall p, PPU.fgPriority (Render.initScanline p) = PPU.fgPriority p.
Proof.
  intros p. unfold Render.initScanline.
  rewrite scanObjects_keeps_fgPriority. reflexivity.
Qed.

Lemma pixelBackground_sameBackground_priority :
  forall p, PPU.fgPriority (Render.pixelBackground p) = PPU.fgPriority p /\
            PPU.ly (Render.pixelBackground p) = PPU.ly p /\
            PPU.lx (Render.pixelBackground p) = PPU.lx p.
Proof.
  intros p. unfold Render.pixelBackground.
  destruct (PPU.bgDisplay p); [|repeat split].
  destruct ((_ =? 0) || (PPU.lx p =? 0)); repeat split.
Qed.

Lemma pixelWindow_sameBackground_priority :
  forall p, PPU.fgPriority (Render.pixelWindow p) = PPU.fgPriority p /\
            PPU.ly (Render.pixelWindow p) = PPU.ly p /\
            PPU.lx (Render.pixelWindow p) = PPU.lx p.
Proof.
  intros p. unfold Render.pixelWindow.
  destruct (PPU.windowDisplayEnable p); [|repeat split].
  destruct ((_ <? 144) && (_ <? 160)); [|repeat split].
  destruct ((_ =? 0) || (PPU.lx p =? 0)); repeat split.
Qed.

Lemma pixelObject_sameBackground :
  forall n p p', Render.pixelObject n p = Some p' -> sameBackground p p'.
Proof.
  intros n p p' E. unfold Render.pixelObject in E.
  repeat match type of E with
         | context [if ?b then _ else _] => destruct b
         end; inversion E; repeat split.
Qed.

Lemma pixelObjects_sameBackground :
  forall k p p', Render.pixelObjects k p = Some p' -> sameBackground p p'.
Proof.
  induction k as [|k IH]; intros p p' E; cbn [Render.pixelObjects] in E.
  - inversion E. repeat split.
  - destruct (Render.pixelObject (Z.of_nat k) p) as [p1|] eqn:E1; [|discriminate].
    destruct (pixelObject_sameBackground _ _ _ E1) as (A1 & A2 & A3 & A4 & A5).
    destruct (IH _ _ E) as (B1 & B2 & B3 & B4 & B5).
    repeat split; congruence.
Qed.

Lemma pixelOutput_inv :
  forall p p',
    Render.pixelOutput p = Some p' ->
    PPU.bgPalette p' = PPU.bgPalette p /\
    PPU.bgColor p' = PPU.bgColor p /\
    PPU.ly p' = PPU.ly p /\
    PPU.lx p' = PPU.lx p /\
    rgbColors (Render.pixelColor p)
    = Some (PPU.screen p' (uint (uint (PPU.ly p) * 160 + PPU.lx p))).
Proof.
  intros p p' E. unfold Render.pixelOutput in E.
  destruct (rgbColors (Render.pixelColor p)) as [rgb|]; [|discriminate].
  destruct (_ <? 160 * 144) in E; [|discriminate].
  injection E as <-.
  do 4 (split; [reflexivity|]).
  cbn [PPU.screen PPU.set_screen]. unfold upd. rewrite Z.eqb_refl. reflexivity.
Qed.

Lemma pixelSprites_sameBackground :
  forall p p', Render.pixelSprites p = Some p' -> sameBackground p p'.
Proof.
  intros p p' E. unfold Render.pixelSprites in E.
  destruct (PPU.objDisplay p).
  - exact (pixelObjects_sameBackground _ _ _ E).
  - injection E as <-. repeat split.
Qed.

(** With [fgPriority] at 0 the decision falls on the background whenever
    its colour index is not zero. *)
Lemma pixelColor_nonzero_background :
  forall p,
    PPU.fgPriority p = 0 -> PPU.bgPalette p <> 0 ->
    Render.pixelColor p = PPU.bgColor p.
Proof.
  intros p Hprio Hbg. unfold Render.pixelColor.
  destruct (PPU.fgPalette p =? 0); [reflexivity|].
  destruct (PPU.bgPalette p =? 0) eqn:Eb; [apply Z.eqb_eq in Eb; contradiction|].
  rewrite Hprio. reflexivity.
Qed.

Lemma pixel_eq :
  forall p,
    Render.pixel p
    = match Render.pixelSprites
              (Render.pixelWindow (Render.pixelBackground (Render.pixelReset p)))
      with
      | Some p4 => Render.pixelOutput p4
      | None => None
      end.
Proof. intros p. reflexivity. Qed.

Lemma pixel_inv :
  forall p p',
    Render.pixel p = Some p' ->
    exists p4,
      Render.pixelSprites
        (Render.pixelWindow (Render.pixelBackground (Render.pixelReset p)))
      = Some p4 /\
      Render.pixelOutput p4 = Some p'.
Proof.
  intros p p' E. rewrite pixel_eq in E.
  destruct (Render.pixelSprites _) as [p4|]; [|discriminate E].
  exists p4. split; [reflexivity|exact E].
Qed.

Lemma pixel_background_keeps_fgPriority :
  forall p,
    PPU.fgPriority
      (Render.pixelWindow (Render.pixelBackground (Render.pixelReset p)))
    = PPU.fgPriority p.
Proof.
  intros p.
  destruct (pixelWindow_sameBackground_priority
              (Render.pixelBackground (Render.pixelReset p))) as (W1 & _).
  destruct (pixelBackground_sameBackground_priority (Render.pixelReset p))
    as (B1 & _).
  rewrite W1, B1. reflexivity.
Qed.

Lemma pixelOutput_background :
  forall p4 p',
    Render.pixelOutput p4 = Some p' ->
    Render.pixelColor p4 = PPU.bgColor p4 ->
    rgbColors (PPU.bgColor p')
    = Some (PPU.screen p' (uint (uint (PPU.ly p') * 160 + PPU.lx p'))).
Proof.
  intros p4 p' E C.
  destruct (pixelOutput_inv _ _ E) as (O1 & O2 & O3 & O4 & O5).
  rewrite O2, O3, O4, <- O5, C. reflexivity.
Qed.

(** Whatever the sprites are and whatever their attribute bytes hold, a
    pixel whose background colour index is not zero receives the background
    colour. *)
Lemma pixel_keeps_nonzero_background :
  forall p p',
    PPU.fgPriority p = 0 ->
    Render.pixel p = Some p' ->
    PPU.bgPalette p' <> 0 ->
    rgbColors (PPU.bgColor p')
    = Some (PPU.screen p' (uint (uint (PPU.ly p') * 160 + PPU.lx p'))).
Proof.
  intros p p' Hprio E Hbg.
  destruct (pixel_inv p p' E) as (p4 & E4 & Eout).
  apply (pixelOutput_background p4 p' Eout).
  destruct (pixelSprites_sameBackground _ _ E4) as (S1 & _).
  destruct (pixelOutput_inv _ _ Eout) as (O1 & _).
  apply pixelColor_nonzero_background.
  - rewrite S1, pixel_background_keeps_fgPriority. exact Hprio.
  - rewrite <- O1. exact Hbg.
Qed.

(** [pixel] does not write [fgPriority] either. *)
Lemma pixel_keeps_fgPriority :
  forall p p', Render.pixel p = Some p' -> PPU.fgPriority p' = PPU.fgPriority p.
Proof.
  intros p p' E.
  destruct (pixel_inv p p' E) as (p4 & E4 & Eout).
  destruct (pixelSprites_sameBackground _ _ E4) as (S1 & _).
  rewrite <- (pixel_background_keeps_fgPriority p), <- S1.
  unfold Render.pixelOutput in Eout.
  destruct (rgbColors (Render.pixelColor p4)); [|discriminate].
  destruct (_ <? 160 * 144) in Eout; [|discriminate].
  injection Eout as <-. reflexivity.
Qed.

(** ** Interrupt dispatch *)

Lemma gamepadFirst_mapOrder : mapOrder gamepadFirst.
Proof.
  unfold mapOrder, gamepadFirst. apply Permutation_sym, Permutation_rev.
Qed.

(** With every source enabled and pending, [checkInterrupts] enters the
    vector of whichever entry the range yields first. *)
Lemma checkInterrupts_services_first_yielded :
  forall flag vector rest gb,
    mapOrder ((flag, vector) :: rest) ->
    CPU.ime (cpu gb) = true ->
    CPU.ie (cpu gb) = 0x1F ->
    CPU.irq (cpu gb) = 0x1F ->
    checkInterrupts ((flag, vector) :: rest) gb
    = (modCPU (CPU.set_halt false) ;;
       modCPU (fun c => CPU.set_irq (Z.land (CPU.irq c) (not8 flag)) c) ;;
       cpuInterrupt vector) gb.
Proof.
  intros flag vector rest gb Hord Hime Hie Hirq.
  assert (Hin : In (flag, vector) interruptVectorMap).
  { apply (Permutation_in _ Hord). left. reflexivity. }
  unfold checkInterrupts, bind at 1, rd. rewrite Hime. cbn [negb].
  cbn [rangeInterrupts]. unfold bind at 1, get. rewrite Hie, Hirq.
  replace (negb (Z.land (Z.land 0x1F 0x1F) flag =? 0)) with true; [reflexivity|].
  cbn in Hin.
  destruct Hin as [E|[E|[E|[E|[E|[]]]]]]; inversion E; reflexivity.
Qed.

(** With the entries yielded in the order in which the source lists them,
    the step enters the V-blank handler and leaves [IRQ=0x1E]. *)
Lemma all_pending_in_source_order :
  exists gb',
    stepInstruction interruptVectorMap allPendingExample = Ok tt gb' /\
    CPU.a (cpu gb') = 0x40 /\
    CPU.pc (cpu gb') = 0x0042 /\
    CPU.irq (cpu gb') = 0x1E /\
    CPU.ime (cpu gb') = false /\
    CPU.sp (cpu gb') = 0xFFFC /\
    CPU.hram (cpu gb') 0x7D = 0x01 /\ CPU.hram (cpu gb') 0x7C = 0x00.
Proof.
  apply afterwards_ok. vm_compute. repeat split.
Qed.

(** C1 (defect).  [checkInterrupts] services the first pending entry that
    the range over the Go map yields, and Go does not fix that order.  When
    the joypad entry comes first, one step with [IME=1], [IE=0x1F],
    [IRQ=0x1F] enters the handler at 0x0060 and clears the joypad bit,
    leaving [IRQ=0x0F] with the V-blank bit still pending. *)
Theorem interrupt_priority_follows_map_order :
  mapOrder gamepadFirst /\
  CPU.ime (cpu allPendingExample) = true /\
  CPU.ie (cpu allPendingExample) = 0x1F /\
  CPU.irq (cpu allPendingExample) = 0x1F /\
  CPU.pc (cpu allPendingExample) = 0x0100 /\
  exists gb',
    stepInstruction gamepadFirst allPendingExample = Ok tt gb' /\
    CPU.a (cpu gb') = 0x60 /\
    CPU.pc (cpu gb') = 0x0062 /\
    CPU.irq (cpu gb') = 0x0F /\
    CPU.ime (cpu gb') = false /\
    CPU.sp (cpu gb') = 0xFFFC /\
    CPU.hram (cpu gb') 0x7D = 0x01 /\ CPU.hram (cpu gb') 0x7C = 0x00.
Proof.
  split; [exact gamepadFirst_mapOrder|].
  do 4 (split; [vm_compute; reflexivity|]).
  apply afterwards_ok. vm_compute. repeat split.
Qed.

(** * Frame reasoning

    A small logic of invariants for the machine monad, and the footprint
    of the bus, of the DMA engine, of the PPU clock and of the timers on the
    CPU. *)

Section Keeps.
Context {P : Machine.t -> Prop}.

Lemma keeps_ret : forall (A : Type) (x : A), keeps P (ret x).
Proof. intros A x gb H. exact H. Qed.

Lemma keeps_panic : forall (A : Type) (p : Panic), keeps P (@panic A p).
Proof. intros A p gb H. exact I. Qed.

Lemma keeps_bind :
  forall (A B : Type) (c : M A) (k : A -> M B),
    keeps P c -> (forall x, keeps P (k x)) -> keeps P (bind c k).
Proof.
  intros A B c k Hc Hk gb H. unfold bind.
  specialize (Hc gb H). destruct (c gb) as [x gb1|p]; [|exact I].
  apply Hk. exact Hc.
Qed.

Lemma keeps_get : keeps P get.
Proof. intros gb H. exact H. Qed.

Lemma keeps_getCPU : keeps P getCPU.
Proof. intros gb H. exact H. Qed.

Lemma keeps_rd : forall (A : Type) (g : CPU.t -> A), keeps P (rd g).
Proof. intros A g gb H. exact H. Qed.

Lemma keeps_when :
  forall (b : bool) (c : M unit), keeps P c -> keeps P (when b c).
Proof. intros [] c Hc; [exact Hc|apply keeps_ret]. Qed.

Lemma keeps_if :
  forall (A : Type) (b : bool) (c1 c2 : M A),
    keeps P c1 -> keeps P c2 -> keeps P (if b then c1 else c2).
Proof. intros A [] c1 c2 H1 H2; assumption. Qed.

Lemma keeps_orPanic : forall (A : Type) (o : option A), keeps P (orPanic o).
Proof. intros A [x|]; [apply keeps_ret|apply keeps_panic]. Qed.

Lemma keeps_modify :
  forall g : Machine.t -> Machine.t,
    (forall gb, P gb -> P (g gb)) -> keeps P (modify g).
Proof. intros g Hg gb H. apply Hg, H. Qed.
End Keeps.

Section OnCPU.
Context {Q : CPU.t -> Prop}.

Lemma keeps_modCPU :
  forall g : CPU.t -> CPU.t,
    (forall c, Q c -> Q (g c)) -> keeps (onCPU Q) (modCPU g).
Proof. intros g Hg gb H. apply Hg, H. Qed.

Lemma keeps_modPPU : forall g : PPU.t -> PPU.t, keeps (onCPU Q) (modPPU g).
Proof. intros g gb H. exact H. Qed.

Lemma keeps_lockBootROM : keeps (onCPU Q) (modify lockBootROM).
Proof. intros gb H. exact H. Qed.
End OnCPU.

Create HintDb keeps.

#[local] Hint Resolve keeps_ret keeps_panic keeps_get keeps_getCPU keeps_rd
  keeps_orPanic keeps_modPPU keeps_lockBootROM : keeps.

(** Splits a computation along its binds and branches; what is left are the
    calls and the updates of the CPU. *)
Ltac keeps_step :=
  match goal with
  | |- keeps _ (bind _ _) => apply keeps_bind; [|intros]
  | |- keeps _ (when _ _) => apply keeps_when
  | |- keeps _ (if _ then _ else _) => apply keeps_if
  | |- keeps _ (match ?x with _ => _ end) => destruct x
  | |- keeps _ (modCPU _) => apply keeps_modCPU; intros
  | |- keeps _ _ => solve [auto with keeps]
  end.

Ltac keeps_auto := repeat keeps_step.

(** Discharges [Q (set_x v (set_y w c))] from [Q c] for a property [Q] that
    does not depend on the device fields. *)
Ltac device_frame :=
  cbv zeta;
  repeat first
    [ assumption
    | apply frame_hram | apply frame_irq | apply frame_ie_gamepad
    | apply frame_ie_write | apply frame_halt
    | apply frame_button | apply frame_dpad | apply frame_dma
    | apply frame_dmabank | apply frame_dmaindex | apply frame_timer
    | apply frame_tima | apply frame_tma | apply frame_div ].

Section DeviceFootprint.
Context {Q : CPU.t -> Prop} {QF : DeviceFrame Q}.

Lemma cpu_read_frame : forall c addr, Q c -> Q (snd (CPU.Read c addr)).
Proof.
  intros c addr H. unfold CPU.Read.
  repeat match goal with
         | |- context [if ?b then _ else _] => destruct b
         end; cbn [snd]; device_frame.
Qed.

Lemma cpu_write_frame : forall c addr value, Q c -> Q (CPU.Write c addr value).
Proof.
  intros c addr value H. unfold CPU.Write.
  repeat match goal with
         | |- context [if ?b then _ else _] => destruct b
         end; device_frame.
Qed.

Lemma keeps_Read : forall addr, keeps (onCPU Q) (Read addr).
Proof.
  intros addr gb H. unfold Read, busRead.
  destruct (Bus.io (bus gb) addr) as [[]|]; try exact H.
  - destruct (Cart.Read (cart gb) addr); [exact H|exact I].
  - pose proof (cpu_read_frame (cpu gb) addr H) as H'.
    destruct (CPU.Read (cpu gb) addr) as [v c]. exact H'.
  - destruct (ROM.Read (dmgBootROM gb) addr); [exact H|exact I].
Qed.

Lemma keeps_busWrite : forall addr value, keeps (onCPU Q) (busWrite addr value).
Proof.
  intros addr value gb H. unfold busWrite.
  destruct (Bus.io (bus gb) addr) as [[]|]; try exact H.
  apply cpu_write_frame, H.
Qed.

Lemma keeps_Write : forall addr value, keeps (onCPU Q) (Write addr value).
Proof.
  intros addr value. unfold Write.
  pose proof keeps_busWrite. keeps_auto.
Qed.

Lemma keeps_Interrupt : forall i, keeps (onCPU Q) (Interrupt i).
Proof.
  intros i. unfold Interrupt. keeps_auto; device_frame.
Qed.

Lemma keeps_stepDMA : keeps (onCPU Q) stepDMA.
Proof.
  pose proof keeps_Read. pose proof keeps_Write.
  unfold stepDMA. keeps_auto; device_frame.
Qed.

Lemma keeps_stepPixel : keeps (onCPU Q) stepPixel.
Proof.
  pose proof keeps_Interrupt.
  unfold stepPixel, setMode, incLY. keeps_auto.
Qed.

Lemma keeps_checkTimers : keeps (onCPU Q) checkTimers.
Proof.
  pose proof keeps_Interrupt.
  unfold checkTimers. keeps_auto; device_frame.
Qed.

Context {QC : ClockFrame Q}.

Lemma keeps_stepTick : keeps (onCPU Q) stepTick.
Proof.
  pose proof keeps_stepDMA. pose proof keeps_stepPixel.
  pose proof keeps_checkTimers.
  unfold stepTick, stepAudio. keeps_auto. apply frame_clock. assumption.
Qed.

Lemma keeps_stepCycle : keeps (onCPU Q) stepCycle.
Proof.
  pose proof keeps_stepTick. unfold stepCycle. keeps_auto.
Qed.

Lemma keeps_fetchAt : forall reg, keeps (onCPU Q) (fetchAt reg).
Proof.
  pose proof keeps_Read. pose proof keeps_stepCycle.
  intros reg. unfold fetchAt. keeps_auto.
Qed.

Lemma keeps_writeAt : forall reg value, keeps (onCPU Q) (writeAt reg value).
Proof.
  pose proof keeps_Write. pose proof keeps_stepCycle.
  intros reg value. unfold writeAt. keeps_auto.
Qed.
End DeviceFootprint.

(** Tracing reads the bus and nothing else. *)
Section TraceFootprint.
Context {Q : CPU.t -> Prop} {QF : DeviceFrame Q}.

Lemma keeps_safeRead : forall addr, keeps (onCPU Q) (safeRead addr).
Proof.
  intros addr gb H. unfold safeRead.
  pose proof (keeps_Read addr gb H) as HR.
  destruct (Read addr gb); [exact HR|exact H].
Qed.

Lemma keeps_fetch8 : forall addr, keeps (onCPU Q) (fetch8 addr).
Proof.
  pose proof keeps_safeRead. intros addr. unfold fetch8. keeps_auto.
Qed.

Lemma keeps_fetch16 : forall addr, keeps (onCPU Q) (fetch16 addr).
Proof.
  pose proof keeps_safeRead. intros addr. unfold fetch16. keeps_auto.
Qed.

Lemma keeps_Disassemble : forall addr, keeps (onCPU Q) (Disassemble addr).
Proof.
  pose proof keeps_fetch8. pose proof keeps_fetch16.
  intros addr. unfold Disassemble. keeps_auto.
Qed.

Lemma keeps_traceBytes : forall k i, keeps (onCPU Q) (traceBytes k i).
Proof.
  pose proof keeps_Read.
  induction k as [|k IH]; intros i; cbn [traceBytes]; keeps_auto.
Qed.

Lemma keeps_trace : keeps (onCPU Q) trace.
Proof.
  pose proof keeps_Disassemble. pose proof keeps_traceBytes.
  unfold trace. keeps_auto.
Qed.
End TraceFootprint.
(** * Invariants of the register file across an instruction *)

(** Discharges [Q (g c)] from [Q c] for an update [g] of the register file
    made by an instruction. *)
Ltac core_frame :=
  cbv beta;
  repeat first
    [ assumption
    | apply core_setReg | apply core_sp | apply core_pc | apply core_ime
    | apply core_stop | apply core_setAF | apply core_setBC | apply core_setDE
    | apply core_setHL | apply core_setCarryFlag | apply core_setHalfCarryFlag
    | apply core_setSubtractFlag | apply core_setZeroFlag
    | apply core_clearFlags | apply frame_halt ].

Create HintDb ops.

#[local] Hint Unfold cpuOpNop cpuOpStop cpuOpHalt cpuOpSetCarryFlag
  cpuOpComplementCarryFlag cpuOpUndefined cpuOpLoad cpuOpLoadAt cpuOpLoadAt16
  cpuOpLoadRR cpuOpLoad16 cpuOpPush cpuOpIncrement cpuOpIncrementAt
  cpuOpIncrementRR cpuOpIncrement16 cpuOpDecrement cpuOpDecrementAt
  cpuOpDecrementRR cpuOpDecrement16 cpuOpRotateLeft cpuOpRotateRight
  cpuOpRotateLeftCarry cpuOpRotateRightCarry cpuOpDecimalAdjust
  cpuOpBitwiseComplement cpuOpAddRR cpuOpAdd cpuOpAddSP cpuOpSub cpuOpAnd
  cpuOpXor cpuOpOr cpuOpCompare cpuOpJumpFlag cpuOpJumpRel cpuOpJumpRelFlag
  cpuOpCall cpuOpCallFlag cpuOpReturn cpuOpReturnFlag cpuOpRestart
  cpuOpReturnInterrupt cpuOpCBRotateLeftCarry cpuOpCBRotateRightCarry
  cpuOpCBRotateLeft cpuOpCBRotateRight cpuOpCBArithmeticShiftLeft
  cpuOpCBArithmeticShiftRight cpuOpCBSwap cpuOpCBLogicalShiftRight cpuOpCBBit
  cpuOpCBBitReset cpuOpCBBitSet incPC incSP decSP : ops.

Section CoreFootprint.
Context {Q : CPU.t -> Prop}.
Context {QD : DeviceFrame Q} {QC : ClockFrame Q} {QR : CoreFrame Q}.

(** ** Fetching, the stack and jumps *)

Lemma keeps_cpuFetch : keeps (onCPU Q) cpuFetch.
Proof.
  pose proof (keeps_Read (Q := Q)). pose proof (keeps_stepCycle (Q := Q)).
  unfold cpuFetch, incPC. keeps_auto; core_frame.
Qed.

Lemma keeps_cpuFetchSigned : keeps (onCPU Q) cpuFetchSigned.
Proof.
  pose proof (keeps_Read (Q := Q)). pose proof (keeps_stepCycle (Q := Q)).
  unfold cpuFetchSigned, incPC. keeps_auto; core_frame.
Qed.

Lemma keeps_cpuFetch16 : keeps (onCPU Q) cpuFetch16.
Proof.
  pose proof (keeps_Read (Q := Q)). pose proof (keeps_stepCycle (Q := Q)).
  unfold cpuFetch16, incPC. keeps_auto; core_frame.
Qed.

Lemma keeps_cpuPush : forall dword, keeps (onCPU Q) (cpuPush dword).
Proof.
  pose proof (keeps_Write (Q := Q)). pose proof (keeps_stepCycle (Q := Q)).
  intros dword. unfold cpuPush, decSP. keeps_auto; core_frame.
Qed.

Lemma keeps_cpuPop : keeps (onCPU Q) cpuPop.
Proof.
  pose proof (keeps_Read (Q := Q)). pose proof (keeps_stepCycle (Q := Q)).
  unfold cpuPop, incSP. keeps_auto; core_frame.
Qed.

Lemma keeps_cpuOpJump : forall addr, keeps (onCPU Q) (cpuOpJump addr).
Proof.
  pose proof (keeps_stepCycle (Q := Q)).
  intros addr. unfold cpuOpJump. keeps_auto; core_frame.
Qed.

(** ** Operations on a register passed by address *)

Lemma keeps_withReg :
  forall r op, (forall reg, keeps (onCPU Q) (op reg)) -> keeps (onCPU Q) (withReg r op).
Proof. intros r op Hop. unfold withReg. keeps_auto; core_frame. Qed.

Lemma keeps_withReg2 :
  forall r1 r2 op,
    (forall v1 v2, keeps (onCPU Q) (op v1 v2)) -> keeps (onCPU Q) (withReg2 r1 r2 op).
Proof. intros r1 r2 op Hop. unfold withReg2. keeps_auto; core_frame. Qed.

Lemma keeps_withSP :
  forall op, (forall reg, keeps (onCPU Q) (op reg)) -> keeps (onCPU Q) (withSP op).
Proof. intros op Hop. unfold withSP. keeps_auto; core_frame. Qed.

(** ** The operations and the dispatch tables *)

Ltac keeps_ops_step :=
  match goal with
  | |- keeps _ (withReg _ _) => apply keeps_withReg; intros
  | |- keeps _ (withReg2 _ _ _) => apply keeps_withReg2; intros
  | |- keeps _ (withSP _) => apply keeps_withSP; intros
  | |- keeps _ (let '(_, _) := ?x in _) => destruct x
  | _ => keeps_step
  end.

Ltac keeps_ops :=
  pose proof (keeps_Read (Q := Q)); pose proof (keeps_Write (Q := Q));
  pose proof (keeps_stepCycle (Q := Q)); pose proof (keeps_fetchAt (Q := Q));
  pose proof (keeps_writeAt (Q := Q)); pose proof keeps_cpuFetch;
  pose proof keeps_cpuFetchSigned; pose proof keeps_cpuFetch16;
  pose proof keeps_cpuPush; pose proof keeps_cpuPop; pose proof keeps_cpuOpJump;
  autounfold with ops; repeat keeps_ops_step; try core_frame.

Lemma keeps_cbOperation :
  forall op b reg, keeps (onCPU Q) (cbOperation op b reg).
Proof.
  intros op b reg. unfold cbOperation.
  repeat match goal with
         | |- keeps _ (match ?x with _ => _ end) => destruct x
         end; keeps_ops.
Qed.

Lemma keeps_cpuDispatchCB : forall op, keeps (onCPU Q) (cpuDispatchCB op).
Proof.
  pose proof keeps_cbOperation.
  intros op. unfold cpuDispatchCB, through, deref.
  keeps_ops.
Qed.

Lemma keeps_cpuDispatch : forall op, keeps (onCPU Q) (cpuDispatch op).
Proof.
  intros op. unfold cpuDispatch.
  repeat match goal with
         | |- keeps _ (match ?x with _ => _ end) => destruct x
         end; keeps_ops.
Qed.

(** ** Interrupt entry and the instruction step *)

Lemma keeps_cpuInterrupt : forall vector, keeps (onCPU Q) (cpuInterrupt vector).
Proof. intros vector. unfold cpuInterrupt. keeps_ops. Qed.

Lemma keeps_rangeInterrupts : forall order, keeps (onCPU Q) (rangeInterrupts order).
Proof.
  pose proof keeps_cpuInterrupt.
  induction order as [|[flag vector] rest IH]; cbn [rangeInterrupts]; keeps_ops.
  apply frame_irq. core_frame.
Qed.

Lemma keeps_checkInterrupts : forall order, keeps (onCPU Q) (checkInterrupts order).
Proof.
  pose proof keeps_rangeInterrupts.
  intros order. unfold checkInterrupts. keeps_ops.
Qed.

Lemma keeps_stepInstruction : forall order, keeps (onCPU Q) (stepInstruction order).
Proof.
  pose proof keeps_checkInterrupts.
  pose proof keeps_cpuDispatch.
  pose proof keeps_cpuDispatchCB.
  pose proof (keeps_trace (Q := Q)).
  intros order. unfold stepInstruction. keeps_ops.
Qed.
End CoreFootprint.

(** * The flag register *)

(** ** Bit-level facts *)

Lemma uint8_land : forall z, uint8 z = Z.land z 255.
Proof. intros z. unfold uint8. symmetry. apply (Z.land_ones z 8). lia. Qed.

Lemma land_lor_low_nibble :
  forall w m, Z.land w 0x0F = 0 -> Z.land m 0x0F = 0 -> Z.land (Z.lor w m) 0x0F = 0.
Proof. intros w m Hw Hm. rewrite Z.land_lor_distr_l, Hw, Hm. reflexivity. Qed.

Lemma land_land_low_nibble :
  forall w m, Z.land w 0x0F = 0 -> Z.land (Z.land w m) 0x0F = 0.
Proof.
  intros w m Hw.
  rewrite <- Z.land_assoc, (Z.land_comm m), Z.land_assoc, Hw. reflexivity.
Qed.

(** Setting or clearing one of the bits 4..7 leaves a zero low nibble zero. *)
Lemma setBit_low_nibble :
  forall w b set,
    4 <= b <= 7 -> Z.land w 0x0F = 0 -> Z.land (setBit w b set) 0x0F = 0.
Proof.
  intros w b set Hb Hw. unfold setBit. destruct set.
  - apply land_lor_low_nibble; [exact Hw|].
    assert (b = 4 \/ b = 5 \/ b = 6 \/ b = 7) as [->|[->|[->| ->]]] by lia;
      reflexivity.
  - apply land_land_low_nibble, Hw.
Qed.

(** ** setAF and the flag helpers *)

(** [setAF] masks the low byte with 0xf0, whatever [F] held before. *)
Lemma setAF_flagsOK : forall value c, flagsOK (CPU.setAF value c).
Proof.
  intros value c. unfold flagsOK, CPU.setAF. cbn.
  rewrite uint8_land, <- !Z.land_assoc. cbn. apply Z.land_0_r.
Qed.

Lemma setCarryFlag_flagsOK :
  forall set c, flagsOK c -> flagsOK (CPU.setCarryFlag set c).
Proof. intros set c H. apply setBit_low_nibble; [lia|exact H]. Qed.

Lemma setHalfCarryFlag_flagsOK :
  forall set c, flagsOK c -> flagsOK (CPU.setHalfCarryFlag set c).
Proof. intros set c H. apply setBit_low_nibble; [lia|exact H]. Qed.

Lemma setSubtractFlag_flagsOK :
  forall set c, flagsOK c -> flagsOK (CPU.setSubtractFlag set c).
Proof. intros set c H. apply setBit_low_nibble; [lia|exact H]. Qed.

Lemma setZeroFlag_flagsOK :
  forall val c, flagsOK c -> flagsOK (CPU.setZeroFlag val c).
Proof. intros val c H. apply setBit_low_nibble; [lia|exact H]. Qed.

Lemma clearFlags_flagsOK :
  forall flags c, flagsOK c -> flagsOK (CPU.clearFlags flags c).
Proof. intros flags c H. apply land_land_low_nibble, H. Qed.

Lemma setReg_flagsOK : forall r v c, flagsOK c -> flagsOK (setReg r v c).
Proof. intros [] v c H; exact H. Qed.

#[local] Instance flagsOK_device : DeviceFrame flagsOK.
Proof. constructor; intros; assumption. Qed.

#[local] Instance flagsOK_clock : ClockFrame flagsOK.
Proof. intros v c H; exact H. Qed.

#[local] Instance flagsOK_core : CoreFrame flagsOK.
Proof.
  constructor; intros;
    first [ apply setReg_flagsOK; assumption
          | apply setAF_flagsOK
          | apply setCarryFlag_flagsOK; assumption
          | apply setHalfCarryFlag_flagsOK; assumption
          | apply setSubtractFlag_flagsOK; assumption
          | apply setZeroFlag_flagsOK; assumption
          | apply clearFlags_flagsOK; assumption
          | assumption ].
Qed.

Create HintDb flags.

#[local] Hint Resolve setAF_flagsOK setCarryFlag_flagsOK setHalfCarryFlag_flagsOK
  setSubtractFlag_flagsOK setZeroFlag_flagsOK clearFlags_flagsOK : flags.

(** C8.  If the low nibble of [F] is zero, it is zero again after every
    instruction step, after every primary and every CB-prefixed opcode, and
    after each of the helpers through which the source writes [F]: [setAF]
    (used by POP AF) and the four flag setters and [clearFlags] (used by the
    ALU operations). *)
Theorem flags_low_nibble_stays_zero :
  forall gb : Machine.t,
    flagsOK (cpu gb) ->
    (forall order, whenever (stepInstruction order gb) (onCPU flagsOK)) /\
    (forall op, whenever (cpuDispatch op gb) (onCPU flagsOK)) /\
    (forall op, whenever (cpuDispatchCB op gb) (onCPU flagsOK)) /\
    (forall value, flagsOK (CPU.setAF value (cpu gb))) /\
    (forall set, flagsOK (CPU.setCarryFlag set (cpu gb))) /\
    (forall set, flagsOK (CPU.setHalfCarryFlag set (cpu gb))) /\
    (forall set, flagsOK (CPU.setSubtractFlag set (cpu gb))) /\
    (forall val, flagsOK (CPU.setZeroFlag val (cpu gb))) /\
    (forall flags, flagsOK (CPU.clearFlags flags (cpu gb))).
Proof.
  intros gb H.
  split; [intros order; apply keeps_stepInstruction, H|].
  split; [intros op; apply keeps_cpuDispatch, H|].
  split; [intros op; apply keeps_cpuDispatchCB, H|].
  repeat split; intros; auto with flags.
Qed.

Lemma flags_low_nibble_witness :
  flagsOK (cpu popAFExample) /\
  afterwards (stepInstruction interruptVectorMap popAFExample)
    (fun gb' => CPU.a (cpu gb') = 0xFF /\ CPU.f (cpu gb') = 0xF0) /\
  whenever (stepInstruction interruptVectorMap popAFExample) (onCPU flagsOK).
Proof.
  assert (H : flagsOK (cpu popAFExample)) by (vm_compute; reflexivity).
  split; [exact H|].
  split; [vm_compute; split; reflexivity|].
  exact (proj1 (flags_low_nibble_stays_zero popAFExample H) interruptVectorMap).
Defined.

(** [LD HL,SP+e8] never changes [F]: the defect recorded for C3 shows on
    every state. *)
#[local] Instance fIs_device : forall k, DeviceFrame (fun c => CPU.f c = k).
Proof. intros k. constructor; intros; assumption. Qed.

#[local] Instance fIs_clock : forall k, ClockFrame (fun c => CPU.f c = k).
Proof. intros k v c H; exact H. Qed.

Lemma ld_hl_sp_leaves_flags :
  forall gb,
    whenever (cpuDispatch 0xF8 gb) (fun gb' => CPU.f (cpu gb') = CPU.f (cpu gb)).
Proof.
  intros gb.
  assert (K : keeps (onCPU (fun c => CPU.f c = CPU.f (cpu gb))) (cpuDispatch 0xF8)).
  { pose proof (keeps_Read (Q := fun c => CPU.f c = CPU.f (cpu gb))).
    pose proof (keeps_stepCycle (Q := fun c => CPU.f c = CPU.f (cpu gb))).
    change (cpuDispatch 0xF8) with
      (x1 <- rd CPU.sp ;; x2 <- cpuFetchSigned ;;
       modCPU (CPU.setHL (uint16 (int (int x1 + int x2))))).
    unfold cpuFetchSigned, incPC. keeps_auto; assumption. }
  apply K. reflexivity.
Qed.

(** * The interrupt enable mask *)

#[local] Instance ieMasked_device : DeviceFrame ieMasked.
Proof.
  constructor; intros; try assumption.
  - unfold ieMasked in *. cbn.
    rewrite Z.land_lor_distr_l. f_equal. assumption.
  - unfold ieMasked. cbn. rewrite <- Z.land_assoc. reflexivity.
Qed.

#[local] Instance ieMasked_clock : ClockFrame ieMasked.
Proof. intros v c H; exact H. Qed.

#[local] Instance ieMasked_core : CoreFrame ieMasked.
Proof. constructor; intros; try assumption. destruct r; assumption. Qed.

(** The half of C6 that holds: [IE & 0x1F == IE] is kept by every bus read,
    every bus write and every instruction step. *)
Lemma ie_stays_masked :
  forall gb : Machine.t,
    ieMasked (cpu gb) ->
    (forall addr, whenever (Read addr gb) (onCPU ieMasked)) /\
    (forall addr value, whenever (Write addr value gb) (onCPU ieMasked)) /\
    (forall order, whenever (stepInstruction order gb) (onCPU ieMasked)).
Proof.
  intros gb H.
  split; [intros addr; apply keeps_Read, H|].
  split; [intros addr value; apply keeps_Write, H|].
  intros order. apply keeps_stepInstruction, H.
Qed.
(** * CB-prefixed operations on (HL) *)

Lemma whenever_Ok :
  forall (A : Type) (r : Res A) (Q : Machine.t -> Prop) x gb',
    whenever r Q -> r = Ok x gb' -> Q gb'.
Proof. intros A r Q x gb' H E. rewrite E in H. exact H. Qed.

Lemma triple_bind :
  forall (A B : Type) (P R S : Machine.t -> Prop) (c : M A) (k : A -> M B),
    triple P c R -> (forall x, triple R (k x) S) -> triple P (bind c k) S.
Proof.
  intros A B P R S c k Hc Hk gb H. unfold bind.
  specialize (Hc gb H). destruct (c gb) as [x gb1|p]; [|exact I].
  apply Hk. exact Hc.
Qed.

(** ** What the CB operations touch: the flags only *)

#[local] Instance hlIs_device : forall h0 l0, DeviceFrame (hlIs h0 l0).
Proof. intros h0 l0. constructor; intros; assumption. Qed.

#[local] Instance hlIs_clock : forall h0 l0, ClockFrame (hlIs h0 l0).
Proof. intros h0 l0 v c H; exact H. Qed.

#[local] Instance hlIs_flag : forall h0 l0, FlagFrame (hlIs h0 l0).
Proof. intros h0 l0 v c H; exact H. Qed.

#[local] Instance clockIs_device : forall k, DeviceFrame (clockIs k).
Proof. intros k. constructor; intros; assumption. Qed.

#[local] Instance clockIs_flag : forall k, FlagFrame (clockIs k).
Proof. intros k v c H; exact H. Qed.

Section FlagFootprint.
Context {Q : CPU.t -> Prop} {QF : FlagFrame Q}.

Lemma cbOperation_writes_flags_only :
  forall op b reg, keeps (onCPU Q) (cbOperation op b reg).
Proof.
  intros op b reg. unfold cbOperation.
  repeat match goal with
         | |- keeps _ (match ?x with _ => _ end) => destruct x
         end;
    autounfold with ops; keeps_auto;
    unfold CPU.clearFlags, CPU.setCarryFlag, CPU.setZeroFlag,
      CPU.setHalfCarryFlag;
    apply frame_f; assumption.
Qed.
End FlagFootprint.

(** ** The cycle counter *)

Lemma uint_succ : forall k n, uint (uint (k + n) + 1) = uint (k + (n + 1)).
Proof.
  intros k n. unfold uint.
  rewrite Z.add_mod_idemp_l by lia. f_equal. lia.
Qed.

Lemma stepTick_clock :
  forall k, triple (onCPU (clockIs k)) stepTick (onCPU (clockIs (uint (k + 1)))).
Proof.
  intros k. unfold stepTick.
  pose proof (keeps_stepDMA (Q := clockIs k)) as H1.
  pose proof (keeps_stepPixel (Q := clockIs k)) as H2.
  pose proof (keeps_checkTimers (Q := clockIs k)) as H3.
  apply triple_bind with (R := onCPU (clockIs k)); [exact H1|intros _].
  apply triple_bind with (R := onCPU (clockIs k)); [exact H2|intros _].
  apply triple_bind with (R := onCPU (clockIs k)); [intros gb H; exact H|intros _].
  apply triple_bind with (R := onCPU (clockIs k)); [exact H3|intros _].
  intros gb H. unfold onCPU, clockIs in *. cbn. rewrite H. reflexivity.
Qed.

(** A machine cycle is four ticks of the clock. *)
Lemma stepCycle_clock :
  forall k, triple (onCPU (clockIs k)) stepCycle (onCPU (clockIs (uint (k + 4)))).
Proof.
  intros k. unfold stepCycle.
  apply triple_bind with (R := onCPU (clockIs (uint (k + 1))));
    [apply stepTick_clock|intros _].
  apply triple_bind with (R := onCPU (clockIs (uint (k + 2))));
    [|intros _].
  { replace (uint (k + 2)) with (uint (uint (k + 1) + 1))
      by (rewrite uint_succ; reflexivity).
    apply stepTick_clock. }
  apply triple_bind with (R := onCPU (clockIs (uint (k + 3))));
    [|intros _].
  { replace (uint (k + 3)) with (uint (uint (k + 2) + 1))
      by (rewrite uint_succ; reflexivity).
    apply stepTick_clock. }
  replace (uint (k + 4)) with (uint (uint (k + 3) + 1))
    by (rewrite uint_succ; reflexivity).
  apply stepTick_clock.
Qed.

(** ** The read-modify-write of (HL) *)

(** The opcodes whose operand is (HL). *)
Lemma hl_operand_opcodes :
  forall op, 0 <= op < 256 -> op mod 8 = 6 ->
    exists k, 0 <= k < 32 /\ op = 8 * k + 6.
Proof.
  intros op Hop Hmod. exists (op / 8). Z.div_mod_to_equations. lia.
Qed.

(** For the opcodes 0x46, 0x4E, ..., 0x7E the operation is [BIT]. *)
Lemma cbOperation_bit :
  forall op b reg,
    0 <= op < 256 -> op mod 8 = 6 -> Z.land op 0xC0 = 0x40 ->
    cbOperation op b reg = cpuOpCBBit b reg.
Proof.
  intros op b reg Hop Hmod Hbit.
  destruct (hl_operand_opcodes op Hop Hmod) as [k [Hk ->]].
  assert (k = 0 \/ k = 1 \/ k = 2 \/ k = 3 \/ k = 4 \/ k = 5 \/ k = 6 \/ k = 7 \/
          k = 8 \/ k = 9 \/ k = 10 \/ k = 11 \/ k = 12 \/ k = 13 \/ k = 14 \/
          k = 15 \/ k = 16 \/ k = 17 \/ k = 18 \/ k = 19 \/ k = 20 \/ k = 21 \/
          k = 22 \/ k = 23 \/ k = 24 \/ k = 25 \/ k = 26 \/ k = 27 \/ k = 28 \/
          k = 29 \/ k = 30 \/ k = 31) as Hc by lia.
  repeat (destruct Hc as [-> | Hc]); try subst k;
    cbn in Hbit; try discriminate; reflexivity.
Qed.

(** [BIT] hands back the operand as it received it. *)
Lemma cpuOpCBBit_value :
  forall b reg gb, exists gb', cpuOpCBBit b reg gb = Ok reg gb'.
Proof.
  intros b reg gb. unfold cpuOpCBBit, bind, modCPU, ret. eexists. reflexivity.
Qed.

Lemma cpuDispatchCB_hl :
  forall op gb,
    op mod 8 = 6 ->
    cpuDispatchCB op gb
    = (val <- Read (CPU.hl (cpu gb)) ;; stepCycle ;;
       val' <- cbOperation op (uint8 (op / 8) mod 8) val ;;
       Write (CPU.hl (cpu gb)) val' ;; stepCycle) gb.
Proof.
  intros op gb Hmod.
  unfold cpuDispatchCB. rewrite Hmod. cbv iota.
  unfold through, deref, fetchAt, writeAt, bind, rd, ret.
  set (h0 := CPU.h (cpu gb)). set (l0 := CPU.l (cpu gb)).
  assert (H0 : onCPU (hlIs h0 l0) gb) by (split; reflexivity).
  pose proof (keeps_Read (CPU.hl (cpu gb)) gb H0) as HR.
  destruct (Read (CPU.hl (cpu gb)) gb) as [val gb1|p]; [|reflexivity].
  pose proof (keeps_stepCycle gb1 HR) as HS.
  destruct (stepCycle gb1) as [[] gb2|p]; [|reflexivity].
  pose proof (cbOperation_writes_flags_only op (uint8 (op / 8) mod 8) val gb2 HS) as HC.
  destruct (cbOperation op (uint8 (op / 8) mod 8) val gb2) as [val' gb3|p];
    [|reflexivity].
  destruct HC as [Hh Hl]. unfold CPU.hl. rewrite Hh, Hl. reflexivity.
Qed.

Lemma cpuDispatchCB_hl_clock :
  forall op gb,
    op mod 8 = 6 ->
    whenever (cpuDispatchCB op gb)
      (fun gb' => CPU.clock (cpu gb') = uint (CPU.clock (cpu gb) + 8)).
Proof.
  intros op gb Hmod. rewrite (cpuDispatchCB_hl op gb Hmod).
  set (k := CPU.clock (cpu gb)).
  assert (T : triple (onCPU (clockIs k))
                (val <- Read (CPU.hl (cpu gb)) ;; stepCycle ;;
                 val' <- cbOperation op (uint8 (op / 8) mod 8) val ;;
                 Write (CPU.hl (cpu gb)) val' ;; stepCycle)
                (onCPU (clockIs (uint (k + 8))))).
  { apply triple_bind with (R := onCPU (clockIs k));
      [apply (keeps_Read (Q := clockIs k))|intros val].
    apply triple_bind with (R := onCPU (clockIs (uint (k + 4))));
      [apply stepCycle_clock|intros _].
    apply triple_bind with (R := onCPU (clockIs (uint (k + 4))));
      [apply (cbOperation_writes_flags_only (Q := clockIs (uint (k + 4))))|intros val'].
    apply triple_bind with (R := onCPU (clockIs (uint (k + 4))));
      [apply (keeps_Write (Q := clockIs (uint (k + 4))))|intros _].
    replace (uint (k + 8)) with (uint (uint (k + 4) + 4)).
    - apply stepCycle_clock.
    - unfold uint. rewrite Z.add_mod_idemp_l by lia. f_equal. lia. }
  apply T. reflexivity.
Qed.

(** C9.  For every CB-prefixed opcode whose operand is (HL), the dispatcher
    reads one byte from address [HL], lets the clock run one machine cycle,
    applies the operation, writes the resulting byte back to address [HL] and
    lets the clock run another machine cycle.  For [BIT b,(HL)] the byte
    written back is the byte read.  Whenever the dispatch returns, the cycle
    counter has advanced by eight ticks, two machine cycles. *)
Theorem cb_hl_operand_is_read_and_written_back :
  forall (op : Z) (gb : Machine.t),
    0 <= op < 256 -> op mod 8 = 6 ->
    let b := uint8 (op / 8) mod 8 in
    let hl := CPU.hl (cpu gb) in
    cpuDispatchCB op gb
    = (val <- Read hl ;; stepCycle ;;
       val' <- cbOperation op b val ;;
       Write hl val' ;; stepCycle) gb
    /\ (Z.land op 0xC0 = 0x40 ->
        cpuDispatchCB op gb
        = (val <- Read hl ;; stepCycle ;;
           cpuOpCBBit b val ;;
           Write hl val ;; stepCycle) gb)
    /\ whenever (cpuDispatchCB op gb)
         (fun gb' => CPU.clock (cpu gb') = uint (CPU.clock (cpu gb) + 8)).
Proof.
  intros op gb Hop Hmod b hl.
  split; [apply cpuDispatchCB_hl, Hmod|].
  split; [|apply cpuDispatchCB_hl_clock, Hmod].
  intros Hbit. rewrite (cpuDispatchCB_hl op gb Hmod). fold b. fold hl.
  unfold bind.
  destruct (Read hl gb) as [val gb1|p]; [|reflexivity].
  destruct (stepCycle gb1) as [[] gb2|p]; [|reflexivity].
  rewrite (cbOperation_bit op b val Hop Hmod Hbit).
  destruct (cpuOpCBBit_value b val gb2) as [gb3 E]. rewrite E. reflexivity.
Qed.

Lemma cb_hl_operand_witness :
  let op := 0x46 in
  let gb := bitHLExample in
  let b := uint8 (op / 8) mod 8 in
  let hl := CPU.hl (cpu gb) in
  cpuDispatchCB op gb
  = (val <- Read hl ;; stepCycle ;;
     val' <- cbOperation op b val ;;
     Write hl val' ;; stepCycle) gb
  /\ (Z.land op 0xC0 = 0x40 ->
      cpuDispatchCB op gb
      = (val <- Read hl ;; stepCycle ;;
         cpuOpCBBit b val ;;
         Write hl val ;; stepCycle) gb)
  /\ whenever (cpuDispatchCB op gb)
       (fun gb' => CPU.clock (cpu gb') = uint (CPU.clock (cpu gb) + 8)).
Proof.
  apply (cb_hl_operand_is_read_and_written_back 0x46 bitHLExample);
    [lia|reflexivity].
Defined.

(** The write of [BIT 0,(HL)] reaches the bus: with [HL] at the DMA
    register, the dispatch leaves a DMA transfer from page 0xFF running
    (four of its bytes are copied during the write's machine cycle) and
    eight ticks on the clock. *)
Lemma bit_hl_write_reaches_the_bus :
  CPU.dma (cpu bitHLExample) = false /\
  CPU.hl (cpu bitHLExample) = 0xFF46 /\
  afterwards (cpuDispatchCB 0x46 bitHLExample)
    (fun gb' =>
       CPU.dma (cpu gb') = true /\ CPU.dmabank (cpu gb') = 0xFF /\
       CPU.dmaindex (cpu gb') = 4 /\ CPU.clock (cpu gb') = 8).
Proof.
  split; [reflexivity|]. split; [reflexivity|].
  vm_compute. repeat split.
Qed.
